(** * costctl: the reporting and aggregation engine (reporter/reporter.go)

    A shallow embedding of the Go package [reporter] of misty-step/costctl and
    of the part of package [parser] it reads, with the properties of the
    report it generates; then of the functions of package [parser] that
    build the sessions (parser/parser.go), of the text and JSON formats
    of a report (formats/formats.go) and of the commands [report] and
    [agents] that call them (main.go).

    Conventions of the embedding:
    - a Go [int] is a [Z] kept in the 64-bit two's complement range by
      [wrap64] after every arithmetic operation;
    - a Go [float64] is a primitive binary64 [float]; [+], [/], [>] are the
      IEEE operations of [PrimFloat];
    - a Go [string] is a [string] (a sequence of bytes);
    - a Go map is a [gmap]; the order in which [range] visits a map is
      unspecified in Go, it is an explicit argument ([MapOrder]);
    - the two readings of the clock and the five map orders of one call of
      [Generate] are gathered in a record [Env]. *)

From Stdlib Require Import ZArith Lia Bool List Ascii String Floats.
From Stdlib Require Import Sorting.Permutation Sorting.Sorted Structures.OrderedTypeEx.
From stdpp Require Import base option list gmap strings fin_maps sorting.

Local Open Scope string_scope.
Local Open Scope Z_scope.

(** ** Go's [int] (64 bits) *)

Definition min_int : Z := - 2 ^ 63.
Definition max_int : Z := 2 ^ 63 - 1.

Definition wrap64 (z : Z) : Z := (z + 2 ^ 63) mod 2 ^ 64 - 2 ^ 63.

(** [a + b] and [a++] on [int]. *)
Definition int_add (a b : Z) : Z := wrap64 (a + b).
Definition int_succ (a : Z) : Z := int_add a 1.

(** ** Go's slices

    A slice is a list (a nil slice is the empty list, except where noted);
    [append s x] is Go's [append(s, x)]. *)

Definition append {A : Type} (s : list A) (x : A) : list A := (s ++ [x])%list.

(** ** Go's [float64] *)

Definition float64 : Set := float.

Definition fzero : float64 := PrimFloat.zero.
Definition fadd (a b : float64) : float64 := PrimFloat.add a b.
Definition fdiv (a b : float64) : float64 := PrimFloat.div a b.
(** [a > b] *)
Definition fgt (a b : float64) : bool := PrimFloat.ltb b a.
(** [a >= b] and [a == b], used in statements only. *)
Definition fge (a b : float64) : bool := PrimFloat.leb b a.
Definition feq (a b : float64) : bool := PrimFloat.eqb a b.

(** The conversion [float64(n)] of an [int]: the nearest binary64 value,
    ties to even. *)
Definition float64_of_int (n : Z) : float64 :=
  SF2Prim (binary_normalize prec emax n 0 false).

(** ** Go's [fmt.Sprintf]

    The rendering of verbs such as [%.2f] belongs to Go's library; a
    formatted string is kept as its format and its arguments. The one
    call with the format ["%s"] and a string argument is that string. *)

Inductive FmtArg : Set :=
| ArgString (s : string)
| ArgFloat (f : float64)
| ArgInt (n : Z).

Record Formatted : Set := Sprintf { format : string; args : list FmtArg }.

Definition Sprintf_s (s : string) : string := s.

(** ** Go's [time] package

    A [Time] is an instant, counted in seconds and nanoseconds since
    January 1, year 1, 00:00:00 UTC, and a location. A location maps an
    instant to the offset of its zone east of UTC and to the bounds of the
    period during which that offset is in force. The integers of the
    calendar computations are unbounded here. The times this package
    compares carry no monotonic clock reading: they come from [time.Date]
    and from parsed logs. *)

Module time.

Record Location : Type := mkLocation {
  lookup : Z -> Z * Z * Z  (* instant ↦ (offset, start, end) *)
}.

Definition UTC : Location := mkLocation (fun _ => (0, - 2 ^ 63, 2 ^ 63 - 1)).

(** [time.FixedZone]. *)
Definition FixedZone (offset : Z) : Location :=
  mkLocation (fun _ => (offset, - 2 ^ 63, 2 ^ 63 - 1)).

Record Time : Type := mkTime {
  sec : Z;
  nsec : Z;
  loc : Location
}.

(** The zero value [time.Time{}]. *)
Definition zero : Time := mkTime 0 0 UTC.

Definition IsZero (t : Time) : bool := (sec t =? 0) && (nsec t =? 0).

Definition After (t u : Time) : bool :=
  (sec t >? sec u) || ((sec t =? sec u) && (nsec t >? nsec u)).

Definition Before (t u : Time) : bool :=
  (sec t <? sec u) || ((sec t =? sec u) && (nsec t <? nsec u)).

Definition Equal (t u : Time) : bool :=
  (sec t =? sec u) && (nsec t =? nsec u).

Definition Location_of (t : Time) : Location := loc t.

(** [t.UTC()]: the same instant, in UTC. *)
Definition In_UTC (t : Time) : Time := mkTime (sec t) (nsec t) UTC.

Definition secondsPerDay : Z := 86400.
Definition daysPer400Years : Z := 365 * 400 + 97.
Definition daysPer100Years : Z := 365 * 100 + 24.
Definition daysPer4Years : Z := 365 * 4 + 1.

Definition isLeap (year : Z) : bool :=
  (year mod 4 =? 0) && (negb (year mod 100 =? 0) || (year mod 400 =? 0)).

(** Days before the month of index [m] (0 for January) in a non-leap year. *)
Definition daysBefore (m : Z) : Z :=
  nth (Z.to_nat m) [0; 31; 59; 90; 120; 151; 181; 212; 243; 273; 304; 334; 365] 0.

(** Days from January 1 of year 1 to January 1 of [year]. *)
Definition daysSinceEpoch (year : Z) : Z :=
  let y := year - 1 in
  365 * y + y / 4 - y / 100 + y / 400.

(** Seconds since the epoch of the wall clock of [t] in its location. *)
Definition abs (t : Time) : Z :=
  let '(offset, _, _) := lookup (loc t) (sec t) in
  sec t + offset.

(** Year and day of the year (from 0) of a count of days. *)
Definition yearDay (days : Z) : Z * Z :=
  let n400 := days / daysPer400Years in
  let d := days - daysPer400Years * n400 in
  let n100 := d / daysPer100Years in
  let n100 := n100 - n100 / 4 in
  let d := d - daysPer100Years * n100 in
  let n4 := d / daysPer4Years in
  let d := d - daysPer4Years * n4 in
  let n := d / 365 in
  let n := n - n / 4 in
  let d := d - 365 * n in
  (400 * n400 + 100 * n100 + 4 * n4 + n + 1, d).

(** [(year, month, day)] of a count of days. *)
Definition civil (days : Z) : Z * Z * Z :=
  let '(year, yday) := yearDay days in
  if isLeap year && (yday =? 31 + 29 - 1) then (year, 2, 29)
  else
    let day := if isLeap year && (yday >? 31 + 29 - 1) then yday - 1 else yday in
    let month := day / 31 in
    let e := daysBefore (month + 1) in
    if day >=? e then (year, month + 2, day - e + 1)
    else (year, month + 1, day - daysBefore month + 1).

Definition date (t : Time) : Z * Z * Z := civil (abs t / secondsPerDay).

Definition Year (t : Time) : Z := fst (fst (date t)).
Definition Month (t : Time) : Z := snd (fst (date t)).
Definition Day (t : Time) : Z := snd (date t).

(** [(hour, min, sec)] of the wall clock. *)
Definition Clock (t : Time) : Z * Z * Z :=
  let s := abs t mod secondsPerDay in
  (s / 3600, (s mod 3600) / 60, s mod 60).

(** [norm hi lo base]: carry [lo] into [hi] so that [0 <= lo < base]. *)
Definition norm (hi lo base : Z) : Z * Z := (hi + lo / base, lo mod base).

(** [time.Date]: the fields may be out of their ranges and are normalised;
    the offset of the location is looked up at the wall time and, when
    that instant is outside the zone period found, looked up again. *)
Definition Date (year month day hour min sec nsec : Z) (l : Location) : Time :=
  let '(year, m) := norm year (month - 1) 12 in
  let '(sec, nsec) := norm sec nsec 1000000000 in
  let '(min, sec) := norm min sec 60 in
  let '(hour, min) := norm hour min 60 in
  let '(day, hour) := norm day hour 24 in
  let d := daysSinceEpoch year + daysBefore m
           + (if isLeap year && (m >=? 2) then 1 else 0) + (day - 1) in
  let abs := d * secondsPerDay + (hour * 3600 + min * 60 + sec) in
  let '(offset, start, stop) := lookup l abs in
  let offset :=
    if offset =? 0 then 0
    else
      let utc := abs - offset in
      if (utc <? start) || (utc >=? stop)
      then fst (fst (lookup l utc)) else offset in
  mkTime (abs - offset) nsec l.

Definition AddDate (t : Time) (years months days : Z) : Time :=
  let '(year, month, day) := date t in
  let '(hour, min, sec) := Clock t in
  Date (year + years) (month + months) (day + days) hour min sec (nsec t) (loc t).

(** Decimal digits of a natural number, at least [width] of them. *)
Definition digit (n : Z) : ascii := ascii_of_nat (48 + Z.to_nat (n mod 10)).

Fixpoint digits (fuel : nat) (n : Z) (width : nat) (acc : string) : string :=
  match fuel with
  | O => acc
  | S fuel' =>
      let acc' := String (digit n) acc in
      let n' := n / 10 in
      let width' := Nat.pred width in
      if (n' =? 0) && (Nat.eqb width' 0) then acc'
      else digits fuel' n' width' acc'
  end.

Definition appendInt (n : Z) (width : nat) : string :=
  let a := Z.abs n in
  let body := digits (S (Z.to_nat (Z.log2 a)) + width) a width "" in
  if n <? 0 then String "-" body else body.

(** [t.Format("2006-01-02")]. *)
Definition Format_date (t : Time) : string :=
  let '(year, month, day) := date t in
  appendInt year 4 +:+ "-" +:+ appendInt month 2 +:+ "-" +:+ appendInt day 2.

End time.

(** ** Package [parser]: the records the reporter reads *)

Module parser.

(** [type SessionType string] and its three constants. *)
Definition SessionType : Set := string.
Definition SessionTypeInteractive : SessionType := "interactive".
Definition SessionTypeCron : SessionType := "cron".
Definition SessionTypeSubagent : SessionType := "subagent".

Module Usage.
Record t : Set := mk {
  Input : Z;
  Output : Z;
  Total : Z;
  CacheRead : Z;
  CacheWrite : Z;
  CostInput : float64;
  CostOutput : float64;
  CostTotal : float64;
  Model : string
}.
End Usage.

(** The field [Messages], which the reporter never reads, is left out. *)
Module Session.
Record t : Type := mk {
  ID : string;
  Agent : string;
  Type_ : SessionType;
  CronID : string;
  CronName : string;
  SubagentID : string;
  FilePath : string;
  Usage : Usage.t;
  StartedAt : time.Time;
  Duration : Z
}.
End Session.

End parser.

Import parser.

(** ** Package [reporter]: the data model *)

Module Config.
Record t : Set := mk {
  Period : string;
  Agent : string;
  Crons : bool;
  Models : bool;
  Full : bool;
  Threshold : float64
}.
End Config.

Module AgentSummary.
Record t : Set := mk {
  Agent : string;
  Sessions : Z;
  TotalCost : float64;
  InputTokens : Z;
  OutputTokens : Z;
  TotalTokens : Z
}.
End AgentSummary.

Module SessionTypeSummary.
Record t : Set := mk {
  Type_ : SessionType;
  Sessions : Z;
  TotalCost : float64;
  TotalTokens : Z
}.
End SessionTypeSummary.

Module CronSummary.
Record t : Set := mk {
  CronName : string;
  CronID : string;
  Runs : Z;
  TotalCost : float64;
  AvgCost : float64;
  MaxCost : float64;
  TotalTokens : Z
}.
End CronSummary.

Module ModelSummary.
Record t : Set := mk {
  Model : string;
  Sessions : Z;
  TotalCost : float64;
  InputTokens : Z;
  OutputTokens : Z;
  TotalTokens : Z
}.
End ModelSummary.

Module DaySummary.
Record t : Set := mk {
  Date : string;
  Sessions : Z;
  TotalCost : float64;
  TotalTokens : Z
}.
End DaySummary.

Module Anomaly.
Record t : Set := mk {
  Type_ : string;
  Description : Formatted;
  Severity : string;
  Cost : float64;
  SessionID : string;
  Agent : string
}.
End Anomaly.

Module SessionDetail.
Record t : Type := mk {
  ID : string;
  Agent : string;
  Type_ : SessionType;
  CronName : string;
  Model : string;
  Cost : float64;
  Tokens : Z;
  StartedAt : time.Time;
  Duration : Z
}.
End SessionDetail.

(** A slice field that [Generate] may leave unassigned ([nil]) is an
    [option]: [None] is the nil slice of a dimension that was not computed,
    [Some l] a slice that was made, empty or not. *)
Module Report.
Record t : Type := mk {
  GeneratedAt : time.Time;
  Period : string;
  TotalCost : float64;
  TotalTokens : Z;
  TotalSessions : Z;
  ByAgent : list AgentSummary.t;
  BySessionType : list SessionTypeSummary.t;
  ByCron : option (list CronSummary.t);
  ByModel : list ModelSummary.t;
  ByDay : list DaySummary.t;
  Anomalies : list Anomaly.t;
  Sessions : option (list SessionDetail.t)
}.
End Report.

Module Reporter.
Record t : Type := mk {
  sessions : list Session.t;
  config : Config.t
}.
End Reporter.

Definition New (sessions : list Session.t) (config : Config.t) : Reporter.t :=
  Reporter.mk sessions config.

(** ** The period filter *)

(** [filterByPeriod] reads the clock once, when the period is neither empty
    nor ["all"]; [now] is that reading. *)
Definition filterByPeriod (now : time.Time) (r : Reporter.t)
    (sessions : list Session.t) : list Session.t :=
  let period := Config.Period (Reporter.config r) in
  if String.eqb period "" || String.eqb period "all" then sessions
  else if String.eqb period "yesterday" then
    let yesterday := time.AddDate now 0 0 (-1) in
    let nextDay :=
      time.Date (time.Year now) (time.Month now) (time.Day now) 0 0 0 0
        (time.Location_of now) in
    let cutoff :=
      time.Date (time.Year yesterday) (time.Month yesterday) (time.Day yesterday)
        0 0 0 0 (time.Location_of yesterday) in
    fold_left
      (fun result s =>
         if negb (time.IsZero (Session.StartedAt s))
            && time.After (Session.StartedAt s) cutoff
            && time.Before (Session.StartedAt s) nextDay
         then append result s else result)
      sessions []
  else
    let cutoff :=
      if String.eqb period "today" then
        time.Date (time.Year now) (time.Month now) (time.Day now) 0 0 0 0
          (time.Location_of now)
      else if String.eqb period "week" then time.AddDate now 0 0 (-7)
      else if String.eqb period "month" then time.AddDate now 0 (-1) 0
      else time.zero in
    fold_left
      (fun result s =>
         if negb (time.IsZero (Session.StartedAt s))
            && time.After (Session.StartedAt s) cutoff
         then append result s else result)
      sessions [].

(** ** Go's [sort.Slice]

    [sort.Slice] runs the insertion sort below on a slice of at most 12
    elements: each element in turn moves left past its predecessors for as
    long as [less] puts it before them. On a longer slice Go switches to
    pattern-defeating quicksort; when [less] is a strict weak ordering
    that yields the same slice up to the places of the elements that
    [less] does not separate. [insertLeft] works on the sorted prefix read
    from its right end. *)

Fixpoint insertLeft {A : Type} (less : A -> A -> bool) (x : A)
    (prefix_rev : list A) : list A :=
  match prefix_rev with
  | [] => [x]
  | y :: r => if less x y then y :: insertLeft less x r else x :: y :: r
  end.

Definition sortSlice {A : Type} (less : A -> A -> bool) (l : list A) : list A :=
  rev (fold_left (fun prefix_rev x => insertLeft less x prefix_rev) l []).

(** ** Iteration over a Go map

    [for _, v := range m] visits every entry once, in an order the runtime
    chooses. A [MapOrder] encodes the choice: each number selects the next
    entry among those not yet visited. *)

Definition MapOrder : Set := list nat.

Fixpoint take_nth {A : Type} (i : nat) (l : list A) {struct l}
    : option (A * list A) :=
  match l with
  | [] => None
  | x :: l' =>
      match i with
      | O => Some (x, l')
      | S i' =>
          match take_nth i' l' with
          | Some (y, r) => Some (y, x :: r)
          | None => None
          end
      end
  end.

Fixpoint permute {A : Type} (o : MapOrder) (l : list A) : list A :=
  match o with
  | [] => l
  | i :: o' =>
      match take_nth (i mod length l)%nat l with
      | Some (y, r) => y :: permute o' r
      | None => l
      end
  end.

Definition rangeMap `{Countable K} {V : Type} (o : MapOrder) (m : gmap K V)
    : list (K * V) :=
  permute o (map_to_list m).

(** ** The dimension aggregators

    The aggregators are methods of [Reporter] that do not read their
    receiver; it is not an argument here. A map of pointers to summaries
    that are reached through the map only is a map of summaries. *)

Definition agentStep (agg : gmap string AgentSummary.t) (s : Session.t)
    : gmap string AgentSummary.t :=
  let agg :=
    match agg !! Session.Agent s with
    | Some _ => agg
    | None => <[Session.Agent s := AgentSummary.mk (Session.Agent s) 0 fzero 0 0 0]> agg
    end in
  alter
    (fun a =>
       AgentSummary.mk (AgentSummary.Agent a)
         (int_succ (AgentSummary.Sessions a))
         (fadd (AgentSummary.TotalCost a) (Usage.CostTotal (Session.Usage s)))
         (int_add (AgentSummary.InputTokens a) (Usage.Input (Session.Usage s)))
         (int_add (AgentSummary.OutputTokens a) (Usage.Output (Session.Usage s)))
         (int_add (AgentSummary.TotalTokens a) (Usage.Total (Session.Usage s))))
    (Session.Agent s) agg.

Definition aggregateByAgent (o : MapOrder) (sessions : list Session.t)
    : list AgentSummary.t :=
  let agg := fold_left agentStep sessions ∅ in
  let result := fold_left (fun result ka => append result (snd ka)) (rangeMap o agg) [] in
  sortSlice
    (fun a b => fgt (AgentSummary.TotalCost a) (AgentSummary.TotalCost b))
    result.

Definition typeStep (agg : gmap string SessionTypeSummary.t) (s : Session.t)
    : gmap string SessionTypeSummary.t :=
  let agg :=
    match agg !! Session.Type_ s with
    | Some _ => agg
    | None => <[Session.Type_ s := SessionTypeSummary.mk (Session.Type_ s) 0 fzero 0]> agg
    end in
  alter
    (fun t =>
       SessionTypeSummary.mk (SessionTypeSummary.Type_ t)
         (int_succ (SessionTypeSummary.Sessions t))
         (fadd (SessionTypeSummary.TotalCost t) (Usage.CostTotal (Session.Usage s)))
         (int_add (SessionTypeSummary.TotalTokens t) (Usage.Total (Session.Usage s))))
    (Session.Type_ s) agg.

(** The map literal [order]; a type that is not a key reads as [0]. *)
Definition order : gmap string Z :=
  <[SessionTypeSubagent := 2]> (<[SessionTypeCron := 1]> (<[SessionTypeInteractive := 0]> ∅)).

Definition order_at (t : SessionType) : Z := default 0 (order !! t).

Definition aggregateBySessionType (o : MapOrder) (sessions : list Session.t)
    : list SessionTypeSummary.t :=
  let agg := fold_left typeStep sessions ∅ in
  let result := fold_left (fun result kt => append result (snd kt)) (rangeMap o agg) [] in
  sortSlice
    (fun a b => order_at (SessionTypeSummary.Type_ a) <? order_at (SessionTypeSummary.Type_ b))
    result.

(** The key [cronKey{name, id}] is a pair. *)
Definition cronStep (agg : gmap (string * string) CronSummary.t) (s : Session.t)
    : gmap (string * string) CronSummary.t :=
  if negb (String.eqb (Session.Type_ s) SessionTypeCron) then agg
  else
    let key := (Session.CronName s, Session.CronID s) in
    let agg :=
      match agg !! key with
      | Some _ => agg
      | None =>
          <[key := CronSummary.mk (Session.CronName s) (Session.CronID s)
                     0 fzero fzero fzero 0]> agg
      end in
    alter
      (fun c =>
         CronSummary.mk (CronSummary.CronName c) (CronSummary.CronID c)
           (int_succ (CronSummary.Runs c))
           (fadd (CronSummary.TotalCost c) (Usage.CostTotal (Session.Usage s)))
           (CronSummary.AvgCost c)
           (if fgt (Usage.CostTotal (Session.Usage s)) (CronSummary.MaxCost c)
            then Usage.CostTotal (Session.Usage s) else CronSummary.MaxCost c)
           (int_add (CronSummary.TotalTokens c) (Usage.Total (Session.Usage s))))
      key agg.

(** The body of the loop over the map: the average is set when [Runs > 0]. *)
Definition cronFinish (c : CronSummary.t) : CronSummary.t :=
  if CronSummary.Runs c >? 0 then
    CronSummary.mk (CronSummary.CronName c) (CronSummary.CronID c) (CronSummary.Runs c)
      (CronSummary.TotalCost c)
      (fdiv (CronSummary.TotalCost c) (float64_of_int (CronSummary.Runs c)))
      (CronSummary.MaxCost c) (CronSummary.TotalTokens c)
  else c.

Definition aggregateByCron (o : MapOrder) (sessions : list Session.t)
    : list CronSummary.t :=
  let agg := fold_left cronStep sessions ∅ in
  let result :=
    fold_left (fun result kc => append result (cronFinish (snd kc))) (rangeMap o agg) [] in
  sortSlice
    (fun a b => fgt (CronSummary.TotalCost a) (CronSummary.TotalCost b))
    result.

Definition modelStep (agg : gmap string ModelSummary.t) (s : Session.t)
    : gmap string ModelSummary.t :=
  let model := Usage.Model (Session.Usage s) in
  let model := if String.eqb model "" then "unknown" else model in
  let agg :=
    match agg !! model with
    | Some _ => agg
    | None => <[model := ModelSummary.mk model 0 fzero 0 0 0]> agg
    end in
  alter
    (fun m =>
       ModelSummary.mk (ModelSummary.Model m)
         (int_succ (ModelSummary.Sessions m))
         (fadd (ModelSummary.TotalCost m) (Usage.CostTotal (Session.Usage s)))
         (int_add (ModelSummary.InputTokens m) (Usage.Input (Session.Usage s)))
         (int_add (ModelSummary.OutputTokens m) (Usage.Output (Session.Usage s)))
         (int_add (ModelSummary.TotalTokens m) (Usage.Total (Session.Usage s))))
    model agg.

Definition aggregateByModel (o : MapOrder) (sessions : list Session.t)
    : list ModelSummary.t :=
  let agg := fold_left modelStep sessions ∅ in
  let result := fold_left (fun result km => append result (snd km)) (rangeMap o agg) [] in
  sortSlice
    (fun a b => fgt (ModelSummary.TotalCost a) (ModelSummary.TotalCost b))
    result.

Definition dayStep (agg : gmap string DaySummary.t) (s : Session.t)
    : gmap string DaySummary.t :=
  if time.IsZero (Session.StartedAt s) then agg
  else
    let date := time.Format_date (Session.StartedAt s) in
    let agg :=
      match agg !! date with
      | Some _ => agg
      | None => <[date := DaySummary.mk date 0 fzero 0]> agg
      end in
    alter
      (fun d =>
         DaySummary.mk (DaySummary.Date d)
           (int_succ (DaySummary.Sessions d))
           (fadd (DaySummary.TotalCost d) (Usage.CostTotal (Session.Usage s)))
           (int_add (DaySummary.TotalTokens d) (Usage.Total (Session.Usage s))))
      date agg.

Definition aggregateByDay (o : MapOrder) (sessions : list Session.t)
    : list DaySummary.t :=
  let agg := fold_left dayStep sessions ∅ in
  let result := fold_left (fun result kd => append result (snd kd)) (rangeMap o agg) [] in
  sortSlice
    (fun a b => String.ltb (DaySummary.Date a) (DaySummary.Date b))
    result.

(** ** The anomaly detector *)

(** The loop of [findInString], from index [i], with [n] iterations left. *)
Fixpoint findFrom (s substr : string) (i n : nat) : bool :=
  match n with
  | O => false
  | S n' =>
      if String.eqb (substring i (String.length substr) s) substr then true
      else findFrom s substr (S i) n'
  end.

(** [for i := 0; i <= len(s)-len(substr); i++]. *)
Definition findInString (s substr : string) : bool :=
  findFrom s substr 0
    (Z.to_nat (Z.of_nat (String.length s) - Z.of_nat (String.length substr) + 1)).

Definition contains (s substr : string) : bool :=
  (String.length substr <=? String.length s)%nat
  && (String.eqb s substr
      || (String.length substr =? 0)%nat
      || String.eqb (substring 0 (String.length substr) s) substr
      || String.eqb
           (substring (String.length s - String.length substr) (String.length substr) s)
           substr
      || findInString s substr).

Definition opusModels : list string := ["opus"; "claude-opus"; "claude-3-opus"].

Definition containsOpus (model : string) : bool :=
  let lower := Sprintf_s model in
  existsb (fun o => contains lower o) opusModels.

Definition expensiveCron (r : Reporter.t) (s : Session.t) : Anomaly.t :=
  Anomaly.mk "expensive_cron"
    (Sprintf "Cron %s exceeded $%.2f threshold"
       [ArgString (Session.CronName s); ArgFloat (Config.Threshold (Reporter.config r))])
    "warning" (Usage.CostTotal (Session.Usage s)) (Session.ID s) (Session.Agent s).

Definition highTokenCount (s : Session.t) : Anomaly.t :=
  Anomaly.mk "high_token_count"
    (Sprintf "Session has unusually high token count (%d)"
       [ArgInt (Usage.Total (Session.Usage s))])
    "warning" (Usage.CostTotal (Session.Usage s)) (Session.ID s) (Session.Agent s).

Definition opusOverkill (s : Session.t) : Anomaly.t :=
  Anomaly.mk "opus_overkill"
    (Sprintf "Opus model used for small request (%d tokens), consider cheaper model"
       [ArgInt (Usage.Total (Session.Usage s))])
    "info" (Usage.CostTotal (Session.Usage s)) (Session.ID s) (Session.Agent s).

Definition detectAnomalies (r : Reporter.t) (sessions : list Session.t)
    : list Anomaly.t :=
  let anomalies := [] in
  let anomalies :=
    fold_left
      (fun anomalies s =>
         if String.eqb (Session.Type_ s) SessionTypeCron
            && fgt (Usage.CostTotal (Session.Usage s)) (Config.Threshold (Reporter.config r))
         then append anomalies (expensiveCron r s) else anomalies)
      sessions anomalies in
  let anomalies :=
    fold_left
      (fun anomalies s =>
         if Usage.Total (Session.Usage s) >? 100000
         then append anomalies (highTokenCount s) else anomalies)
      sessions anomalies in
  let anomalies :=
    fold_left
      (fun anomalies s =>
         if containsOpus (Usage.Model (Session.Usage s))
            && (Usage.Total (Session.Usage s) <? 5000)
         then append anomalies (opusOverkill s) else anomalies)
      sessions anomalies in
  anomalies.

(** ** Session details *)

Definition sessionDetail (s : Session.t) : SessionDetail.t :=
  SessionDetail.mk (Session.ID s) (Session.Agent s) (Session.Type_ s)
    (Session.CronName s) (Usage.Model (Session.Usage s))
    (Usage.CostTotal (Session.Usage s)) (Usage.Total (Session.Usage s))
    (Session.StartedAt s) (Session.Duration s).

Definition getSessionDetails (sessions : list Session.t) : list SessionDetail.t :=
  let result := fold_left (fun result s => append result (sessionDetail s)) sessions [] in
  sortSlice (fun a b => fgt (SessionDetail.Cost a) (SessionDetail.Cost b)) result.

(** ** The report assembler *)

(** What one call of [Generate] takes from the runtime: the clock read by
    [filterByPeriod], the clock read for [GeneratedAt], and the order in
    which each of the five maps is ranged over. *)
Record Env : Type := mkEnv {
  now : time.Time;
  generatedAt : time.Time;
  agentOrder : MapOrder;
  typeOrder : MapOrder;
  modelOrder : MapOrder;
  dayOrder : MapOrder;
  cronOrder : MapOrder
}.

(** The loop that accumulates the scalar totals. *)
Definition totals (filtered : list Session.t) : float64 * Z * Z :=
  fold_left
    (fun '(cost, tokens, n) s =>
       (fadd cost (Usage.CostTotal (Session.Usage s)),
        int_add tokens (Usage.Total (Session.Usage s)),
        int_succ n))
    filtered (fzero, 0, 0).

Definition Generate (env : Env) (r : Reporter.t) : Report.t :=
  let filtered := filterByPeriod (now env) r (Reporter.sessions r) in
  let t := totals filtered in
  Report.mk
    (time.In_UTC (generatedAt env))
    (Config.Period (Reporter.config r))
    (fst (fst t)) (snd (fst t)) (snd t)
    (aggregateByAgent (agentOrder env) filtered)
    (aggregateBySessionType (typeOrder env) filtered)
    (if Config.Crons (Reporter.config r) || Config.Full (Reporter.config r)
     then Some (aggregateByCron (cronOrder env) filtered) else None)
    (aggregateByModel (modelOrder env) filtered)
    (aggregateByDay (dayOrder env) filtered)
    (detectAnomalies r filtered)
    (if Config.Full (Reporter.config r)
     then Some (getSessionDetails filtered) else None).

(** The line feed, [\n] in a Go string. *)
Definition LF : string := String "010" "".

(** ** Go's [strings] package

    [Split] for a separator of one byte, which is how [deriveCronName]
    calls it. *)

(** [strings.Split(s, sep)] where [sep] is the one byte [sep]: the pieces
    between the occurrences of the separator; [Split "" sep] is [[""]]. *)
Fixpoint Split (s : string) (sep : ascii) : list string :=
  match s with
  | EmptyString => [EmptyString]
  | String c s' =>
      if Ascii.eqb c sep then EmptyString :: Split s' sep
      else
        match Split s' sep with
        | p :: ps => String c p :: ps
        | [] => [String c EmptyString]
        end
  end.

(** [strings.Join(parts, sep)]. *)
Fixpoint Join (parts : list string) (sep : string) : string :=
  match parts with
  | [] => EmptyString
  | [p] => p
  | p :: ps => p +:+ sep +:+ Join ps sep
  end.

(** [strings.HasSuffix] and [strings.TrimSuffix]. *)
Definition HasSuffix (s suffix : string) : bool :=
  (String.length suffix <=? String.length s)%nat
  && String.eqb
       (substring (String.length s - String.length suffix) (String.length suffix) s)
       suffix.

Definition TrimSuffix (s suffix : string) : string :=
  if HasSuffix s suffix then substring 0 (String.length s - String.length suffix) s
  else s.

(** ** Go's [regexp], for the three patterns of package [parser]

    The patterns are anchored at both ends and made of literals and of
    captured groups [(c+)] for a class [c] of characters. Go matches
    leftmost-first: a [+] takes as many characters as it can and gives
    some back when the rest of the pattern does not match. The classes
    [[^:]] and [.] hold every byte of a character that is not ASCII, so
    matching byte by byte gives the groups that matching UTF-8 characters
    gives. *)

Inductive Item : Type :=
| Lit (s : string)
| CapPlus (class : ascii -> bool).

(** [[^:]] *)
Definition notColon (c : ascii) : bool := negb (Ascii.eqb c ":").
(** [.]: any character but the newline. *)
Definition anyChar (c : ascii) : bool := negb (Ascii.eqb c "010").

Fixpoint stripPrefix (l s : string) : option string :=
  match l with
  | EmptyString => Some s
  | String c l' =>
      match s with
      | EmptyString => None
      | String d s' => if Ascii.eqb c d then stripPrefix l' s' else None
      end
  end.

(** One group [(class+)] followed by the continuation [k]: the longest
    run first. *)
Fixpoint greedy (class : ascii -> bool) (k : string -> option (list string))
    (s : string) : option (list string) :=
  match s with
  | EmptyString => None
  | String c s' =>
      if class c then
        match greedy class k s' with
        | Some (cap :: caps) => Some (String c cap :: caps)
        | _ =>
            match k s' with
            | Some caps => Some (String c EmptyString :: caps)
            | None => None
            end
        end
      else None
  end.

(** The groups of the match of [^items$] on [s], in order. *)
Fixpoint matchItems (items : list Item) : string -> option (list string) :=
  match items with
  | [] => fun s => match s with EmptyString => Some [] | _ => None end
  | Lit l :: rest =>
      fun s =>
        match stripPrefix l s with
        | Some s' => matchItems rest s'
        | None => None
        end
  | CapPlus class :: rest => greedy class (matchItems rest)
  end.

(** [re.FindStringSubmatch(s)] for an anchored pattern: the whole match,
    then the groups; [[]] (nil) when there is no match. *)
Definition FindStringSubmatch (re : list Item) (s : string) : list string :=
  match matchItems re s with
  | Some caps => s :: caps
  | None => []
  end.

(** ** Package [parser]: session keys *)

(** [^agent:([^:]+):cron:([^:]+):run:(.+)$] *)
Definition cronPattern : list Item :=
  [Lit "agent:"; CapPlus notColon; Lit ":cron:"; CapPlus notColon; Lit ":run:";
   CapPlus anyChar].

(** [^agent:([^:]+):subagent:(.+)$] *)
Definition subagentPattern : list Item :=
  [Lit "agent:"; CapPlus notColon; Lit ":subagent:"; CapPlus anyChar].

(** [^agent:([^:]+)$] *)
Definition interactivePattern : list Item :=
  [Lit "agent:"; CapPlus notColon].

(** The loop of [isAlphaNumeric]. Ranging over a string yields its UTF-8
    characters; a byte below 128 is always a character of its own and a
    character that is not ASCII is no letter or digit of the test, so the
    loop is the same over the bytes. *)
Fixpoint allAlphaNumeric (s : string) : bool :=
  match s with
  | EmptyString => true
  | String r s' =>
      let r := N_of_ascii r in
      if (((r <? 97) || (122 <? r)) && ((r <? 65) || (90 <? r))
          && ((r <? 48) || (57 <? r)))%N
      then false
      else allAlphaNumeric s'
  end.

Definition isAlphaNumeric (s : string) : bool :=
  if allAlphaNumeric s then (0 <? String.length s)%nat else false.

Definition deriveCronName (cronID : string) : string :=
  let parts := Split cronID "-" in
  if (1 <? length parts)%nat then
    let last := nth (length parts - 1) parts EmptyString in
    if (6 <=? String.length last)%nat && isAlphaNumeric last
    then Join (firstn (length parts - 1) parts) "-"
    else cronID
  else cronID.

(** [s.parseSessionKey(sessionID)]: the session with the fields the method
    assigns. *)
Definition parseSessionKey (s : Session.t) (sessionID : string) : Session.t :=
  let matches := FindStringSubmatch cronPattern sessionID in
  if (length matches =? 4)%nat then
    let cronID := nth 2 matches EmptyString in
    Session.mk (Session.ID s) (Session.Agent s) SessionTypeCron cronID
      (deriveCronName cronID) (Session.SubagentID s) (Session.FilePath s)
      (Session.Usage s) (Session.StartedAt s) (Session.Duration s)
  else
    let matches := FindStringSubmatch subagentPattern sessionID in
    if (length matches =? 3)%nat then
      Session.mk (Session.ID s) (Session.Agent s) SessionTypeSubagent (Session.CronID s)
        (Session.CronName s) (nth 2 matches EmptyString) (Session.FilePath s)
        (Session.Usage s) (Session.StartedAt s) (Session.Duration s)
    else
      let matches := FindStringSubmatch interactivePattern sessionID in
      if (length matches =? 2)%nat then
        Session.mk (Session.ID s) (Session.Agent s) SessionTypeInteractive
          (Session.CronID s) (Session.CronName s) (Session.SubagentID s)
          (Session.FilePath s) (Session.Usage s) (Session.StartedAt s)
          (Session.Duration s)
      else
        Session.mk (Session.ID s) (Session.Agent s) SessionTypeInteractive
          (Session.CronID s) (Session.CronName s) (Session.SubagentID s)
          (Session.FilePath s) (Session.Usage s) (Session.StartedAt s)
          (Session.Duration s).

(** [s.Key()]; a [%s] verb renders a string as it is. *)
Definition Key (s : Session.t) : string :=
  if String.eqb (Session.Type_ s) SessionTypeCron then
    "agent:" +:+ Session.Agent s +:+ ":cron:" +:+ Session.CronID s +:+ ":run:"
    +:+ Session.ID s
  else if String.eqb (Session.Type_ s) SessionTypeSubagent then
    "agent:" +:+ Session.Agent s +:+ ":subagent:" +:+ Session.ID s
  else "agent:" +:+ Session.Agent s.

(** ** Package [parser]: the transcript of a session *)

(** [type Message struct]: an event of a transcript. The field [Content],
    which nothing reads, is left out. *)
Module Message.

Module Cost.
Record t : Set := mk {
  Input : float64;
  Output : float64;
  CacheRead : float64;
  CacheWrite : float64;
  Total : float64
}.
End Cost.

Module Usage.
Record t : Set := mk {
  Input : Z;
  Output : Z;
  Total : Z;
  CacheRead : Z;
  CacheWrite : Z;
  Cost : Cost.t
}.
End Usage.

(** The field [Message] of a [Message]. *)
Module Body.
Record t : Set := mk {
  Role : string;
  Usage : Usage.t;
  Model : string
}.
End Body.

Record t : Type := mk {
  Type_ : string;
  Timestamp : time.Time;
  Message : Body.t;
  Model : string
}.

End Message.

(** [t.Sub(u)]: the duration [t - u] in nanoseconds, or the largest or
    smallest duration when it does not fit in 64 bits. *)
Definition Sub (t u : time.Time) : Z :=
  let d := (time.sec t - time.sec u) * 1000000000 + (time.nsec t - time.nsec u) in
  if d <? min_int then min_int else if max_int <? d then max_int else d.

(** What [parseSessionFile] reads: for every line of the file, in order,
    the message that [json.Unmarshal] decodes ([None] for a line it
    rejects), and the error of the scanner, if it stopped on one. *)
Record File : Type := mkFile {
  lines : list (option Message.t);
  scanErr : option string
}.

(** What the loop of [parseSessionFile] changes: the session, its field
    [Messages], and the first and last timestamps. *)
Record Scan : Type := mkScan {
  session_of : Session.t;
  Messages : list Message.t;
  firstTimestamp : time.Time;
  lastTimestamp : time.Time
}.

(** The session [s] with the usage [u]. *)
Definition withUsage (s : Session.t) (u : Usage.t) : Session.t :=
  Session.mk (Session.ID s) (Session.Agent s) (Session.Type_ s) (Session.CronID s)
    (Session.CronName s) (Session.SubagentID s) (Session.FilePath s) u
    (Session.StartedAt s) (Session.Duration s).

(** One iteration of the loop over the lines. *)
Definition scanLine (st : Scan) (line : option Message.t) : Scan :=
  match line with
  | None => st
  | Some msg =>
      if String.eqb (Message.Type_ msg) "message"
         && String.eqb (Message.Body.Role (Message.Message msg)) "assistant"
      then
        let messages := append (Messages st) msg in
        let firstTimestamp :=
          if negb (time.IsZero (Message.Timestamp msg)) then
            if time.IsZero (firstTimestamp st) then Message.Timestamp msg
            else firstTimestamp st
          else firstTimestamp st in
        let lastTimestamp :=
          if negb (time.IsZero (Message.Timestamp msg)) then Message.Timestamp msg
          else lastTimestamp st in
        let u := Session.Usage (session_of st) in
        let mu := Message.Body.Usage (Message.Message msg) in
        let model :=
          if negb (String.eqb (Message.Body.Model (Message.Message msg)) "")
          then Message.Body.Model (Message.Message msg)
          else if negb (String.eqb (Message.Model msg) "") then Message.Model msg
          else Usage.Model u in
        let u :=
          Usage.mk
            (int_add (Usage.Input u) (Message.Usage.Input mu))
            (int_add (Usage.Output u) (Message.Usage.Output mu))
            (int_add (Usage.Total u) (Message.Usage.Total mu))
            (int_add (Usage.CacheRead u) (Message.Usage.CacheRead mu))
            (int_add (Usage.CacheWrite u) (Message.Usage.CacheWrite mu))
            (fadd (Usage.CostInput u) (Message.Cost.Input (Message.Usage.Cost mu)))
            (fadd (Usage.CostOutput u) (Message.Cost.Output (Message.Usage.Cost mu)))
            (fadd (Usage.CostTotal u) (Message.Cost.Total (Message.Usage.Cost mu)))
            model in
        mkScan (withUsage (session_of st) u) messages firstTimestamp lastTimestamp
      else st
  end.

(** The zero value [Session{}], with its [Messages] ([nil]). *)
Definition noSession : Session.t * list Message.t :=
  (Session.mk "" "" "" "" "" "" "" (Usage.mk 0 0 0 0 0 fzero fzero fzero "") time.zero 0,
   []).

(** [p.parseSessionFile(agent, sessionID, filePath)]: the session, its
    [Messages] and the error. [opened] is what [os.Open] gives: an error
    or the file. *)
Definition parseSessionFile (agent sessionID filePath : string)
    (opened : string + File) : Session.t * list Message.t * option string :=
  match opened with
  | inl err => (noSession, Some err)
  | inr file =>
      let session :=
        Session.mk sessionID agent "" "" "" "" filePath
          (Usage.mk 0 0 0 0 0 fzero fzero fzero "") time.zero 0 in
      let session := parseSessionKey session sessionID in
      let st := fold_left scanLine (lines file) (mkScan session [] time.zero time.zero) in
      match scanErr file with
      | Some err => (session_of st, Messages st, Some err)
      | None =>
          let session := session_of st in
          let session :=
            if negb (time.IsZero (firstTimestamp st))
               && negb (time.IsZero (lastTimestamp st))
            then
              Session.mk (Session.ID session) (Session.Agent session)
                (Session.Type_ session) (Session.CronID session)
                (Session.CronName session) (Session.SubagentID session)
                (Session.FilePath session) (Session.Usage session)
                (firstTimestamp st) (Sub (lastTimestamp st) (firstTimestamp st))
            else session in
          (session, Messages st, None)
      end
  end.

(** ** Package [parser]: the sessions on the disk *)

#[local] Set Warnings "-register-all".

(** A value that [json.Unmarshal] stores in an [interface{}]. *)
Inductive JSON : Type :=
| JNull
| JBool (b : bool)
| JNumber (x : float64)
| JString (s : string)
| JArray (l : list JSON)
| JObject (m : gmap string JSON).

(** [time.Unix(sec, nsec)] and [time.UnixMilli(msec)], in the location
    [local]; Go's [/] and [%] truncate towards zero. *)
Definition unixToInternal : Z := 62135596800.

Definition Unix (local : time.Location) (sec nsec : Z) : time.Time :=
  let '(sec, nsec) :=
    if (nsec <? 0) || (1000000000 <=? nsec) then
      let n := Z.quot nsec 1000000000 in
      let sec := sec + n in
      let nsec := nsec - n * 1000000000 in
      if nsec <? 0 then (sec - 1, nsec + 1000000000) else (sec, nsec)
    else (sec, nsec) in
  time.mkTime (sec + unixToInternal) nsec local.

Definition UnixMilli (local : time.Location) (msec : Z) : time.Time :=
  Unix local (Z.quot msec 1000) (Z.rem msec 1000 * 1000000).

(** The integer part of a [float64], when it has one. *)
Definition truncate (x : float64) : option Z :=
  match Prim2SF x with
  | S754_zero _ => Some 0
  | S754_finite s m e =>
      let v := if 0 <=? e then Z.pos m * 2 ^ e else Z.pos m / 2 ^ (- e) in
      Some (if s then - v else v)
  | _ => None
  end.

(** [os.DirEntry]: what the parser reads of it. *)
Module DirEntry.
Record t : Set := mk {
  Name : string;
  IsDir : bool
}.
End DirEntry.

(** What the parser reads from outside the program. The directories and
    files do not change while it runs. Errors are their messages.
    - [ReadDir], [Stat], [filepathJoin]: [os.ReadDir], the error of [os.Stat]
      ([None] when there is none), [filepath.Join];
    - [ReadIndex path]: the object that [json.Unmarshal] decodes from the
      bytes [os.ReadFile] reads at [path]; [None] when either fails;
    - [Open path]: the error of [os.Open], or the lines of the file as
      [parseSessionFile] reads them;
    - [timeLocal]: [time.Local];
    - [unrepresentable]: the result of the conversion [int64(x)] of a
      [float64] that is no 64-bit integer, which Go leaves to the
      implementation. *)
Record FileSystem : Type := mkFileSystem {
  ReadDir : string -> string + list DirEntry.t;
  Stat : string -> option string;
  filepathJoin : list string -> string;
  ReadIndex : string -> option (gmap string JSON);
  Open : string -> string + File;
  timeLocal : time.Location;
  unrepresentable : float64 -> Z
}.

(** The conversion [int64(x)]. *)
Definition int64 (fs : FileSystem) (x : float64) : Z :=
  match truncate x with
  | Some v => if (min_int <=? v) && (v <=? max_int) then v else unrepresentable fs x
  | None => unrepresentable fs x
  end.

Module Parser.
Record t : Set := mk { agentsDir : string }.
End Parser.

(** [parser.New]. *)
Definition NewParser (agentsDir : string) : Parser.t := Parser.mk agentsDir.

Module SessionIndexEntry.
Record t : Set := mk {
  Key : string;
  SessionID : string;
  UpdatedAt : Z
}.
End SessionIndexEntry.

(** [p.ListAgents()]. *)
Definition ListAgents (fs : FileSystem) (p : Parser.t) : string + list string :=
  match ReadDir fs (Parser.agentsDir p) with
  | inl err => inl ("failed to read agents directory: " +:+ err)
  | inr entries =>
      inr
        (fold_left
           (fun agents entry =>
              if DirEntry.IsDir entry then
                let sessionsDir :=
                  filepathJoin fs [Parser.agentsDir p; DirEntry.Name entry; "sessions"] in
                match Stat fs sessionsDir with
                | None => append agents (DirEntry.Name entry)
                | Some _ => agents
                end
              else agents)
           entries [])
  end.

(** The entry of the index for one key of [sessions.json]; none when the
    value is no object. *)
Definition indexEntry (fs : FileSystem) (key : string) (val : JSON)
    : option SessionIndexEntry.t :=
  match val with
  | JObject entryMap =>
      let entry := SessionIndexEntry.mk key "" 0 in
      let entry :=
        match entryMap !! "sessionId" with
        | Some (JString id) =>
            SessionIndexEntry.mk (SessionIndexEntry.Key entry) id
              (SessionIndexEntry.UpdatedAt entry)
        | _ => entry
        end in
      let entry :=
        match entryMap !! "updatedAt" with
        | Some (JNumber ts) =>
            SessionIndexEntry.mk (SessionIndexEntry.Key entry)
              (SessionIndexEntry.SessionID entry) (int64 fs ts)
        | _ => entry
        end in
      Some entry
  | _ => None
  end.

(** The session [s] with the start [t]. *)
Definition withStartedAt (s : Session.t) (t : time.Time) : Session.t :=
  Session.mk (Session.ID s) (Session.Agent s) (Session.Type_ s) (Session.CronID s)
    (Session.CronName s) (Session.SubagentID s) (Session.FilePath s) (Session.Usage s)
    t (Session.Duration s).

(** One iteration of the loop of [parseAgentSessions] over the entries of
    the directory: the sessions and the warnings written to the standard
    error so far. A session carries its [Messages]. *)
Definition parseEntry (fs : FileSystem) (agent sessionsDir : string)
    (sessionIndex : gmap string SessionIndexEntry.t)
    (acc : list (Session.t * list Message.t) * list Formatted)
    (entry : DirEntry.t) : list (Session.t * list Message.t) * list Formatted :=
  let '(sessions, stderr) := acc in
  if DirEntry.IsDir entry then acc
  else if negb (HasSuffix (DirEntry.Name entry) ".jsonl") then acc
  else
    let sessionID := TrimSuffix (DirEntry.Name entry) ".jsonl" in
    let filePath := filepathJoin fs [sessionsDir; DirEntry.Name entry] in
    match parseSessionFile agent sessionID filePath (Open fs filePath) with
    | (_, Some err) =>
        (sessions,
         append stderr
           (Sprintf ("Warning: failed to parse session %s: %v" +:+ LF)
              [ArgString filePath; ArgString err]))
    | ((session, messages), None) =>
        let session :=
          match sessionIndex !! Key session with
          | Some indexEntry =>
              withStartedAt session
                (UnixMilli (timeLocal fs) (SessionIndexEntry.UpdatedAt indexEntry))
          | None => session
          end in
        (append sessions (session, messages), stderr)
    end.

(** [p.parseAgentSessions(agent)], with what it writes to the standard
    error. The index is filled in the order of a map; every key is written
    once, so the order does not show. *)
Definition parseAgentSessions (fs : FileSystem) (p : Parser.t) (agent : string)
    : (string + list (Session.t * list Message.t)) * list Formatted :=
  let sessionsDir := filepathJoin fs [Parser.agentsDir p; agent; "sessions"] in
  let indexPath := filepathJoin fs [sessionsDir; "sessions.json"] in
  let sessionIndex : gmap string SessionIndexEntry.t :=
    match ReadIndex fs indexPath with
    | Some index => map_imap (indexEntry fs) index
    | None => ∅
    end in
  match ReadDir fs sessionsDir with
  | inl err => (inl ("failed to read sessions directory: " +:+ err), [])
  | inr entries =>
      let '(sessions, stderr) :=
        fold_left (parseEntry fs agent sessionsDir sessionIndex) entries ([], []) in
      (inr sessions, stderr)
  end.

(** One iteration of the loop of [ParseAll] over the agents. *)
Definition parseAgent (fs : FileSystem) (p : Parser.t) (agentFilter : string)
    (acc : list (Session.t * list Message.t) * list Formatted) (agent : string)
    : list (Session.t * list Message.t) * list Formatted :=
  let '(sessions, stderr) := acc in
  if negb (String.eqb agentFilter "") && negb (String.eqb agent agentFilter) then acc
  else
    match parseAgentSessions fs p agent with
    | (inl err, written) =>
        (sessions,
         append (stderr ++ written)%list
           (Sprintf ("Warning: failed to parse sessions for agent %s: %v" +:+ LF)
              [ArgString agent; ArgString err]))
    | (inr agentSessions, written) =>
        ((sessions ++ agentSessions)%list, (stderr ++ written)%list)
    end.

(** [p.ParseAll(agentFilter)], with what it writes to the standard error. *)
Definition ParseAll (fs : FileSystem) (p : Parser.t) (agentFilter : string)
    : (string + list (Session.t * list Message.t)) * list Formatted :=
  match ListAgents fs p with
  | inl err => (inl err, [])
  | inr agents =>
      let '(sessions, stderr) := fold_left (parseAgent fs p agentFilter) agents ([], []) in
      (inr sessions, stderr)
  end.

(** ** Strings of the output

    A string that is printed is known byte for byte, or it is kept as the
    format and the arguments of the [fmt.Sprintf] that makes it; an
    argument is such a string, a [float64] or an [int]. *)

Inductive Text : Set :=
| Plain (s : string)
| Render (format : string) (args : list Operand)
with Operand : Set :=
| OText (t : Text)
| OFloat (f : float64)
| OInt (n : Z).

(** A string made by the reporter, as a string of the output. *)
Definition operandOf (a : FmtArg) : Operand :=
  match a with
  | ArgString s => OText (Plain s)
  | ArgFloat f => OFloat f
  | ArgInt n => OInt n
  end.

Definition textOf (d : Formatted) : Text := Render (format d) (map operandOf (args d)).

(** [strconv.Itoa]: the decimal digits, after [-] for a negative number. *)
Definition Itoa (n : Z) : string := time.appendInt n 0.

(** [t.Format(time.RFC3339)], the layout [2006-01-02T15:04:05Z07:00]: the
    zone is [Z] for the offset 0, or the sign, the hours and the minutes
    of the offset. The division of the offset truncates. *)
Definition Format_RFC3339 (t : time.Time) : string :=
  let '(year, month, day) := time.date t in
  let '(hour, min, sec) := time.Clock t in
  let offset := fst (fst (time.lookup (time.loc t) (time.sec t))) in
  time.appendInt year 4 +:+ "-" +:+ time.appendInt month 2 +:+ "-"
  +:+ time.appendInt day 2 +:+ "T" +:+ time.appendInt hour 2 +:+ ":"
  +:+ time.appendInt min 2 +:+ ":" +:+ time.appendInt sec 2
  +:+ (if offset =? 0 then "Z"
       else
         let zone := Z.quot offset 60 in
         let sign := if zone <? 0 then "-" else "+" in
         let zone := if zone <? 0 then - zone else zone in
         sign +:+ time.appendInt (zone / 60) 2 +:+ ":" +:+ time.appendInt (zone mod 60) 2).

(** ** Package [parser]: the display of a cost and of a count of tokens *)

(** The [float64] nearest to 0.01 is [0x1.47ae147ae147bp-7]. *)
Definition FormatCost (cost : float64) : Text :=
  if PrimFloat.ltb cost 0x1.47ae147ae147bp-7%float then Render "$%.4f" [OFloat cost]
  else Render "$%.2f" [OFloat cost].

Definition FormatTokens (tokens : Z) : Text :=
  if tokens >=? 1000000 then
    Render "%.2fM" [OFloat (fdiv (float64_of_int tokens) 1000000%float)]
  else if tokens >=? 1000 then
    Render "%.1fk" [OFloat (fdiv (float64_of_int tokens) 1000%float)]
  else Plain (Itoa tokens).

(** ** Package [formats] (formats/formats.go)

    A [strings.Builder] is the list of the strings written to it, in the
    order of the writes; its [String()] is their concatenation. *)

Definition WriteString (b : list Text) (s : Text) : list Text := append b s.

(** The rule above and below every title. *)
Definition rule : Text :=
  Plain ("━━━━━━━━━━━━━━━━━━━━━━━━━━━━━━━━━━━━━━━━━━━━━━━━━━━━━━━━━━━━━━━" +:+ LF).

(** The headers of the tables. *)
Definition agentsHeader : Text :=
  Render ("  %-12s %8s %12s %12s" +:+ LF)
    [OText (Plain "AGENT"); OText (Plain "SESSIONS"); OText (Plain "COST");
     OText (Plain "TOKENS")].

Definition typesHeader : Text :=
  Render ("  %-15s %8s %12s %12s" +:+ LF)
    [OText (Plain "TYPE"); OText (Plain "SESSIONS"); OText (Plain "COST");
     OText (Plain "TOKENS")].

Definition cronsHeader : Text :=
  Render ("  %-25s %6s %10s %10s %10s" +:+ LF)
    [OText (Plain "CRON NAME"); OText (Plain "RUNS"); OText (Plain "TOTAL");
     OText (Plain "AVG"); OText (Plain "MAX")].

Definition modelsHeader : Text :=
  Render ("  %-35s %8s %10s %10s" +:+ LF)
    [OText (Plain "MODEL"); OText (Plain "SESSIONS"); OText (Plain "COST");
     OText (Plain "TOKENS")].

Definition daysHeader : Text :=
  Render ("  %-12s %8s %12s %12s" +:+ LF)
    [OText (Plain "DATE"); OText (Plain "SESSIONS"); OText (Plain "COST");
     OText (Plain "TOKENS")].

Definition sessionsHeader : Text :=
  Render ("  %-12s %-15s %10s %10s %s" +:+ LF)
    [OText (Plain "AGENT"); OText (Plain "TYPE"); OText (Plain "COST");
     OText (Plain "TOKENS"); OText (Plain "MODEL")].

(** The rows of the tables, one for each iteration of a loop of [Format]. *)
Definition agentRow (a : AgentSummary.t) : Text :=
  Render ("  %-12s %8d %12s %12s" +:+ LF)
    [OText (Plain (AgentSummary.Agent a)); OInt (AgentSummary.Sessions a);
     OText (FormatCost (AgentSummary.TotalCost a));
     OText (FormatTokens (AgentSummary.TotalTokens a))].

Definition typeRow (t : SessionTypeSummary.t) : Text :=
  Render ("  %-15s %8d %12s %12s" +:+ LF)
    [OText (Plain (SessionTypeSummary.Type_ t)); OInt (SessionTypeSummary.Sessions t);
     OText (FormatCost (SessionTypeSummary.TotalCost t));
     OText (FormatTokens (SessionTypeSummary.TotalTokens t))].

Definition cronRow (c : CronSummary.t) : Text :=
  let name := CronSummary.CronName c in
  let name :=
    if (25 <? String.length name)%nat then substring 0 22 name +:+ "..." else name in
  Render ("  %-25s %6d %10s %10s %10s" +:+ LF)
    [OText (Plain name); OInt (CronSummary.Runs c);
     OText (FormatCost (CronSummary.TotalCost c));
     OText (FormatCost (CronSummary.AvgCost c));
     OText (FormatCost (CronSummary.MaxCost c))].

Definition modelRow (m : ModelSummary.t) : Text :=
  let model := ModelSummary.Model m in
  let model :=
    if (35 <? String.length model)%nat then substring 0 32 model +:+ "..." else model in
  Render ("  %-35s %8d %10s %10s" +:+ LF)
    [OText (Plain model); OInt (ModelSummary.Sessions m);
     OText (FormatCost (ModelSummary.TotalCost m));
     OText (FormatTokens (ModelSummary.TotalTokens m))].

Definition dayRow (d : DaySummary.t) : Text :=
  Render ("  %-12s %8d %12s %12s" +:+ LF)
    [OText (Plain (DaySummary.Date d)); OInt (DaySummary.Sessions d);
     OText (FormatCost (DaySummary.TotalCost d));
     OText (FormatTokens (DaySummary.TotalTokens d))].

(** The body of the loop over the anomalies. *)
Definition writeAnomaly (b : list Text) (a : Anomaly.t) : list Text :=
  let severity :=
    if String.eqb (Anomaly.Severity a) "error" then "❌"
    else if String.eqb (Anomaly.Severity a) "info" then "ℹ️ "
    else "⚠️ " in
  let b :=
    WriteString b
      (Render ("  %s [%s] %s" +:+ LF)
         [OText (Plain severity); OText (Plain (Anomaly.Type_ a));
          OText (textOf (Anomaly.Description a))]) in
  if fgt (Anomaly.Cost a) fzero then
    let b :=
      WriteString b (Render "     Cost: %s" [OText (FormatCost (Anomaly.Cost a))]) in
    let b :=
      if negb (String.eqb (Anomaly.Agent a) "") then
        WriteString b (Render " | Agent: %s" [OText (Plain (Anomaly.Agent a))])
      else b in
    WriteString b (Plain LF)
  else b.

Definition sessionRow (s : SessionDetail.t) : Text :=
  let model := SessionDetail.Model s in
  let model :=
    if (20 <? String.length model)%nat then substring 0 17 model +:+ "..." else model in
  Render ("  %-12s %-15s %10s %10s %s" +:+ LF)
    [OText (Plain (SessionDetail.Agent s)); OText (Plain (SessionDetail.Type_ s));
     OText (FormatCost (SessionDetail.Cost s));
     OText (FormatTokens (SessionDetail.Tokens s));
     OText (Plain model)].

(** The loop over the sessions, from the index [i]: it stops at the index
    10. *)
Fixpoint writeSessions (i : nat) (sessions : list SessionDetail.t) (b : list Text)
    : list Text :=
  match sessions with
  | [] => b
  | s :: rest =>
      if (10 <=? i)%nat then b
      else writeSessions (S i) rest (WriteString b (sessionRow s))
  end.

(** The method [Format] of [TextFormatter]: the strings written to the
    builder. It returns no error. The length of a slice that is [nil] is
    0. *)
Definition TextFormatter_Format (r : Report.t) : list Text :=
  let b := [] in
  let b := WriteString b (Plain ("╔════════════════════════════════════════════════════════════════╗" +:+ LF)) in
  let b := WriteString b (Plain ("║              OpenClaw Cost Report                              ║" +:+ LF)) in
  let b := WriteString b (Plain ("╚════════════════════════════════════════════════════════════════╝" +:+ LF +:+ LF)) in
  let b :=
    WriteString b
      (Render ("Generated: %s" +:+ LF)
         [OText (Plain (Format_RFC3339 (Report.GeneratedAt r)))]) in
  let b :=
    if negb (String.eqb (Report.Period r) "") then
      WriteString b (Render ("Period:    %s" +:+ LF) [OText (Plain (Report.Period r))])
    else b in
  let b := WriteString b (Plain LF) in
  let b := WriteString b rule in
  let b := WriteString b (Plain (" SUMMARY" +:+ LF)) in
  let b := WriteString b rule in
  let b :=
    WriteString b
      (Render ("  Total Sessions: %d" +:+ LF) [OInt (Report.TotalSessions r)]) in
  let b :=
    WriteString b
      (Render ("  Total Cost:     %s" +:+ LF) [OText (FormatCost (Report.TotalCost r))]) in
  let b :=
    WriteString b
      (Render ("  Total Tokens:   %s" +:+ LF)
         [OText (FormatTokens (Report.TotalTokens r))]) in
  let b := WriteString b (Plain LF) in
  let b :=
    if (0 <? length (Report.ByAgent r))%nat then
      let b := WriteString b rule in
      let b := WriteString b (Plain (" BY AGENT" +:+ LF)) in
      let b := WriteString b rule in
      let b := WriteString b agentsHeader in
      let b := fold_left (fun b a => WriteString b (agentRow a)) (Report.ByAgent r) b in
      WriteString b (Plain LF)
    else b in
  let b :=
    if (0 <? length (Report.BySessionType r))%nat then
      let b := WriteString b rule in
      let b := WriteString b (Plain (" BY SESSION TYPE" +:+ LF)) in
      let b := WriteString b rule in
      let b := WriteString b typesHeader in
      let b :=
        fold_left (fun b t => WriteString b (typeRow t)) (Report.BySessionType r) b in
      WriteString b (Plain LF)
    else b in
  let byCron := default [] (Report.ByCron r) in
  let b :=
    if (0 <? length byCron)%nat then
      let b := WriteString b rule in
      let b := WriteString b (Plain (" BY CRON JOB" +:+ LF)) in
      let b := WriteString b rule in
      let b := WriteString b cronsHeader in
      let b := fold_left (fun b c => WriteString b (cronRow c)) byCron b in
      WriteString b (Plain LF)
    else b in
  let b :=
    if (0 <? length (Report.ByModel r))%nat then
      let b := WriteString b rule in
      let b := WriteString b (Plain (" BY MODEL" +:+ LF)) in
      let b := WriteString b rule in
      let b := WriteString b modelsHeader in
      let b := fold_left (fun b m => WriteString b (modelRow m)) (Report.ByModel r) b in
      WriteString b (Plain LF)
    else b in
  let b :=
    if (1 <? length (Report.ByDay r))%nat then
      let b := WriteString b rule in
      let b := WriteString b (Plain (" DAILY TREND" +:+ LF)) in
      let b := WriteString b rule in
      let b := WriteString b daysHeader in
      let b := fold_left (fun b d => WriteString b (dayRow d)) (Report.ByDay r) b in
      WriteString b (Plain LF)
    else b in
  let b :=
    if (0 <? length (Report.Anomalies r))%nat then
      let b := WriteString b rule in
      let b := WriteString b (Plain (" ANOMALIES" +:+ LF)) in
      let b := WriteString b rule in
      let b := fold_left writeAnomaly (Report.Anomalies r) b in
      WriteString b (Plain LF)
    else b in
  let sessions := default [] (Report.Sessions r) in
  let b :=
    if (0 <? length sessions)%nat && (length sessions <=? 20)%nat then
      let b := WriteString b rule in
      let b := WriteString b (Plain (" TOP EXPENSIVE SESSIONS" +:+ LF)) in
      let b := WriteString b rule in
      let b := WriteString b sessionsHeader in
      let b := writeSessions 0 sessions b in
      WriteString b (Plain LF)
    else b in
  b.

(** [formatSessionType], which nothing calls. *)
Definition formatSessionType (t : SessionType) : string :=
  if String.eqb t SessionTypeInteractive then "interactive"
  else if String.eqb t SessionTypeCron then "cron"
  else if String.eqb t SessionTypeSubagent then "subagent"
  else t.

(** The two implementations of [formats.Formatter]. Nothing reads
    [Pretty]. *)
Inductive Formatter : Set :=
| JSONFormatter (Pretty : bool)
| TextFormatter.

Definition NewJSONFormatter : Formatter := JSONFormatter true.
Definition NewTextFormatter : Formatter := TextFormatter.

(** The method [Format] of [JSONFormatter]: the encoding is that of
    [encoding/json], [Encode] with the indentation of two spaces; it is an
    argument. *)
Definition JSONFormatter_Format (Encode : Report.t -> string + string)
    (report : Report.t) : string + list Text :=
  match Encode report with
  | inl err => inl err
  | inr buf => inr [Plain buf]
  end.

(** The method [Format] of a [formats.Formatter]. *)
Definition Format (Encode : Report.t -> string + string) (f : Formatter)
    (report : Report.t) : string + list Text :=
  match f with
  | JSONFormatter _ => JSONFormatter_Format Encode report
  | TextFormatter => inr (TextFormatter_Format report)
  end.

(** ** The command line (main.go) *)

(** The flags of the [report] command. *)
Module Flags.
Record t : Type := mk {
  agentsDir : string;
  reportPeriod : string;
  reportFormat : string;
  reportAgent : string;
  reportCrons : bool;
  reportModels : bool;
  reportFull : bool;
  reportThreshold : float64
}.
End Flags.

Definition validPeriods : gmap string bool :=
  {[ "today" := true; "yesterday" := true; "week" := true; "month" := true;
     "all" := true ]}.

(** What [runReport] takes from outside the program: the home directory
    ([os.UserHomeDir]), the file system the parser reads, what [Generate]
    takes from the runtime, and the JSON encoding of a report or the error
    of the encoder. *)
Record World : Type := mkWorld {
  UserHomeDir : string + string;
  files : FileSystem;
  runtime : Env;
  Encode : Report.t -> string + string
}.

(** [runReport]: what it writes to the standard error, and the error it
    returns or what it prints on the standard output. An error is its
    message; the verbs [%s] and [%w] render a string and the message of an
    error as they are. The reporter takes the sessions without their
    [Messages]. *)
Definition runReport (w : World) (f : Flags.t)
    : list Formatted * (string + list Text) :=
  let dir :=
    if String.eqb (Flags.agentsDir f) "" then
      match UserHomeDir w with
      | inl err => inl ("failed to get home directory: " +:+ err)
      | inr home => inr (home +:+ "/.openclaw/agents")
      end
    else inr (Flags.agentsDir f) in
  match dir with
  | inl e => ([], inl e)
  | inr dir =>
      if negb (String.eqb (Flags.reportPeriod f) "")
         && negb (default false (validPeriods !! Flags.reportPeriod f))
      then
        ([], inl ("invalid period: " +:+ Flags.reportPeriod f
                  +:+ " (valid: today, yesterday, week, month, all)"))
      else if negb (String.eqb (Flags.reportFormat f) "json")
              && negb (String.eqb (Flags.reportFormat f) "text")
      then
        ([], inl ("invalid format: " +:+ Flags.reportFormat f +:+ " (valid: json, text)"))
      else
        let p := NewParser dir in
        match ParseAll (files w) p (Flags.reportAgent f) with
        | (inl err, stderr) => (stderr, inl ("failed to parse sessions: " +:+ err))
        | (inr sessions, stderr) =>
            let cfg :=
              Config.mk (Flags.reportPeriod f) (Flags.reportAgent f) (Flags.reportCrons f)
                (Flags.reportModels f) (Flags.reportFull f) (Flags.reportThreshold f) in
            let r := New (map fst sessions) cfg in
            let report := Generate (runtime w) r in
            let formatter :=
              if String.eqb (Flags.reportFormat f) "json" then NewJSONFormatter
              else NewTextFormatter in
            match Format (Encode w) formatter report with
            | inl err => (stderr, inl ("failed to format report: " +:+ err))
            | inr output => (stderr, inr output)
            end
        end
  end.

(** The line of one agent, in the loop of the command [agents]. *)
Definition agentLine (agent : string) : Text :=
  Render ("  - %s" +:+ LF) [OText (Plain agent)].

(** The function [RunE] of [agentsCmd]: the error it returns, or what it
    prints. It reads the variable [agentsDir]; only the command [report]
    has a flag that sets it. *)
Definition agentsCmd_RunE (w : World) (f : Flags.t) : string + list Text :=
  let dir :=
    if String.eqb (Flags.agentsDir f) "" then
      match UserHomeDir w with
      | inl err => inl ("failed to get home directory: " +:+ err)
      | inr home => inr (home +:+ "/.openclaw/agents")
      end
    else inr (Flags.agentsDir f) in
  match dir with
  | inl e => inl e
  | inr dir =>
      let p := NewParser dir in
      match ListAgents (files w) p with
      | inl err => inl ("failed to list agents: " +:+ err)
      | inr agents =>
          if (length agents =? 0)%nat then inr [Plain ("No agents found" +:+ LF)]
          else
            let stdout := [Plain ("Available agents:" +:+ LF)] in
            inr (fold_left (fun stdout agent => append stdout (agentLine agent))
                   agents stdout)
      end
  end.

(** * Definitions for the statements

    What the properties are stated with: the predicates of the period
    filter, sample sessions, the rules of the anomaly detector, sums, the
    loop shared by the five aggregators, and the order of [float64]. *)

#[local] Set Warnings "-inexact-float".

(** ** The fields of a session the report is about *)

Definition cost (s : Session.t) : float64 := Usage.CostTotal (Session.Usage s).
Definition tokens (s : Session.t) : Z := Usage.Total (Session.Usage s).
Definition one (s : Session.t) : Z := 1.

(** The start of the session is known: [StartedAt] is not the zero time. *)
Definition known (s : Session.t) : bool := negb (time.IsZero (Session.StartedAt s)).

(** One of the three constants of [SessionType]. *)
Definition validKind (t : SessionType) : Prop :=
  t = SessionTypeInteractive \/ t = SessionTypeCron \/ t = SessionTypeSubagent.

(** ** The period filter *)

(** Local midnight of the date of [t], as [filterByPeriod] builds it. *)
Definition localMidnight (t : time.Time) : time.Time :=
  time.Date (time.Year t) (time.Month t) (time.Day t) 0 0 0 0 (time.Location_of t).

(** What the one-sided loop keeps. *)
Definition keptAfter (cutoff : time.Time) (s : Session.t) : bool :=
  negb (time.IsZero (Session.StartedAt s))
  && time.After (Session.StartedAt s) cutoff.

(** What the loop of ["yesterday"] keeps. *)
Definition keptBetween (cutoff nextDay : time.Time) (s : Session.t) : bool :=
  negb (time.IsZero (Session.StartedAt s))
  && time.After (Session.StartedAt s) cutoff
  && time.Before (Session.StartedAt s) nextDay.

Definition withPeriod (r : Reporter.t) (p : string) : Prop :=
  Config.Period (Reporter.config r) = p.

(** A label that is none of the six the code tests for. *)
Definition unknownPeriod (p : string) : Prop :=
  p <> "" /\ p <> "all" /\ p <> "today" /\ p <> "yesterday" /\ p <> "week"
  /\ p <> "month".

(** ** The anomaly detector *)

(** [sub] occurs in [s]: the specification's case-sensitive substring match. *)
Definition isSubstring (sub s : string) : Prop :=
  exists pre post : string, s = pre +:+ sub +:+ post.

(** The conditions of the three rules. *)
Definition expensiveCronRule (threshold : float64) (s : Session.t) : bool :=
  String.eqb (Session.Type_ s) SessionTypeCron
  && fgt (Usage.CostTotal (Session.Usage s)) threshold.

Definition highTokenRule (s : Session.t) : bool :=
  Usage.Total (Session.Usage s) >? 100000.

Definition opusOverkillRule (s : Session.t) : bool :=
  containsOpus (Usage.Model (Session.Usage s))
  && (Usage.Total (Session.Usage s) <? 5000).

(** What every flag carries of its session. *)
Definition carries (a : Anomaly.t) (type severity : string) (s : Session.t) : Prop :=
  Anomaly.Type_ a = type /\ Anomaly.Severity a = severity
  /\ Anomaly.Cost a = Usage.CostTotal (Session.Usage s)
  /\ Anomaly.SessionID a = Session.ID s
  /\ Anomaly.Agent a = Session.Agent s.

(** ** The report assembler *)

(** The configuration [c] with its flag [Full] set to [b]. *)
Definition setFull (b : bool) (c : Config.t) : Config.t :=
  Config.mk (Config.Period c) (Config.Agent c) (Config.Crons c) (Config.Models c) b
    (Config.Threshold c).

(** ** Sums *)

Definition Zsum (l : list Z) : Z := foldr Z.add 0 l.

(** The loop [total := 0; for _, x := range l { total += x }] on [int]. *)
Definition isum (l : list Z) : Z := fold_left int_add l 0.

(** The same loop on [float64]. *)
Definition fsum (l : list float64) : float64 := fold_left fadd l fzero.

(** ** Grouping, in general

    The five aggregators share one loop: a session has a key or is skipped,
    a key that is new starts from an initial summary, and the summary under
    the key is updated by the session. *)

Section Grouping.

Context `{Countable K} {V : Type}.

Variable key : Session.t -> option K.
Variable init : K -> V.
Variable upd : V -> Session.t -> V.

Definition groupStep (agg : gmap K V) (s : Session.t) : gmap K V :=
  match key s with
  | None => agg
  | Some k =>
      let agg :=
        match agg !! k with
        | Some _ => agg
        | None => <[k := init k]> agg
        end in
      alter (fun v => upd v s) k agg
  end.

(** The sessions of the list that fall under the key [k]. *)
Definition groupOf (k : K) (l : list Session.t) : list Session.t :=
  List.filter (fun s => bool_decide (key s = Some k)) l.

(** The sessions that have a key. *)
Definition keyed (s : Session.t) : bool :=
  match key s with Some _ => true | None => false end.

(** The sum of an integer field over the summaries of a map. *)
Definition msum (f : V -> Z) (m : gmap K V) : Z :=
  Zsum (map (fun kv => f (snd kv)) (map_to_list m)).

End Grouping.

(** ** The five aggregators as groupings

    Key, initial summary and update of each of the five loops. *)

Definition agentKey (s : Session.t) : option string := Some (Session.Agent s).
Definition agentInit (k : string) : AgentSummary.t := AgentSummary.mk k 0 fzero 0 0 0.
Definition agentUpd (a : AgentSummary.t) (s : Session.t) : AgentSummary.t :=
  AgentSummary.mk (AgentSummary.Agent a)
    (int_succ (AgentSummary.Sessions a))
    (fadd (AgentSummary.TotalCost a) (Usage.CostTotal (Session.Usage s)))
    (int_add (AgentSummary.InputTokens a) (Usage.Input (Session.Usage s)))
    (int_add (AgentSummary.OutputTokens a) (Usage.Output (Session.Usage s)))
    (int_add (AgentSummary.TotalTokens a) (Usage.Total (Session.Usage s))).

Definition typeKey (s : Session.t) : option string := Some (Session.Type_ s).
Definition typeInit (k : string) : SessionTypeSummary.t :=
  SessionTypeSummary.mk k 0 fzero 0.
Definition typeUpd (t : SessionTypeSummary.t) (s : Session.t) : SessionTypeSummary.t :=
  SessionTypeSummary.mk (SessionTypeSummary.Type_ t)
    (int_succ (SessionTypeSummary.Sessions t))
    (fadd (SessionTypeSummary.TotalCost t) (Usage.CostTotal (Session.Usage s)))
    (int_add (SessionTypeSummary.TotalTokens t) (Usage.Total (Session.Usage s))).

(** The model of a session as [aggregateByModel] reads it. *)
Definition modelName (s : Session.t) : string :=
  if String.eqb (Usage.Model (Session.Usage s)) "" then "unknown"
  else Usage.Model (Session.Usage s).

Definition modelKey (s : Session.t) : option string :=
  Some (if String.eqb (Usage.Model (Session.Usage s)) "" then "unknown"
        else Usage.Model (Session.Usage s)).
Definition modelInit (k : string) : ModelSummary.t := ModelSummary.mk k 0 fzero 0 0 0.
Definition modelUpd (m : ModelSummary.t) (s : Session.t) : ModelSummary.t :=
  ModelSummary.mk (ModelSummary.Model m)
    (int_succ (ModelSummary.Sessions m))
    (fadd (ModelSummary.TotalCost m) (Usage.CostTotal (Session.Usage s)))
    (int_add (ModelSummary.InputTokens m) (Usage.Input (Session.Usage s)))
    (int_add (ModelSummary.OutputTokens m) (Usage.Output (Session.Usage s)))
    (int_add (ModelSummary.TotalTokens m) (Usage.Total (Session.Usage s))).

Definition dayKey (s : Session.t) : option string :=
  if time.IsZero (Session.StartedAt s) then None
  else Some (time.Format_date (Session.StartedAt s)).
Definition dayInit (k : string) : DaySummary.t := DaySummary.mk k 0 fzero 0.
Definition dayUpd (d : DaySummary.t) (s : Session.t) : DaySummary.t :=
  DaySummary.mk (DaySummary.Date d)
    (int_succ (DaySummary.Sessions d))
    (fadd (DaySummary.TotalCost d) (Usage.CostTotal (Session.Usage s)))
    (int_add (DaySummary.TotalTokens d) (Usage.Total (Session.Usage s))).

Definition cronKey (s : Session.t) : option (string * string) :=
  if String.eqb (Session.Type_ s) SessionTypeCron
  then Some (Session.CronName s, Session.CronID s) else None.
Definition cronInit (k : string * string) : CronSummary.t :=
  CronSummary.mk (fst k) (snd k) 0 fzero fzero fzero 0.
Definition cronUpd (c : CronSummary.t) (s : Session.t) : CronSummary.t :=
  CronSummary.mk (CronSummary.CronName c) (CronSummary.CronID c)
    (int_succ (CronSummary.Runs c))
    (fadd (CronSummary.TotalCost c) (Usage.CostTotal (Session.Usage s)))
    (CronSummary.AvgCost c)
    (if fgt (Usage.CostTotal (Session.Usage s)) (CronSummary.MaxCost c)
     then Usage.CostTotal (Session.Usage s) else CronSummary.MaxCost c)
    (int_add (CronSummary.TotalTokens c) (Usage.Total (Session.Usage s))).

(** The sessions a summary stands for, dimension by dimension. *)
Definition ofAgent (a : AgentSummary.t) (s : Session.t) : bool :=
  String.eqb (Session.Agent s) (AgentSummary.Agent a).

Definition ofType (t : SessionTypeSummary.t) (s : Session.t) : bool :=
  String.eqb (Session.Type_ s) (SessionTypeSummary.Type_ t).

Definition ofModel (m : ModelSummary.t) (s : Session.t) : bool :=
  String.eqb (modelName s) (ModelSummary.Model m).

Definition ofDay (d : DaySummary.t) (s : Session.t) : bool :=
  known s && String.eqb (time.Format_date (Session.StartedAt s)) (DaySummary.Date d).

Definition ofCron (e : CronSummary.t) (s : Session.t) : bool :=
  String.eqb (Session.Type_ s) SessionTypeCron
  && String.eqb (Session.CronName s) (CronSummary.CronName e)
  && String.eqb (Session.CronID s) (CronSummary.CronID e).

(** ** Orders

    [inOrder less a b]: [less] does not put [b] before [a], which is what
    two consecutive entries of a sorted slice satisfy;
    [placedBefore less a b]: [less] puts [a] before [b]. *)

Definition inOrder {A : Type} (less : A -> A -> bool) (a b : A) : Prop :=
  less b a = false.

Definition placedBefore {A : Type} (less : A -> A -> bool) (a b : A) : Prop :=
  less a b = true.

(** No two consecutive entries have the same cost: the list decreases
    strictly. *)
Definition noTies {A : Type} (c : A -> float64) (l : list A) : Prop :=
  Sorted (fun a b => fgt (c a) (c b) = true) l.

(** The lists of two runs that may differ in the order of their entries. *)
Definition sameEntries {A : Type} (l1 l2 : option (list A)) : Prop :=
  match l1, l2 with
  | Some l1, Some l2 => Permutation l1 l2
  | None, None => True
  | _, _ => False
  end.

(** ** The order of [float64]

    The comparisons of binary64 are read through [Prim2SF]: a value that is
    not a NaN has a rank of three integers (sign class, exponent,
    mantissa), and [<] on floats is the lexicographic order of the ranks.
    The two zeros have the same rank. *)

Definition rk1 (f : spec_float) : Z :=
  match f with
  | S754_infinity true => -2
  | S754_finite true _ _ => -1
  | S754_zero _ => 0
  | S754_nan => 0
  | S754_finite false _ _ => 1
  | S754_infinity false => 2
  end.

Definition rk2 (f : spec_float) : Z :=
  match f with
  | S754_finite true _ e => - e
  | S754_finite false _ e => e
  | _ => 0
  end.

Definition rk3 (f : spec_float) : Z :=
  match f with
  | S754_finite true m _ => Zneg m
  | S754_finite false m _ => Zpos m
  | _ => 0
  end.

Definition rank_lt (f g : spec_float) : Prop :=
  rk1 f < rk1 g
  \/ (rk1 f = rk1 g /\ (rk2 f < rk2 g \/ (rk2 f = rk2 g /\ rk3 f < rk3 g))).

Definition rank_eq (f g : spec_float) : Prop :=
  rk1 f = rk1 g /\ rk2 f = rk2 g /\ rk3 f = rk3 g.

Definition ordered (f : spec_float) : Prop := f <> S754_nan.

Definition isNaN (x : float64) : Prop := Prim2SF x = S754_nan.

Definition flt (x y : float64) : Prop := rank_lt (Prim2SF x) (Prim2SF y).
Definition fsame (x y : float64) : Prop := rank_eq (Prim2SF x) (Prim2SF y).

(** [x >= 0]: the costs of the data model. A NaN is not non-negative; the
    negative zero and the positive infinity are. *)
Definition nonneg (x : float64) : Prop := fge x fzero = true.

(** The same on the specification side. *)
Definition NN (f : spec_float) : Prop :=
  match f with
  | S754_zero _ => True
  | S754_infinity false => True
  | S754_finite false _ _ => True
  | _ => False
  end.

(** [f] is not a NaN and has the sign [sx]. *)
Definition signed (sx : bool) (f : spec_float) : Prop :=
  match f with
  | S754_zero s | S754_infinity s | S754_finite s _ _ => s = sx
  | S754_nan => False
  end.



(** ** Sample data for the examples *)

Definition usage (cost : float64) (tokens : Z) (model : string) : Usage.t :=
  Usage.mk 0 0 tokens 0 0 fzero fzero cost model.

Definition session (id agent kind : string) (cost : float64) (tokens : Z)
    (model : string) (startedAt : time.Time) : Session.t :=
  Session.mk id agent kind "" "" "" "" (usage cost tokens model) startedAt 0.

Definition cronSession (id agent cronID cronName : string) (cost : float64)
    (tokens : Z) (model : string) (startedAt : time.Time) : Session.t :=
  Session.mk id agent SessionTypeCron cronID cronName "" "" (usage cost tokens model)
    startedAt 0.

Definition configFor (period : string) (crons full : bool) : Config.t :=
  Config.mk period "" crons false full 0.5%float.

(** Wednesday, February 11, 2026, 15:30 UTC. *)
Definition sampleNow : time.Time := time.Date 2026 2 11 15 30 0 0 time.UTC.

Definition sampleEnv : Env := mkEnv sampleNow sampleNow [] [] [] [] [].

(** The same clock, other orders of iteration over the maps. *)
Definition sampleEnv' : Env :=
  mkEnv sampleNow sampleNow [1%nat] [2%nat; 1%nat] [1%nat] [1%nat] [].

Definition atMidnightToday : Session.t :=
  session "s1" "urza" SessionTypeInteractive 1.5%float 1000 "kimi"
    (time.Date 2026 2 11 0 0 0 0 time.UTC).

Definition lateYesterday : Session.t :=
  session "s2" "urza" SessionTypeInteractive 0.5%float 500 "kimi"
    (time.Date 2026 2 10 23 59 59 0 time.UTC).

Definition atMidnightYesterday : Session.t :=
  cronSession "s3" "amos" "nightly-a1b2c3" "nightly" 3%float 2000 "claude-opus-4-6"
    (time.Date 2026 2 10 0 0 0 0 time.UTC).

Definition thisAfternoon : Session.t :=
  session "s4" "amos" SessionTypeSubagent 0.25%float 150000 "kimi"
    (time.Date 2026 2 11 14 0 0 0 time.UTC).

Definition undated : Session.t :=
  session "s5" "pepper" SessionTypeInteractive 2.5%float 1000 "" time.zero.

Definition sampleSessions : list Session.t :=
  [atMidnightToday; lateYesterday; atMidnightYesterday; thisAfternoon; undated].

(** A timestamp of year 0, before the zero instant of [time.Time]. *)
Definition beforeYearOne : Session.t :=
  session "s6" "pepper" SessionTypeInteractive 2%float 1000 "kimi"
    (time.Date 0 6 1 0 0 0 0 time.UTC).

(** Three sessions whose costs do not add up the same way in both orders. *)
Definition roundingSessions : list Session.t :=
  [session "r1" "amos" SessionTypeInteractive 0.1%float 100 "kimi" time.zero;
   session "r2" "urza" SessionTypeInteractive 0.2%float 200 "kimi" time.zero;
   session "r3" "urza" SessionTypeInteractive 0.3%float 300 "kimi" time.zero].

(** Two agents whose costs tie. *)
Definition tiedSessions : list Session.t :=
  [session "t1" "amos" SessionTypeInteractive 1%float 100 "kimi" time.zero;
   session "t2" "urza" SessionTypeInteractive 1%float 200 "kimi" time.zero].

(** ** More about the reporter *)

(** The predicate of the loop of [filterByPeriod] for the configuration of
    [r] and the clock reading [now]. *)
Definition keptBy (now : time.Time) (r : Reporter.t) : Session.t -> bool :=
  let period := Config.Period (Reporter.config r) in
  if String.eqb period "" || String.eqb period "all" then fun _ => true
  else if String.eqb period "yesterday" then
    keptBetween (localMidnight (time.AddDate now 0 0 (-1))) (localMidnight now)
  else if String.eqb period "today" then keptAfter (localMidnight now)
  else if String.eqb period "week" then keptAfter (time.AddDate now 0 0 (-7))
  else if String.eqb period "month" then keptAfter (time.AddDate now 0 (-1) 0)
  else keptAfter time.zero.

(** The ids of the sessions flagged with the anomaly type [type]. *)
Definition flagged (type : string) (anomalies : list Anomaly.t) : list string :=
  map Anomaly.SessionID
    (List.filter (fun a => String.eqb (Anomaly.Type_ a) type) anomalies).

(** The configuration [c] with the threshold [t]. *)
Definition setThreshold (t : float64) (c : Config.t) : Config.t :=
  Config.mk (Config.Period c) (Config.Agent c) (Config.Crons c) (Config.Models c)
    (Config.Full c) t.

Definition inputTokens (s : Session.t) : Z := Usage.Input (Session.Usage s).
Definition outputTokens (s : Session.t) : Z := Usage.Output (Session.Usage s).

(** The session is a cron run, as [aggregateByCron] tests it. *)
Definition isCron (s : Session.t) : bool :=
  String.eqb (Session.Type_ s) SessionTypeCron.

(** The session [s] with the model name [aggregateByModel] files it under. *)
Definition namedModel (s : Session.t) : Session.t :=
  Session.mk (Session.ID s) (Session.Agent s) (Session.Type_ s) (Session.CronID s)
    (Session.CronName s) (Session.SubagentID s) (Session.FilePath s)
    (Usage.mk (Usage.Input (Session.Usage s)) (Usage.Output (Session.Usage s))
       (Usage.Total (Session.Usage s)) (Usage.CacheRead (Session.Usage s))
       (Usage.CacheWrite (Session.Usage s)) (Usage.CostInput (Session.Usage s))
       (Usage.CostOutput (Session.Usage s)) (Usage.CostTotal (Session.Usage s))
       (modelName s))
    (Session.StartedAt s) (Session.Duration s).

(** The report of a run that keeps no session. *)
Definition emptyReport (env : Env) (c : Config.t) : Report.t :=
  Report.mk (time.In_UTC (generatedAt env)) (Config.Period c) fzero 0 0 [] []
    (if Config.Crons c || Config.Full c then Some [] else None) [] [] []
    (if Config.Full c then Some [] else None).

(** ** Session keys *)

(** Every byte of [s] satisfies [p]. *)
Fixpoint allBytes (p : ascii -> bool) (s : string) : bool :=
  match s with
  | EmptyString => true
  | String c s' => p c && allBytes p s'
  end.

(** What a group [([^:]+)] matches: a non-empty string without a colon. *)
Definition segment (s : string) : Prop := s <> "" /\ allBytes notColon s = true.

(** What a group [(.+)] matches: a non-empty string without a newline. *)
Definition oneLine (s : string) : Prop := s <> "" /\ allBytes anyChar s = true.

(** An ASCII letter or digit. *)
Definition alphaNumeric (c : ascii) : bool :=
  let r := N_of_ascii c in
  (((97 <=? r) && (r <=? 122)) || ((65 <=? r) && (r <=? 90))
   || ((48 <=? r) && (r <=? 57)))%N.

(** Not the byte ["-"]. *)
Definition notDash (c : ascii) : bool := negb (Ascii.eqb c "-").

(** The session id [agent:{name}:cron:{cron}:run:{sid}]. *)
Definition cronShape (id name cron sid : string) : Prop :=
  segment name /\ segment cron /\ oneLine sid
  /\ id = "agent:" +:+ name +:+ ":cron:" +:+ cron +:+ ":run:" +:+ sid.

(** The session id [agent:{name}:subagent:{sid}]. *)
Definition subagentShape (id name sid : string) : Prop :=
  segment name /\ oneLine sid /\ id = "agent:" +:+ name +:+ ":subagent:" +:+ sid.

(** The session [s] with the kind, cron id, cron name and sub-agent id
    given. *)
Definition withKind (s : Session.t) (kind : SessionType)
    (cronID cronName subagentID : string) : Session.t :=
  Session.mk (Session.ID s) (Session.Agent s) kind cronID cronName subagentID
    (Session.FilePath s) (Session.Usage s) (Session.StartedAt s) (Session.Duration s).

(** The run [run123] of the cron job [daily-kickoff-abc123] of agent [urza]. *)
Definition sampleRun : Session.t :=
  Session.mk "run123" "urza" SessionTypeCron "daily-kickoff-abc123" "" "" ""
    (Usage.mk 0 0 0 0 0 fzero fzero fzero "") time.zero 0.

(** ** Transcripts *)

(** The test of the loop of [parseSessionFile]: an assistant message. *)
Definition isAssistant (msg : Message.t) : bool :=
  String.eqb (Message.Type_ msg) "message"
  && String.eqb (Message.Body.Role (Message.Message msg)) "assistant".

(** The lines of a file that decode to an assistant message, in order. *)
Definition assistantMessages (lines : list (option Message.t)) : list Message.t :=
  flat_map
    (fun line =>
       match line with
       | Some msg => if isAssistant msg then [msg] else []
       | None => []
       end)
    lines.

(** The timestamps of the messages that have one. *)
Definition stamps (msgs : list Message.t) : list time.Time :=
  List.filter (fun t => negb (time.IsZero t)) (map Message.Timestamp msgs).

(** The model a message names: the one of its body, else its own. *)
Definition modelOf (msg : Message.t) : string :=
  if String.eqb (Message.Body.Model (Message.Message msg)) "" then Message.Model msg
  else Message.Body.Model (Message.Message msg).

(** The models the messages name, in order. *)
Definition models (msgs : list Message.t) : list string :=
  List.filter (fun m => negb (String.eqb m "")) (map modelOf msgs).

Definition usageOf (msg : Message.t) : Message.Usage.t :=
  Message.Body.Usage (Message.Message msg).

Definition costOf (msg : Message.t) : Message.Cost.t :=
  Message.Usage.Cost (usageOf msg).

(** The session, the messages and the error that [parseSessionFile]
    returns. *)
Definition parsedSession (p : Session.t * list Message.t * option string) : Session.t :=
  fst (fst p).
Definition parsedMessages (p : Session.t * list Message.t * option string)
    : list Message.t :=
  snd (fst p).
Definition parseError (p : Session.t * list Message.t * option string) : option string :=
  snd p.

(** The session of [sessionID] before any line is read. *)
Definition freshSession (agent sessionID filePath : string) : Session.t :=
  parseSessionKey
    (Session.mk sessionID agent "" "" "" "" filePath
       (Usage.mk 0 0 0 0 0 fzero fzero fzero "") time.zero 0)
    sessionID.

(** The state of the loop of [parseSessionFile] after the last line. *)
Definition scanned (agent sessionID filePath : string) (file : File) : Scan :=
  fold_left scanLine (lines file)
    (mkScan (freshSession agent sessionID filePath) [] time.zero time.zero).

(** What [ParseAll] reads for one session: the agent, the id, the path and
    the file. *)
Record Transcript : Type := mkTranscript {
  ofAgentNamed : string;
  sessionID_of : string;
  path_of : string;
  file_of : File
}.

Definition parsed (t : Transcript) : Session.t :=
  parsedSession
    (parseSessionFile (ofAgentNamed t) (sessionID_of t) (path_of t) (inr (file_of t))).

(** No assistant message of the file has a negative or undefined cost. *)
Definition costsNonNegative (t : Transcript) : Prop :=
  Forall (fun m => nonneg (Message.Cost.Total (costOf m)))
    (assistantMessages (lines (file_of t))).

(** The file of the test of [parseSessionFile]: a header line and two
    assistant messages. *)
Definition sampleFile : File :=
  mkFile
    [Some (Message.mk "session" (time.Date 2026 2 10 16 53 15 416000000 time.UTC)
             (Message.Body.mk "" (Message.Usage.mk 0 0 0 0 0
                                    (Message.Cost.mk fzero fzero fzero fzero fzero)) "")
             "");
     Some (Message.mk "message" (time.Date 2026 2 10 16 53 15 420000000 time.UTC)
             (Message.Body.mk "assistant"
                (Message.Usage.mk 100 50 150 0 0
                   (Message.Cost.mk 0.0005%float 0.00075%float fzero fzero 0.00125%float))
                "moonshotai/kimi-k2.5")
             "");
     Some (Message.mk "message" (time.Date 2026 2 10 16 54 0 0 time.UTC)
             (Message.Body.mk "assistant"
                (Message.Usage.mk 200 100 300 0 0
                   (Message.Cost.mk 0.001%float 0.0015%float fzero fzero 0.0025%float))
                "moonshotai/kimi-k2.5")
             "")]
    None.

Definition sampleTranscript : Transcript :=
  mkTranscript "urza" "test-session" "/tmp/test-session.jsonl" sampleFile.

(** ** The sessions on the disk *)

(** The directory of the sessions of [agent] and the index read from it. *)
Definition sessionsDirOf (fs : FileSystem) (p : Parser.t) (agent : string) : string :=
  filepathJoin fs [Parser.agentsDir p; agent; "sessions"].

Definition sessionIndexOf (fs : FileSystem) (p : Parser.t) (agent : string)
    : gmap string SessionIndexEntry.t :=
  match ReadIndex fs (filepathJoin fs [sessionsDirOf fs p agent; "sessions.json"]) with
  | Some index => map_imap (indexEntry fs) index
  | None => ∅
  end.

(** What one entry of the sessions directory contributes: the session of
    a file [*.jsonl] that is read without error, with its start taken from
    the index when the index has its key. *)
Definition sessionOfEntry (fs : FileSystem) (agent sessionsDir : string)
    (sessionIndex : gmap string SessionIndexEntry.t) (entry : DirEntry.t)
    : option (Session.t * list Message.t) :=
  if DirEntry.IsDir entry || negb (HasSuffix (DirEntry.Name entry) ".jsonl") then None
  else
    let filePath := filepathJoin fs [sessionsDir; DirEntry.Name entry] in
    let p :=
      parseSessionFile agent (TrimSuffix (DirEntry.Name entry) ".jsonl") filePath
        (Open fs filePath) in
    match parseError p with
    | Some _ => None
    | None =>
        Some
          (match sessionIndex !! Key (parsedSession p) with
           | Some indexEntry =>
               withStartedAt (parsedSession p)
                 (UnixMilli (timeLocal fs) (SessionIndexEntry.UpdatedAt indexEntry))
           | None => parsedSession p
           end,
           parsedMessages p)
    end.

(** The sessions [ParseAll] takes from one agent. *)
Definition sessionsOfAgent (fs : FileSystem) (p : Parser.t) (agentFilter agent : string)
    : list (Session.t * list Message.t) :=
  if negb (String.eqb agentFilter "") && negb (String.eqb agent agentFilter) then []
  else
    match fst (parseAgentSessions fs p agent) with
    | inr sessions => sessions
    | inl _ => []
    end.

(** The test of the loop of [ListAgents]. *)
Definition isAgentDir (fs : FileSystem) (p : Parser.t) (entry : DirEntry.t) : bool :=
  DirEntry.IsDir entry
  && match Stat fs (filepathJoin fs [Parser.agentsDir p; DirEntry.Name entry; "sessions"]) with
     | None => true
     | Some _ => false
     end.

(** A directory of agents: [urza] has an index and one transcript, the
    sessions of [amos] cannot be read, [notes.txt] is no directory. *)
Definition sampleFS : FileSystem :=
  mkFileSystem
    (fun dir =>
       if String.eqb dir "/agents" then
         inr [DirEntry.mk "amos" true; DirEntry.mk "notes.txt" false;
              DirEntry.mk "urza" true]
       else if String.eqb dir "/agents/urza/sessions" then
         inr [DirEntry.mk "archive" true; DirEntry.mk "sessions.json" false;
              DirEntry.mk "test-session.jsonl" false]
       else inl ("open " +:+ dir +:+ ": permission denied"))
    (fun path =>
       if String.eqb path "/agents/urza/sessions"
          || String.eqb path "/agents/amos/sessions"
       then None else Some "no such file or directory")
    (fun elem => Join elem "/")
    (fun path =>
       if String.eqb path "/agents/urza/sessions/sessions.json" then
         Some {[ "agent:urza" :=
                   JObject {[ "sessionId" := JString "test-session";
                              "updatedAt" := JNumber 1739206395416%float ]} ]}
       else None)
    (fun path =>
       if String.eqb path "/agents/urza/sessions/test-session.jsonl" then inr sampleFile
       else inl "no such file or directory")
    time.UTC
    (fun _ => min_int).

(** The sessions of [urza] in [sampleFS]. *)
Definition sampleParsed : list (Session.t * list Message.t) :=
  match fst (parseAgentSessions sampleFS (NewParser "/agents") "urza") with
  | inr sessions => sessions
  | inl _ => []
  end.

(** ** The text of a report *)

(** A table of [Format]: nothing when it is not shown, or its title between
    two rules, its header, its rows and an empty line. *)
Definition table (shown : bool) (title : string) (header : list Text) (rows : list Text)
    : list Text :=
  if shown then ([rule; Plain (title +:+ LF); rule] ++ header ++ rows ++ [Plain LF])%list
  else [].

(** The report without its tables: its date, its period and its totals. *)
Definition summaryOnly (r : Report.t) : Report.t :=
  Report.mk (Report.GeneratedAt r) (Report.Period r) (Report.TotalCost r)
    (Report.TotalTokens r) (Report.TotalSessions r) [] [] None [] [] [] None.

(** The strings of an output that [fmt.Sprintf] makes with the format
    [fmt]. *)
Definition hasFormat (fmt : string) (t : Text) : bool :=
  match t with
  | Render f _ => String.eqb f fmt
  | Plain _ => false
  end.

Definition rendered (fmt : string) (output : list Text) : list Text :=
  List.filter (hasFormat fmt) output.

(** ** The command line *)

(** The configuration [runReport] builds from the flags. *)
Definition configOf (f : Flags.t) : Config.t :=
  Config.mk (Flags.reportPeriod f) (Flags.reportAgent f) (Flags.reportCrons f)
    (Flags.reportModels f) (Flags.reportFull f) (Flags.reportThreshold f).

(** The directory [runReport] reads the agents from, or the error of the
    home directory. *)
Definition agentsDirOf (w : World) (f : Flags.t) : string + string :=
  if String.eqb (Flags.agentsDir f) "" then
    match UserHomeDir w with
    | inl err => inl err
    | inr home => inr (home +:+ "/.openclaw/agents")
    end
  else inr (Flags.agentsDir f).

(** What [runReport] returns, without what it writes to the standard
    error: its error, or what it prints. *)
Definition outcome (w : World) (f : Flags.t) : string + list Text :=
  snd (runReport w f).

(** [output] is [report] in the format the flags ask for. *)
Definition printed (w : World) (f : Flags.t) (report : Report.t) (output : list Text)
    : Prop :=
  Flags.reportFormat f = "json"
  /\ (exists buf, Encode w report = inr buf /\ output = [Plain buf])
  \/ Flags.reportFormat f = "text" /\ output = TextFormatter_Format report.

(** The flags with another value of [--models]. *)
Definition setModels (models : bool) (f : Flags.t) : Flags.t :=
  Flags.mk (Flags.agentsDir f) (Flags.reportPeriod f) (Flags.reportFormat f)
    (Flags.reportAgent f) (Flags.reportCrons f) models (Flags.reportFull f)
    (Flags.reportThreshold f).

Definition sampleWorld : World :=
  mkWorld (inr "/home/urza") sampleFS sampleEnv (fun _ => inr "{}").

Definition sampleFlags : Flags.t :=
  Flags.mk "/agents" "all" "text" "urza" false false false 0.5%float.

(** * Properties *)

(** ** Loops that append to a slice *)

Lemma fold_append_filter {A B : Type} (p : A -> bool) (f : A -> B) (l : list A)
    (acc : list B) :
  fold_left (fun acc x => if p x then append acc (f x) else acc) l acc
  = (acc ++ map f (List.filter p l))%list.
Proof.
  revert acc. induction l as [|x l IH]; intros acc; simpl.
  - by rewrite app_nil_r.
  - rewrite IH. destruct (p x); simpl; [|done].
    unfold append. by rewrite <- app_assoc.
Qed.

Lemma fold_append_all {A B : Type} (f : A -> B) (l : list A) (acc : list B) :
  fold_left (fun acc x => append acc (f x)) l acc = (acc ++ map f l)%list.
Proof.
  revert acc. induction l as [|x l IH]; intros acc; simpl.
  - by rewrite app_nil_r.
  - rewrite IH. unfold append. by rewrite <- app_assoc.
Qed.

Lemma filter_id_map {A : Type} (l : list A) : map (fun x => x) l = l.
Proof. induction l; simpl; congruence. Qed.

(** ** The period filter, loop by loop *)

Lemma filterByPeriod_all now r l :
  withPeriod r "" \/ withPeriod r "all" -> filterByPeriod now r l = l.
Proof.
  unfold withPeriod, filterByPeriod. intros [-> | ->]; reflexivity.
Qed.

Lemma filterByPeriod_today now r l :
  withPeriod r "today" ->
  filterByPeriod now r l = List.filter (keptAfter (localMidnight now)) l.
Proof.
  unfold withPeriod, filterByPeriod. intros ->. cbn [String.eqb Ascii.eqb Bool.eqb orb].
  simpl. rewrite (fold_append_filter _ (fun s => s)). simpl.
  by rewrite filter_id_map.
Qed.

Lemma filterByPeriod_yesterday now r l :
  withPeriod r "yesterday" ->
  filterByPeriod now r l
  = List.filter
      (keptBetween (localMidnight (time.AddDate now 0 0 (-1))) (localMidnight now)) l.
Proof.
  unfold withPeriod, filterByPeriod. intros ->. simpl.
  rewrite (fold_append_filter _ (fun s => s)). simpl.
  by rewrite filter_id_map.
Qed.

Lemma filterByPeriod_week now r l :
  withPeriod r "week" ->
  filterByPeriod now r l = List.filter (keptAfter (time.AddDate now 0 0 (-7))) l.
Proof.
  unfold withPeriod, filterByPeriod. intros ->. simpl.
  rewrite (fold_append_filter _ (fun s => s)). simpl.
  by rewrite filter_id_map.
Qed.

Lemma filterByPeriod_month now r l :
  withPeriod r "month" ->
  filterByPeriod now r l = List.filter (keptAfter (time.AddDate now 0 (-1) 0)) l.
Proof.
  unfold withPeriod, filterByPeriod. intros ->. simpl.
  rewrite (fold_append_filter _ (fun s => s)). simpl.
  by rewrite filter_id_map.
Qed.

Lemma filterByPeriod_other now r l :
  unknownPeriod (Config.Period (Reporter.config r)) ->
  filterByPeriod now r l = List.filter (keptAfter time.zero) l.
Proof.
  unfold unknownPeriod, filterByPeriod.
  intros (H1 & H2 & H3 & H4 & H5 & H6).
  apply String.eqb_neq in H1, H2, H3, H4, H5, H6.
  rewrite H1, H2, H3, H4, H5, H6. simpl.
  rewrite (fold_append_filter _ (fun s => s)). simpl.
  by rewrite filter_id_map.
Qed.

(** Whatever the period, the result is a filter of the input. *)
Lemma filterByPeriod_is_filter now r l :
  exists keep, filterByPeriod now r l = List.filter keep l.
Proof.
  unfold filterByPeriod.
  destruct (_ || _).
  - exists (fun _ => true). induction l; simpl; congruence.
  - destruct (String.eqb _ "yesterday");
      rewrite (fold_append_filter _ (fun s => s)); simpl;
      rewrite filter_id_map; eauto.
Qed.

(** ** Period filter: the boundaries of ["today"] and ["yesterday"] *)

(** The comparison [After] is strict: a session that starts at the cutoff
    itself is not kept by either loop. *)
Lemma keptAfter_at_cutoff cutoff s :
  time.Equal (Session.StartedAt s) cutoff = true -> keptAfter cutoff s = false.
Proof.
  unfold time.Equal, keptAfter, time.After. intros H.
  apply andb_true_iff in H as [H1 H2].
  apply Z.eqb_eq in H1, H2. rewrite H1, H2.
  rewrite Z.eqb_refl.
  replace (time.sec cutoff >? time.sec cutoff) with false by (symmetry; lia).
  replace (time.nsec cutoff >? time.nsec cutoff) with false by (symmetry; lia).
  simpl. apply andb_false_r.
Qed.

Lemma filter_drops {A : Type} (p : A -> bool) (l : list A) (x : A) :
  p x = false -> ~ In x (List.filter p l).
Proof. intros Hp Hin. apply filter_In in Hin as [_ Hin]. congruence. Qed.

Lemma today_never_keeps_midnight now r l s :
  withPeriod r "today" ->
  time.Equal (Session.StartedAt s) (localMidnight now) = true ->
  ~ In s (filterByPeriod now r l).
Proof.
  intros Hp Heq. rewrite (filterByPeriod_today _ _ _ Hp).
  apply filter_drops. by apply keptAfter_at_cutoff.
Qed.

Lemma keptBetween_at_cutoff cutoff nextDay s :
  time.Equal (Session.StartedAt s) cutoff = true -> keptBetween cutoff nextDay s = false.
Proof.
  intros H. apply keptAfter_at_cutoff in H. unfold keptAfter in H.
  unfold keptBetween. by rewrite H.
Qed.

Lemma yesterday_never_keeps_its_midnight now r l s :
  withPeriod r "yesterday" ->
  time.Equal (Session.StartedAt s) (localMidnight (time.AddDate now 0 0 (-1))) = true ->
  ~ In s (filterByPeriod now r l).
Proof.
  intros Hp Heq. rewrite (filterByPeriod_yesterday _ _ _ Hp).
  apply filter_drops. by apply keptBetween_at_cutoff.
Qed.

(** C1, evaluated on the code: under the period ["today"], a session whose
    [StartedAt] equals local midnight of the date of [now] is dropped,
    because [filterByPeriod] compares with the strict [After]: on the
    sample below, and for every clock and every session list. The
    sentence of the specification has it included. *)
Theorem C1_today_drops_session_at_local_midnight :
  (time.Equal (Session.StartedAt atMidnightToday) (localMidnight sampleNow) = true
   /\ time.IsZero (Session.StartedAt atMidnightToday) = false
   /\ filterByPeriod sampleNow (New [atMidnightToday] (configFor "today" false false))
        [atMidnightToday] = []
   /\ filterByPeriod sampleNow (New sampleSessions (configFor "today" false false))
        sampleSessions = [thisAfternoon])
  /\ (forall now r l s,
        withPeriod r "today" ->
        time.Equal (Session.StartedAt s) (localMidnight now) = true ->
        ~ In s (filterByPeriod now r l)).
Proof.
  split; [repeat split; vm_compute; reflexivity|].
  apply today_never_keeps_midnight.
Qed.

(** C2, evaluated on the code: under the period ["yesterday"], the session
    that starts at local midnight of yesterday is dropped (the lower bound
    is compared with the strict [After]), the one at 23:59:59 is kept and
    the one at local midnight of today is dropped: on the sample below, and
    at the lower bound for every clock and every session list. The window
    of the code is open at both ends; the specification has it closed
    below. *)
Theorem C2_yesterday_drops_session_at_yesterdays_midnight :
  (time.Equal (Session.StartedAt atMidnightYesterday)
     (localMidnight (time.AddDate sampleNow 0 0 (-1))) = true
   /\ time.IsZero (Session.StartedAt atMidnightYesterday) = false
   /\ filterByPeriod sampleNow
        (New [atMidnightYesterday] (configFor "yesterday" false false))
        [atMidnightYesterday] = []
   /\ filterByPeriod sampleNow (New sampleSessions (configFor "yesterday" false false))
        sampleSessions = [lateYesterday])
  /\ (forall now r l s,
        withPeriod r "yesterday" ->
        time.Equal (Session.StartedAt s)
          (localMidnight (time.AddDate now 0 0 (-1))) = true ->
        ~ In s (filterByPeriod now r l)).
Proof.
  split; [repeat split; vm_compute; reflexivity|].
  apply yesterday_never_keeps_its_midnight.
Qed.

(** ** Sessions with an unknown start *)

Lemma keptAfter_known cutoff s : keptAfter cutoff s = true -> known s = true.
Proof. unfold keptAfter, known. intros H. by apply andb_true_iff in H as [H _]. Qed.

Lemma keptBetween_known cutoff nextDay s :
  keptBetween cutoff nextDay s = true -> known s = true.
Proof.
  unfold keptBetween, known. intros H.
  apply andb_true_iff in H as [H _]. by apply andb_true_iff in H as [H _].
Qed.

Lemma Forall_filter_implies {A : Type} (p q : A -> bool) (l : list A) :
  (forall x, p x = true -> q x = true) ->
  Forall (fun x => q x = true) (List.filter p l).
Proof.
  intros H. apply Forall_forall. intros x Hx.
  apply H. apply list_elem_of_In, filter_In in Hx. tauto.
Qed.

(** Under a period other than [""] and ["all"] no kept session has a zero
    [StartedAt]. *)
Lemma filterByPeriod_known now r l :
  ~ (withPeriod r "" \/ withPeriod r "all") ->
  Forall (fun s => known s = true) (filterByPeriod now r l).
Proof.
  unfold withPeriod, filterByPeriod. intros Hp.
  destruct (String.eqb_spec (Config.Period (Reporter.config r)) "") as [|_]; [tauto|].
  destruct (String.eqb_spec (Config.Period (Reporter.config r)) "all") as [|_]; [tauto|].
  simpl.
  destruct (String.eqb _ "yesterday");
    rewrite (fold_append_filter _ (fun s => s)); simpl; rewrite filter_id_map.
  - apply Forall_filter_implies. intros s. apply keptBetween_known.
  - apply Forall_filter_implies. intros s. apply keptAfter_known.
Qed.

Lemma permute_nil {A : Type} (o : MapOrder) : permute o (@nil A) = [].
Proof. destruct o as [|i o]; [reflexivity|]. simpl. reflexivity. Qed.

Lemma aggregateByDay_nil o : aggregateByDay o [] = [].
Proof.
  unfold aggregateByDay, rangeMap. simpl.
  rewrite map_to_list_empty, permute_nil. reflexivity.
Qed.

Lemma dayStep_unknown agg s : known s = false -> dayStep agg s = agg.
Proof.
  unfold known, dayStep. intros H. apply negb_false_iff in H. by rewrite H.
Qed.

Lemma fold_dayStep_known l agg :
  fold_left dayStep (List.filter known l) agg = fold_left dayStep l agg.
Proof.
  revert agg. induction l as [|s l IH]; intros agg; simpl; [done|].
  destruct (known s) eqn:Hk; simpl.
  - apply IH.
  - rewrite (dayStep_unknown _ _ Hk). apply IH.
Qed.

Lemma aggregateByDay_known o l :
  aggregateByDay o (List.filter known l) = aggregateByDay o l.
Proof. unfold aggregateByDay. by rewrite fold_dayStep_known. Qed.

Lemma Generate_totals env r :
  let rep := Generate env r in
  (Report.TotalCost rep, Report.TotalTokens rep, Report.TotalSessions rep)
  = totals (filterByPeriod (now env) r (Reporter.sessions r)).
Proof. simpl. by destruct (totals _) as [[c t] n]. Qed.

(** C6. A session whose [StartedAt] is the zero value: with the period [""]
    or ["all"] the filter returns its input unchanged, so the session stays
    and the scalar totals run over every session given; with the period
    ["today"], ["yesterday"], ["week"] or ["month"] no session kept by the
    filter has a zero [StartedAt]; and the by-day dimension of any session
    list is that of its sessions with a known [StartedAt]. *)
Theorem C6_unknown_startedAt (env : Env) (r : Reporter.t) :
  ((withPeriod r "" \/ withPeriod r "all") ->
     filterByPeriod (now env) r (Reporter.sessions r) = Reporter.sessions r
     /\ (Report.TotalCost (Generate env r), Report.TotalTokens (Generate env r),
         Report.TotalSessions (Generate env r))
        = totals (Reporter.sessions r))
  /\ ((withPeriod r "today" \/ withPeriod r "yesterday" \/ withPeriod r "week"
       \/ withPeriod r "month") ->
      Forall (fun s => time.IsZero (Session.StartedAt s) = false)
        (filterByPeriod (now env) r (Reporter.sessions r)))
  /\ (forall (o : MapOrder) (l : list Session.t),
        aggregateByDay o l
        = aggregateByDay o
            (List.filter (fun s => negb (time.IsZero (Session.StartedAt s))) l))
  /\ (forall (o : MapOrder) (l : list Session.t) (d : DaySummary.t),
        Forall (fun s => time.IsZero (Session.StartedAt s) = true) l ->
        ~ In d (aggregateByDay o l)).
Proof.
  split; [|split; [|split]].
  - intros Hp. pose proof (filterByPeriod_all (now env) r (Reporter.sessions r) Hp) as Hf.
    split; [exact Hf|].
    rewrite (Generate_totals env r). by rewrite Hf.
  - intros Hp.
    assert (Hn : ~ (withPeriod r "" \/ withPeriod r "all")).
    { unfold withPeriod in *. intros [H|H]; rewrite H in Hp;
        destruct Hp as [Hp|[Hp|[Hp|Hp]]]; discriminate. }
    pose proof (filterByPeriod_known (now env) r (Reporter.sessions r) Hn) as HF.
    eapply Forall_impl; [exact HF|].
    intros s Hs. unfold known in Hs. by apply negb_true_iff in Hs.
  - intros o l. symmetry. apply aggregateByDay_known.
  - intros o l d Hall.
    rewrite <- aggregateByDay_known.
    assert (Hnil : List.filter known l = []).
    { induction Hall as [|s l Hs _ IH]; simpl; [done|].
      unfold known at 1. by rewrite Hs. }
    rewrite Hnil, aggregateByDay_nil. simpl. tauto.
Qed.

Lemma C6_unknown_startedAt_witness :
  (filterByPeriod sampleNow (New sampleSessions (configFor "all" false false)) sampleSessions
   = sampleSessions
   /\ In undated sampleSessions)
  /\ Forall (fun s => time.IsZero (Session.StartedAt s) = false)
       (filterByPeriod sampleNow (New sampleSessions (configFor "week" false false))
          sampleSessions)
  /\ ~ In (DaySummary.mk "0001-01-01" 1 2%float 1000) (aggregateByDay [] [undated]).
Proof.
  pose proof (C6_unknown_startedAt sampleEnv
                (New sampleSessions (configFor "all" false false))) as (Hall & _ & _ & Hday).
  pose proof (C6_unknown_startedAt sampleEnv
                (New sampleSessions (configFor "week" false false))) as (_ & Hweek & _).
  split; [split|split].
  - apply Hall. right. reflexivity.
  - simpl. tauto.
  - apply Hweek. right. right. left. reflexivity.
  - apply Hday. repeat constructor.
Defined.

(** ** A period label the switch does not know *)

Lemma after_zero_not_zero t : time.After t time.zero = true -> time.IsZero t = false.
Proof.
  unfold time.After, time.IsZero. simpl. intros H.
  apply orb_true_iff in H as [H|H].
  - replace (time.sec t =? 0) with false by (symmetry; lia). done.
  - apply andb_true_iff in H as [_ H].
    replace (time.nsec t =? 0) with false by (symmetry; lia). apply andb_false_r.
Qed.

Lemma keptAfter_zero s :
  keptAfter time.zero s = time.After (Session.StartedAt s) time.zero.
Proof.
  unfold keptAfter. destruct (time.After _ _) eqn:H.
  - by rewrite (after_zero_not_zero _ H).
  - apply andb_false_r.
Qed.

Lemma not_before_zero t :
  time.Before t time.zero = false ->
  time.After t time.zero = negb (time.IsZero t).
Proof.
  unfold time.Before, time.After, time.IsZero. simpl. intros H.
  apply orb_false_iff in H as [H1 H2].
  destruct (Z.eqb_spec (time.sec t) 0) as [E|E].
  - rewrite E in *. simpl in *.
    destruct (Z.eqb_spec (time.nsec t) 0); simpl; lia.
  - simpl. rewrite orb_false_r. lia.
Qed.

Lemma filter_ext_Forall {A : Type} (p q : A -> bool) (l : list A) :
  Forall (fun x => p x = q x) l -> List.filter p l = List.filter q l.
Proof.
  induction 1 as [|x l Hx _ IH]; simpl; [done|]. rewrite Hx, IH. done.
Qed.

(** C10, as the code has it. For a period label outside [""], ["all"],
    ["today"], ["yesterday"], ["week"], ["month"] the cutoff stays the zero
    time, and the filter returns exactly the sessions whose [StartedAt] is
    strictly after the zero instant: no session with a zero [StartedAt] is
    kept, and when no session of the list is dated before the zero instant
    the result is exactly the sessions with a non-zero [StartedAt]. *)
Theorem C10_unknown_label_keeps_sessions_after_zero (now : time.Time)
    (r : Reporter.t) (l : list Session.t) :
  unknownPeriod (Config.Period (Reporter.config r)) ->
  filterByPeriod now r l
  = List.filter (fun s => time.After (Session.StartedAt s) time.zero) l
  /\ Forall (fun s => time.IsZero (Session.StartedAt s) = false) (filterByPeriod now r l)
  /\ (Forall (fun s => time.Before (Session.StartedAt s) time.zero = false) l ->
      filterByPeriod now r l
      = List.filter (fun s => negb (time.IsZero (Session.StartedAt s))) l).
Proof.
  intros Hp. rewrite (filterByPeriod_other now r l Hp).
  assert (E : List.filter (keptAfter time.zero) l
              = List.filter (fun s => time.After (Session.StartedAt s) time.zero) l).
  { apply filter_ext_Forall, Forall_forall. intros s _. apply keptAfter_zero. }
  rewrite E. split; [done|split].
  - apply Forall_forall. intros s Hs.
    apply list_elem_of_In, filter_In in Hs as [_ Hs]. by apply after_zero_not_zero.
  - intros Hall. apply filter_ext_Forall.
    eapply Forall_impl; [exact Hall|]. intros s Hs. simpl. by apply not_before_zero.
Qed.

Lemma C10_unknown_label_witness :
  filterByPeriod sampleNow (New sampleSessions (configFor "fortnight" false false))
    sampleSessions
  = [atMidnightToday; lateYesterday; atMidnightYesterday; thisAfternoon].
Proof.
  assert (Hp : unknownPeriod
                 (Config.Period (Reporter.config
                    (New sampleSessions (configFor "fortnight" false false))))).
  { vm_compute. repeat split; discriminate. }
  destruct (C10_unknown_label_keeps_sessions_after_zero sampleNow
              (New sampleSessions (configFor "fortnight" false false))
              sampleSessions Hp) as (_ & _ & H).
  rewrite H; [reflexivity|].
  repeat constructor.
Defined.

(** C10 as stated fails on a session dated before year 1: its [StartedAt]
    is not the zero value, and the filter drops it. *)
Lemma C10_counterexample_session_before_year_one :
  time.IsZero (Session.StartedAt beforeYearOne) = false
  /\ filterByPeriod sampleNow (New [beforeYearOne] (configFor "fortnight" false false))
       [beforeYearOne]
     <> List.filter (fun s => negb (time.IsZero (Session.StartedAt s))) [beforeYearOne].
Proof. split; [reflexivity|]. vm_compute. discriminate. Qed.

(** ** Substrings *)

Lemma string_app_length (a b : string) :
  String.length (a +:+ b) = (String.length a + String.length b)%nat.
Proof. induction a as [|c a IH]; simpl; [done|]. by rewrite IH. Qed.

Lemma string_app_nil_r (a : string) : a +:+ "" = a.
Proof.
  induction a as [|c a IH]; [done|].
  change (String c (a +:+ "") = String c a). by rewrite IH.
Qed.

Lemma substring_prefix_inv (sub s : string) :
  substring 0 (String.length sub) s = sub -> exists post, s = sub +:+ post.
Proof.
  revert s. induction sub as [|c sub IH]; intros s H; simpl in *.
  - by exists s.
  - destruct s as [|c' s']; [discriminate|].
    injection H as -> H. destruct (IH _ H) as [post ->]. by exists post.
Qed.

Lemma substring_inv (i : nat) (sub s : string) :
  substring i (String.length sub) s = sub -> isSubstring sub s.
Proof.
  revert s. induction i as [|i IH]; intros s H.
  - destruct (substring_prefix_inv _ _ H) as [post ->]. by exists "", post.
  - destruct s as [|c s'].
    + destruct sub; simpl in H; [|discriminate]. by exists "", "".
    + simpl in H. destruct (IH _ H) as (pre & post & ->).
      by exists (String c pre), post.
Qed.

Lemma substring_prefix (sub post : string) :
  substring 0 (String.length sub) (sub +:+ post) = sub.
Proof. induction sub as [|c sub IH]; simpl; [by destruct post|]. by rewrite IH. Qed.

Lemma substring_at (pre sub post : string) :
  substring (String.length pre) (String.length sub) (pre +:+ sub +:+ post) = sub.
Proof.
  induction pre as [|c pre IH]; [exact (substring_prefix sub post)|simpl; done].
Qed.

Lemma findFrom_true (s sub : string) (i n : nat) :
  findFrom s sub i n = true ->
  exists j, substring j (String.length sub) s = sub.
Proof.
  revert i. induction n as [|n IH]; intros i; simpl; [discriminate|].
  destruct (String.eqb_spec (substring i (String.length sub) s) sub) as [E|_]; eauto.
Qed.

Lemma findFrom_hit (s sub : string) (j i n : nat) :
  (i <= j < i + n)%nat ->
  substring j (String.length sub) s = sub ->
  findFrom s sub i n = true.
Proof.
  revert i. induction n as [|n IH]; intros i Hj E; simpl; [lia|].
  destruct (String.eqb_spec (substring i (String.length sub) s) sub) as [_|Hne]; [done|].
  apply IH; [|done].
  destruct (Nat.eq_dec i j) as [->|]; [congruence|lia].
Qed.

Lemma contains_spec (s sub : string) :
  contains s sub = true <-> isSubstring sub s.
Proof.
  unfold contains. split.
  - intros H. apply andb_true_iff in H as [_ H].
    repeat (apply orb_true_iff in H as [H|H]).
    + apply String.eqb_eq in H as ->. exists "", "". simpl.
      by rewrite string_app_nil_r.
    + apply Nat.eqb_eq in H. destruct sub; [|discriminate]. by exists "", s.
    + apply String.eqb_eq in H. by apply substring_inv in H.
    + apply String.eqb_eq in H. by apply substring_inv in H.
    + unfold findInString in H. apply findFrom_true in H as [j H].
      by apply substring_inv in H.
  - intros (pre & post & ->).
    rewrite !string_app_length.
    apply andb_true_iff. split; [apply Nat.leb_le; lia|].
    repeat (apply orb_true_iff; right).
    unfold findInString.
    apply (findFrom_hit _ _ (String.length pre)); [|apply substring_at].
    rewrite !string_app_length. lia.
Qed.

Lemma containsOpus_spec (model : string) :
  containsOpus model = true
  <-> exists fragment, In fragment opusModels /\ isSubstring fragment model.
Proof.
  unfold containsOpus, Sprintf_s. rewrite existsb_exists.
  split; intros (f & Hin & H); exists f; (split; [done|]); by apply contains_spec.
Qed.

(** ** The anomaly detector *)

Lemma detectAnomalies_concat r sessions :
  detectAnomalies r sessions
  = (map (expensiveCron r)
       (List.filter (expensiveCronRule (Config.Threshold (Reporter.config r))) sessions)
     ++ map highTokenCount (List.filter highTokenRule sessions)
     ++ map opusOverkill (List.filter opusOverkillRule sessions))%list.
Proof.
  unfold detectAnomalies.
  rewrite (fold_append_filter
             (expensiveCronRule (Config.Threshold (Reporter.config r))) (expensiveCron r)).
  rewrite (fold_append_filter highTokenRule highTokenCount).
  rewrite (fold_append_filter opusOverkillRule opusOverkill).
  simpl. by rewrite <- app_assoc.
Qed.

(** C3. The anomaly list is the concatenation, in rule order, of the flags
    of the cron sessions whose cost strictly exceeds the threshold
    ([expensive_cron], warning), of the sessions with strictly more than
    100000 total tokens ([high_token_count], warning) and of the sessions
    whose model has one of the fragments ["opus"], ["claude-opus"],
    ["claude-3-opus"] as a case-sensitive substring and strictly fewer than
    5000 total tokens ([opus_overkill], info), each rule in input order;
    every flag carries the cost, id and agent of its session. *)
Theorem C3_anomalies_in_rule_order (r : Reporter.t) (sessions : list Session.t) :
  detectAnomalies r sessions
  = (map (expensiveCron r)
       (List.filter (expensiveCronRule (Config.Threshold (Reporter.config r))) sessions)
     ++ map highTokenCount (List.filter highTokenRule sessions)
     ++ map opusOverkill (List.filter opusOverkillRule sessions))%list
  /\ (forall s,
        expensiveCronRule (Config.Threshold (Reporter.config r)) s = true
        <-> Session.Type_ s = "cron"
            /\ PrimFloat.ltb (Config.Threshold (Reporter.config r))
                 (Usage.CostTotal (Session.Usage s)) = true)
  /\ (forall s, highTokenRule s = true <-> 100000 < Usage.Total (Session.Usage s))
  /\ (forall s,
        opusOverkillRule s = true
        <-> (exists fragment,
               In fragment ["opus"; "claude-opus"; "claude-3-opus"]
               /\ isSubstring fragment (Usage.Model (Session.Usage s)))
            /\ Usage.Total (Session.Usage s) < 5000)
  /\ (forall s,
        carries (expensiveCron r s) "expensive_cron" "warning" s
        /\ carries (highTokenCount s) "high_token_count" "warning" s
        /\ carries (opusOverkill s) "opus_overkill" "info" s).
Proof.
  split; [apply detectAnomalies_concat|].
  split; [|split; [|split]].
  - intros s. unfold expensiveCronRule, fgt. rewrite andb_true_iff, String.eqb_eq. done.
  - intros s. unfold highTokenRule. lia.
  - intros s. unfold opusOverkillRule.
    rewrite andb_true_iff, containsOpus_spec, Z.ltb_lt. done.
  - intros s. repeat split.
Qed.

(** One session may raise several flags: a cron session over the threshold
    with more than 100000 tokens raises the first two. *)
Example anomalies_of_one_session :
  let s := cronSession "s7" "urza" "nightly-a1b2c3" "nightly" 0.6%float 150000
             "claude-opus-4-6" time.zero in
  map Anomaly.Type_ (detectAnomalies (New [s] (configFor "" false false)) [s])
  = ["expensive_cron"; "high_token_count"].
Proof. vm_compute. reflexivity. Qed.

(** ** The report assembler *)

Lemma getSessionDetails_sorts sessions :
  getSessionDetails sessions
  = sortSlice (fun a b => fgt (SessionDetail.Cost a) (SessionDetail.Cost b))
      (map sessionDetail sessions).
Proof. unfold getSessionDetails. by rewrite fold_append_all. Qed.

(** C5. [Generate] computes the by-agent, by-kind, by-model and by-day
    dimensions whatever the configuration; the by-cron dimension if and
    only if [Crons] or [Full] is set; the session details, sorted by cost
    descending, if and only if [Full] is set; and the anomalies over the
    filtered set whatever the configuration, the same with [Full] set or
    not. *)
Theorem C5_dimensions_computed (env : Env) (r : Reporter.t) :
  let filtered := filterByPeriod (now env) r (Reporter.sessions r) in
  let rep := Generate env r in
  Report.ByAgent rep = aggregateByAgent (agentOrder env) filtered
  /\ Report.BySessionType rep = aggregateBySessionType (typeOrder env) filtered
  /\ Report.ByModel rep = aggregateByModel (modelOrder env) filtered
  /\ Report.ByDay rep = aggregateByDay (dayOrder env) filtered
  /\ (is_Some (Report.ByCron rep)
      <-> Config.Crons (Reporter.config r) = true \/ Config.Full (Reporter.config r) = true)
  /\ (forall l, Report.ByCron rep = Some l -> l = aggregateByCron (cronOrder env) filtered)
  /\ (is_Some (Report.Sessions rep) <-> Config.Full (Reporter.config r) = true)
  /\ (forall l, Report.Sessions rep = Some l ->
        l = sortSlice (fun a b => fgt (SessionDetail.Cost a) (SessionDetail.Cost b))
              (map sessionDetail filtered))
  /\ Report.Anomalies rep = detectAnomalies r filtered
  /\ (forall b,
        Report.Anomalies
          (Generate env (New (Reporter.sessions r) (setFull b (Reporter.config r))))
        = Report.Anomalies rep).
Proof.
  intros filtered rep. subst rep filtered. unfold Generate. simpl.
  split_and!; try done.
  - destruct (Config.Crons _), (Config.Full _); simpl; split;
      intros H; auto; try (by destruct H); try (by destruct H as [H|H]).
  - destruct (_ || _); congruence.
  - destruct (Config.Full _); split; intros H; auto; try done; by destruct H.
  - destruct (Config.Full _); [|congruence].
    intros l H. injection H as <-. apply getSessionDetails_sorts.
Qed.

Example full_report_has_every_dimension :
  let rep := Generate sampleEnv (New sampleSessions (configFor "all" false true)) in
  is_Some (Report.ByCron rep) /\ is_Some (Report.Sessions rep).
Proof. split; eexists; reflexivity. Qed.

Example default_report_has_neither :
  let rep := Generate sampleEnv (New sampleSessions (configFor "all" false false)) in
  Report.ByCron rep = None /\ Report.Sessions rep = None
  /\ map Anomaly.Type_ (Report.Anomalies rep)
     = ["expensive_cron"; "high_token_count"; "opus_overkill"].
Proof. repeat split; vm_compute; reflexivity. Qed.

(** ** Sums of Go integers *)

Lemma wrap64_add_l x y : wrap64 (wrap64 x + y) = wrap64 (x + y).
Proof.
  unfold wrap64. f_equal.
  replace ((x + 2 ^ 63) mod 2 ^ 64 - 2 ^ 63 + y + 2 ^ 63)
    with ((x + 2 ^ 63) mod 2 ^ 64 + y) by lia.
  rewrite Zplus_mod_idemp_l. f_equal. lia.
Qed.

Lemma wrap64_add_r x y : wrap64 (x + wrap64 y) = wrap64 (x + y).
Proof.
  replace (x + wrap64 y) with (wrap64 y + x) by lia.
  rewrite wrap64_add_l. f_equal. lia.
Qed.

Lemma wrap64_idem x : wrap64 (wrap64 x) = wrap64 x.
Proof. pose proof (wrap64_add_l x 0) as H. by rewrite !Z.add_0_r in H. Qed.

Lemma wrap64_small x : min_int <= x <= max_int -> wrap64 x = x.
Proof.
  unfold wrap64, min_int, max_int. intros Hx.
  rewrite Z.mod_small; lia.
Qed.

Lemma fold_int_add l a :
  fold_left int_add l (wrap64 a) = wrap64 (a + Zsum l).
Proof.
  revert a. induction l as [|x l IH]; intros a; simpl.
  - by rewrite Z.add_0_r.
  - unfold int_add at 2. rewrite wrap64_add_l, IH. f_equal. lia.
Qed.

Lemma isum_wrap l : isum l = wrap64 (Zsum l).
Proof. unfold isum. change 0 with (wrap64 0) at 1. by rewrite fold_int_add. Qed.

Lemma Zsum_perm l l' : Permutation l l' -> Zsum l = Zsum l'.
Proof. induction 1; simpl; lia. Qed.

Lemma Zsum_app l l' : Zsum (l ++ l') = Zsum l + Zsum l'.
Proof. induction l; simpl; lia. Qed.

Lemma isum_perm l l' : Permutation l l' -> isum l = isum l'.
Proof. intros Hp. by rewrite !isum_wrap, (Zsum_perm _ _ Hp). Qed.

(** ** Sorting and map iteration permute *)

Lemma insertLeft_perm {A : Type} (less : A -> A -> bool) x acc :
  Permutation (insertLeft less x acc) (x :: acc).
Proof.
  induction acc as [|y acc IH]; simpl; [done|].
  destruct (less x y); [|done].
  rewrite IH. apply perm_swap.
Qed.

Lemma fold_insertLeft_perm {A : Type} (less : A -> A -> bool) l acc :
  Permutation (fold_left (fun p x => insertLeft less x p) l acc) (l ++ acc).
Proof.
  revert acc. induction l as [|x l IH]; intros acc; simpl; [done|].
  rewrite IH, insertLeft_perm. symmetry. apply Permutation_middle.
Qed.

Lemma sortSlice_perm {A : Type} (less : A -> A -> bool) l :
  Permutation (sortSlice less l) l.
Proof.
  unfold sortSlice. rewrite <- Permutation_rev, fold_insertLeft_perm.
  by rewrite app_nil_r.
Qed.

Lemma take_nth_perm {A : Type} i (l : list A) y r :
  take_nth i l = Some (y, r) -> Permutation l (y :: r).
Proof.
  revert i y r. induction l as [|x l IH]; intros i y r; simpl; [done|].
  destruct i as [|i].
  - intros [= -> ->]. done.
  - destruct (take_nth i l) as [[y' r']|] eqn:E; [|done].
    intros [= -> <-]. rewrite (IH _ _ _ E). apply perm_swap.
Qed.

Lemma permute_perm {A : Type} (o : MapOrder) (l : list A) :
  Permutation (permute o l) l.
Proof.
  revert l. induction o as [|i o IH]; intros l; simpl; [done|].
  destruct (take_nth _ l) as [[y r]|] eqn:E; [|done].
  rewrite (take_nth_perm _ _ _ _ E). by rewrite IH.
Qed.

(** ** Every order of iteration is a [MapOrder] *)

Lemma take_nth_In {A : Type} (y : A) (l : list A) :
  In y l -> exists i r, (i < length l)%nat /\ take_nth i l = Some (y, r).
Proof.
  induction l as [|x l IH]; simpl; [done|].
  intros [->|Hin].
  - exists 0%nat, l. split; [lia|done].
  - destruct (IH Hin) as (i & r & Hi & E).
    exists (S i), (x :: r). split; [lia|]. by rewrite E.
Qed.

Lemma permute_complete {A : Type} (l l' : list A) :
  Permutation l l' -> exists o : MapOrder, permute o l = l'.
Proof.
  revert l. induction l' as [|y l' IH]; intros l Hperm.
  - apply Permutation_sym, Permutation_nil in Hperm as ->. by exists [].
  - assert (Hin : In y l).
    { eapply Permutation_in; [symmetry; exact Hperm|]. by left. }
    destruct (take_nth_In y l Hin) as (i & r & Hi & E).
    assert (Hr : Permutation r l').
    { apply (Permutation_cons_inv (a := y)).
      by rewrite <- (take_nth_perm _ _ _ _ E). }
    destruct (IH r Hr) as [o Ho].
    exists (i :: o). simpl. rewrite Nat.mod_small by done. by rewrite E, Ho.
Qed.

(** The slice built by ranging over the map and sorted is a permutation
    of the entries of the map. *)
Lemma ranged_sorted_perm `{Countable K} {V W : Type} (g : V -> W)
    (less : W -> W -> bool) (o : MapOrder) (agg : gmap K V) :
  Permutation
    (sortSlice less
       (fold_left (fun result kv => append result (g (snd kv))) (rangeMap o agg) []))
    (map (fun kv => g (snd kv)) (map_to_list agg)).
Proof.
  rewrite sortSlice_perm, (fold_append_all (fun kv => g (snd kv))). simpl.
  apply Permutation_map, permute_perm.
Qed.

(** ** Grouping, in general *)

Section GroupBy.

Context `{Countable K} {V : Type}.

(** The key of a session ([None]: the loop skips it), the summary a new
    key starts from, and the update of a summary by a session. *)
Variable key : Session.t -> option K.
Variable init : K -> V.
Variable upd : V -> Session.t -> V.

Lemma groupStep_insert agg s k :
  key s = Some k ->
  groupStep key init upd agg s = <[k := upd (default (init k) (agg !! k)) s]> agg.
Proof.
  intros Hk. unfold groupStep. rewrite Hk.
  destruct (agg !! k) as [v|] eqn:E; simpl.
  - apply map_eq. intros j. destruct (decide (k = j)) as [<-|Hne].
    + by rewrite lookup_alter_eq, lookup_insert_eq, E.
    + by rewrite lookup_alter_ne, lookup_insert_ne.
  - apply map_eq. intros j. destruct (decide (k = j)) as [<-|Hne].
    + by rewrite lookup_alter_eq, !lookup_insert_eq.
    + by rewrite lookup_alter_ne, !lookup_insert_ne.
Qed.

Lemma groupStep_lookup agg s k :
  groupStep key init upd agg s !! k
  = if bool_decide (key s = Some k)
    then Some (upd (default (init k) (agg !! k)) s)
    else agg !! k.
Proof.
  case_bool_decide as Hk.
  - rewrite (groupStep_insert _ _ _ Hk). by rewrite lookup_insert_eq.
  - destruct (key s) as [k'|] eqn:E.
    + rewrite (groupStep_insert _ _ _ E). rewrite lookup_insert_ne; [done|congruence].
    + unfold groupStep. by rewrite E.
Qed.

(** After the loop, the summary under [k] is the fold of [upd] over the
    sessions of [k], in input order; there is none when no session has
    the key. *)
Lemma fold_groupStep_lookup l agg k :
  fold_left (groupStep key init upd) l agg !! k
  = match groupOf key k l with
    | [] => agg !! k
    | g => Some (fold_left upd g (default (init k) (agg !! k)))
    end.
Proof.
  revert agg. induction l as [|s l IH]; intros agg; simpl; [done|].
  rewrite IH. rewrite groupStep_lookup. unfold groupOf. simpl.
  case_bool_decide as Hk; simpl.
  - by destruct (List.filter _ l).
  - done.
Qed.

Lemma fold_groupStep_empty l k :
  fold_left (groupStep key init upd) l ∅ !! k
  = match groupOf key k l with
    | [] => None
    | g => Some (fold_left upd g (init k))
    end.
Proof. rewrite fold_groupStep_lookup. by rewrite lookup_empty. Qed.

(** *** A field that the update adds to *)

Section Summed.

Variable f : V -> Z.
Variable w : Session.t -> Z.
Hypothesis f_init : forall k, f (init k) = 0.
Hypothesis f_upd : forall v s, f (upd v s) = int_add (f v) (w s).

Lemma msum_insert (m : gmap K V) k v :
  msum f (<[k := v]> m)
  = msum f m - match m !! k with Some v0 => f v0 | None => 0 end + f v.
Proof.
  unfold msum. destruct (m !! k) as [v0|] eqn:E.
  - rewrite <- (insert_delete_eq m).
    rewrite (Zsum_perm _ _ (Permutation_map _ (map_to_list_insert _ _ _ (lookup_delete_eq m k)))).
    rewrite <- (Zsum_perm _ _ (Permutation_map _ (map_to_list_delete _ _ _ E))).
    simpl. lia.
  - rewrite (Zsum_perm _ _ (Permutation_map _ (map_to_list_insert _ _ _ E))).
    simpl. lia.
Qed.

Lemma msum_groupStep agg s :
  wrap64 (msum f (groupStep key init upd agg s))
  = wrap64 (msum f agg + if keyed key s then w s else 0).
Proof.
  unfold keyed. destruct (key s) as [k|] eqn:Hk.
  - rewrite (groupStep_insert _ _ _ Hk), msum_insert, f_upd.
    unfold int_add. rewrite wrap64_add_r. f_equal.
    destruct (agg !! k); simpl; [lia|]. rewrite f_init. lia.
  - unfold groupStep. rewrite Hk. f_equal. lia.
Qed.

Lemma msum_fold l agg :
  wrap64 (msum f (fold_left (groupStep key init upd) l agg))
  = wrap64 (msum f agg + Zsum (map w (List.filter (keyed key) l))).
Proof.
  revert agg. induction l as [|s l IH]; intros agg; simpl.
  - f_equal. lia.
  - rewrite IH. rewrite <- wrap64_add_l, msum_groupStep, wrap64_add_l.
    f_equal. destruct (keyed key s); simpl; lia.
Qed.

(** Summed over the slice the aggregator returns, the field is the sum
    over the sessions that have a key. *)
Lemma isum_aggregate (less : V -> V -> bool) (o : MapOrder) l :
  isum (map f
          (sortSlice less
             (fold_left (fun result kv => append result (snd kv))
                (rangeMap o (fold_left (groupStep key init upd) l ∅)) [])))
  = isum (map w (List.filter (keyed key) l)).
Proof.
  rewrite !isum_wrap.
  rewrite (Zsum_perm _ _ (Permutation_map f (ranged_sorted_perm (fun v => v) less o _))).
  rewrite map_map. fold (msum f (fold_left (groupStep key init upd) l ∅)).
  rewrite msum_fold. f_equal.
Qed.

End Summed.

End GroupBy.

(** *** Entries of the returned slice *)

Section Entries.

Context `{Countable K} {V : Type}.
Variable key : Session.t -> option K.
Variable init : K -> V.
Variable upd : V -> Session.t -> V.

(** An entry of the slice is the summary of the sessions of one key, and
    there is at least one such session. *)
Lemma aggregate_entries {W : Type} (g : V -> W) (less : W -> W -> bool)
    (o : MapOrder) l x :
  In x (sortSlice less
          (fold_left (fun result kv => append result (g (snd kv)))
             (rangeMap o (fold_left (groupStep key init upd) l ∅)) []))
  <-> exists k, groupOf key k l <> []
                /\ x = g (fold_left upd (groupOf key k l) (init k)).
Proof.
  rewrite (Permutation_in' (eq_refl x) (ranged_sorted_perm g less o _)).
  rewrite in_map_iff. split.
  - intros ([k v] & <- & Hin). simpl.
    apply list_elem_of_In, elem_of_map_to_list in Hin.
    rewrite fold_groupStep_empty in Hin.
    exists k. destruct (groupOf key k l) eqn:E; [done|].
    split; [done|]. congruence.
  - intros (k & Hne & ->).
    exists (k, fold_left upd (groupOf key k l) (init k)). split; [done|].
    apply list_elem_of_In, elem_of_map_to_list.
    rewrite fold_groupStep_empty. by destruct (groupOf key k l).
Qed.

Lemma fold_upd_float (fc : V -> float64) (c : Session.t -> float64) :
  (forall v s, fc (upd v s) = fadd (fc v) (c s)) ->
  forall g v, fc (fold_left upd g v) = fold_left fadd (map c g) (fc v).
Proof.
  intros Hupd g. induction g as [|s g IH]; intros v; simpl; [done|].
  by rewrite IH, Hupd.
Qed.


Lemma fold_upd_const {T : Type} (f : V -> T) :
  (forall v s, f (upd v s) = f v) ->
  forall g v, f (fold_left upd g v) = f v.
Proof.
  intros Hupd g. induction g as [|s g IH]; intros v; simpl; [done|].
  by rewrite IH, Hupd.
Qed.

End Entries.

Lemma fold_left_ext {A B : Type} (f g : A -> B -> A) l a :
  (forall a x, f a x = g a x) -> fold_left f l a = fold_left g l a.
Proof.
  intros E. revert a. induction l as [|x l IH]; intros a; simpl; [done|].
  by rewrite E, IH.
Qed.

(** ** The five aggregators as groupings *)

Lemma agentStep_group agg s :
  agentStep agg s = groupStep agentKey agentInit agentUpd agg s.
Proof. reflexivity. Qed.

Lemma typeStep_group agg s :
  typeStep agg s = groupStep typeKey typeInit typeUpd agg s.
Proof. reflexivity. Qed.

Lemma modelStep_group agg s :
  modelStep agg s = groupStep modelKey modelInit modelUpd agg s.
Proof. reflexivity. Qed.

Lemma dayStep_group agg s :
  dayStep agg s = groupStep dayKey dayInit dayUpd agg s.
Proof.
  unfold dayStep, groupStep, dayKey.
  by destruct (time.IsZero (Session.StartedAt s)).
Qed.

Lemma cronStep_group agg s :
  cronStep agg s = groupStep cronKey cronInit cronUpd agg s.
Proof.
  unfold cronStep, groupStep, cronKey.
  by destruct (String.eqb (Session.Type_ s) SessionTypeCron).
Qed.

Lemma aggregateByAgent_group o l :
  aggregateByAgent o l
  = sortSlice (fun a b => fgt (AgentSummary.TotalCost a) (AgentSummary.TotalCost b))
      (fold_left (fun result ka => append result (snd ka))
         (rangeMap o (fold_left (groupStep agentKey agentInit agentUpd) l ∅)) []).
Proof. reflexivity. Qed.

Lemma aggregateBySessionType_group o l :
  aggregateBySessionType o l
  = sortSlice
      (fun a b => order_at (SessionTypeSummary.Type_ a) <? order_at (SessionTypeSummary.Type_ b))
      (fold_left (fun result ka => append result (snd ka))
         (rangeMap o (fold_left (groupStep typeKey typeInit typeUpd) l ∅)) []).
Proof. reflexivity. Qed.

Lemma aggregateByModel_group o l :
  aggregateByModel o l
  = sortSlice (fun a b => fgt (ModelSummary.TotalCost a) (ModelSummary.TotalCost b))
      (fold_left (fun result ka => append result (snd ka))
         (rangeMap o (fold_left (groupStep modelKey modelInit modelUpd) l ∅)) []).
Proof. reflexivity. Qed.

Lemma aggregateByDay_group o l :
  aggregateByDay o l
  = sortSlice (fun a b => String.ltb (DaySummary.Date a) (DaySummary.Date b))
      (fold_left (fun result ka => append result (snd ka))
         (rangeMap o (fold_left (groupStep dayKey dayInit dayUpd) l ∅)) []).
Proof.
  unfold aggregateByDay. by rewrite (fold_left_ext _ _ l ∅ dayStep_group).
Qed.

Lemma aggregateByCron_group o l :
  aggregateByCron o l
  = sortSlice (fun a b => fgt (CronSummary.TotalCost a) (CronSummary.TotalCost b))
      (fold_left (fun result kc => append result (cronFinish (snd kc)))
         (rangeMap o (fold_left (groupStep cronKey cronInit cronUpd) l ∅)) []).
Proof.
  unfold aggregateByCron. by rewrite (fold_left_ext _ _ l ∅ cronStep_group).
Qed.

(** ** The scalar totals *)

Lemma fold_totals l c t n :
  fold_left
    (fun '(cost, tokens, n) s =>
       (fadd cost (Usage.CostTotal (Session.Usage s)),
        int_add tokens (Usage.Total (Session.Usage s)),
        int_succ n))
    l (c, t, n)
  = (fold_left fadd (map cost l) c, fold_left int_add (map tokens l) t,
     fold_left int_add (map one l) n).
Proof.
  revert c t n. induction l as [|s l IH]; intros c t n; simpl; [done|].
  by rewrite IH.
Qed.

Lemma totals_spec l :
  totals l = (fsum (map cost l), isum (map tokens l), isum (map one l)).
Proof. apply fold_totals. Qed.

(** ** Reconciliation of the dimensions with the totals *)

Lemma filter_all {A : Type} (p : A -> bool) (l : list A) :
  (forall x, p x = true) -> List.filter p l = l.
Proof. intros Hp. induction l as [|x l IH]; simpl; [done|]. by rewrite Hp, IH. Qed.

Lemma filter_ext_all {A : Type} (p q : A -> bool) (l : list A) :
  (forall x, p x = q x) -> List.filter p l = List.filter q l.
Proof. intros E. induction l as [|x l IH]; simpl; [done|]. by rewrite E, IH. Qed.

Lemma keyed_day s : keyed dayKey s = known s.
Proof. unfold keyed, dayKey, known. by destruct (time.IsZero _). Qed.

Lemma bool_decide_Some_string (a k : string) :
  bool_decide (Some a = Some k) = String.eqb a k.
Proof.
  destruct (String.eqb_spec a k) as [->|Hne].
  - by apply bool_decide_eq_true.
  - apply bool_decide_eq_false. congruence.
Qed.

Lemma groupOf_agent k l a :
  AgentSummary.Agent a = k -> groupOf agentKey k l = List.filter (ofAgent a) l.
Proof.
  intros <-. apply filter_ext_all. intros s. apply bool_decide_Some_string.
Qed.

Lemma groupOf_type k l t :
  SessionTypeSummary.Type_ t = k -> groupOf typeKey k l = List.filter (ofType t) l.
Proof.
  intros <-. apply filter_ext_all. intros s. apply bool_decide_Some_string.
Qed.

Lemma groupOf_model k l m :
  ModelSummary.Model m = k -> groupOf modelKey k l = List.filter (ofModel m) l.
Proof.
  intros <-. apply filter_ext_all. intros s. apply bool_decide_Some_string.
Qed.

Lemma groupOf_day k l d :
  DaySummary.Date d = k -> groupOf dayKey k l = List.filter (ofDay d) l.
Proof.
  intros <-. apply filter_ext_all. intros s. unfold dayKey, ofDay, known.
  destruct (time.IsZero _); simpl; [done|].
  apply bool_decide_Some_string.
Qed.

Lemma agent_entry o l a :
  In a (aggregateByAgent o l) ->
  List.filter (ofAgent a) l <> []
  /\ a = fold_left agentUpd (List.filter (ofAgent a) l) (agentInit (AgentSummary.Agent a)).
Proof.
  rewrite aggregateByAgent_group.
  intros Hin. apply (aggregate_entries _ _ _ (fun v => v)) in Hin as (k & Hne & Ha).
  assert (Hk : AgentSummary.Agent a = k).
  { rewrite Ha. by rewrite (fold_upd_const agentUpd AgentSummary.Agent). }
  rewrite <- (groupOf_agent k l a Hk). by rewrite Hk.
Qed.

Lemma type_entry o l t :
  In t (aggregateBySessionType o l) ->
  List.filter (ofType t) l <> []
  /\ t = fold_left typeUpd (List.filter (ofType t) l)
           (typeInit (SessionTypeSummary.Type_ t)).
Proof.
  rewrite aggregateBySessionType_group.
  intros Hin. apply (aggregate_entries _ _ _ (fun v => v)) in Hin as (k & Hne & Ha).
  assert (Hk : SessionTypeSummary.Type_ t = k).
  { rewrite Ha. by rewrite (fold_upd_const typeUpd SessionTypeSummary.Type_). }
  rewrite <- (groupOf_type k l t Hk). by rewrite Hk.
Qed.

Lemma model_entry o l m :
  In m (aggregateByModel o l) ->
  List.filter (ofModel m) l <> []
  /\ m = fold_left modelUpd (List.filter (ofModel m) l)
           (modelInit (ModelSummary.Model m)).
Proof.
  rewrite aggregateByModel_group.
  intros Hin. apply (aggregate_entries _ _ _ (fun v => v)) in Hin as (k & Hne & Ha).
  assert (Hk : ModelSummary.Model m = k).
  { rewrite Ha. by rewrite (fold_upd_const modelUpd ModelSummary.Model). }
  rewrite <- (groupOf_model k l m Hk). by rewrite Hk.
Qed.

Lemma day_entry o l d :
  In d (aggregateByDay o l) ->
  List.filter (ofDay d) l <> []
  /\ d = fold_left dayUpd (List.filter (ofDay d) l) (dayInit (DaySummary.Date d)).
Proof.
  rewrite aggregateByDay_group.
  intros Hin. apply (aggregate_entries _ _ _ (fun v => v)) in Hin as (k & Hne & Ha).
  assert (Hk : DaySummary.Date d = k).
  { rewrite Ha. by rewrite (fold_upd_const dayUpd DaySummary.Date). }
  rewrite <- (groupOf_day k l d Hk). by rewrite Hk.
Qed.

(** The cost of an entry is the [float64] sum, in input order, of the costs
    of its sessions. *)
Lemma agent_cost o l a :
  In a (aggregateByAgent o l) ->
  AgentSummary.TotalCost a = fsum (map cost (List.filter (ofAgent a) l)).
Proof.
  intros Hin. destruct (agent_entry _ _ _ Hin) as [_ Ha].
  rewrite Ha at 1. by rewrite (fold_upd_float agentUpd AgentSummary.TotalCost cost).
Qed.

Lemma type_cost o l t :
  In t (aggregateBySessionType o l) ->
  SessionTypeSummary.TotalCost t = fsum (map cost (List.filter (ofType t) l)).
Proof.
  intros Hin. destruct (type_entry _ _ _ Hin) as [_ Ha].
  rewrite Ha at 1. by rewrite (fold_upd_float typeUpd SessionTypeSummary.TotalCost cost).
Qed.

Lemma model_cost o l m :
  In m (aggregateByModel o l) ->
  ModelSummary.TotalCost m = fsum (map cost (List.filter (ofModel m) l)).
Proof.
  intros Hin. destruct (model_entry _ _ _ Hin) as [_ Ha].
  rewrite Ha at 1. by rewrite (fold_upd_float modelUpd ModelSummary.TotalCost cost).
Qed.

Lemma day_cost o l d :
  In d (aggregateByDay o l) ->
  DaySummary.TotalCost d = fsum (map cost (List.filter (ofDay d) l)).
Proof.
  intros Hin. destruct (day_entry _ _ _ Hin) as [_ Ha].
  rewrite Ha at 1. by rewrite (fold_upd_float dayUpd DaySummary.TotalCost cost).
Qed.

Lemma agent_sums o l :
  isum (map AgentSummary.TotalTokens (aggregateByAgent o l)) = isum (map tokens l)
  /\ isum (map AgentSummary.Sessions (aggregateByAgent o l)) = isum (map one l).
Proof.
  rewrite aggregateByAgent_group. split.
  - rewrite (isum_aggregate agentKey agentInit agentUpd AgentSummary.TotalTokens tokens);
      [|done..]. by rewrite filter_all.
  - rewrite (isum_aggregate agentKey agentInit agentUpd AgentSummary.Sessions one);
      [|done..]. by rewrite filter_all.
Qed.

Lemma type_sums o l :
  isum (map SessionTypeSummary.TotalTokens (aggregateBySessionType o l))
  = isum (map tokens l)
  /\ isum (map SessionTypeSummary.Sessions (aggregateBySessionType o l))
     = isum (map one l).
Proof.
  rewrite aggregateBySessionType_group. split.
  - rewrite (isum_aggregate typeKey typeInit typeUpd SessionTypeSummary.TotalTokens tokens);
      [|done..]. by rewrite filter_all.
  - rewrite (isum_aggregate typeKey typeInit typeUpd SessionTypeSummary.Sessions one);
      [|done..]. by rewrite filter_all.
Qed.

Lemma model_sums o l :
  isum (map ModelSummary.TotalTokens (aggregateByModel o l)) = isum (map tokens l)
  /\ isum (map ModelSummary.Sessions (aggregateByModel o l)) = isum (map one l).
Proof.
  rewrite aggregateByModel_group. split.
  - rewrite (isum_aggregate modelKey modelInit modelUpd ModelSummary.TotalTokens tokens);
      [|done..]. by rewrite filter_all.
  - rewrite (isum_aggregate modelKey modelInit modelUpd ModelSummary.Sessions one);
      [|done..]. by rewrite filter_all.
Qed.

Lemma day_sums o l :
  isum (map DaySummary.TotalTokens (aggregateByDay o l))
  = isum (map tokens (List.filter known l))
  /\ isum (map DaySummary.Sessions (aggregateByDay o l))
     = isum (map one (List.filter known l)).
Proof.
  rewrite aggregateByDay_group. split.
  - rewrite (isum_aggregate dayKey dayInit dayUpd DaySummary.TotalTokens tokens);
      [|done..]. by rewrite (filter_ext_all _ _ _ keyed_day).
  - rewrite (isum_aggregate dayKey dayInit dayUpd DaySummary.Sessions one);
      [|done..]. by rewrite (filter_ext_all _ _ _ keyed_day).
Qed.

(** C4, as the code has it. For every report, the sums over the by-agent,
    by-kind and by-model summaries of total tokens and of session counts,
    taken in Go's [int] arithmetic, are the report's [TotalTokens] and
    [TotalSessions]; over the by-day summaries they are the totals of the
    filtered sessions with a known [StartedAt]. The costs are [float64]:
    [TotalCost] is the sum of the costs of the filtered sessions in input
    order, the cost of an entry is the sum of the costs of its own sessions
    in input order, and [float64] addition is not associative, so the sum
    of the entries' costs is [TotalCost] up to rounding only. *)
Theorem C4_dimensions_reconcile_with_totals (env : Env) (r : Reporter.t) :
  let filtered := filterByPeriod (now env) r (Reporter.sessions r) in
  let rep := Generate env r in
  (isum (map AgentSummary.TotalTokens (Report.ByAgent rep)) = Report.TotalTokens rep
   /\ isum (map AgentSummary.Sessions (Report.ByAgent rep)) = Report.TotalSessions rep)
  /\ (isum (map SessionTypeSummary.TotalTokens (Report.BySessionType rep))
      = Report.TotalTokens rep
      /\ isum (map SessionTypeSummary.Sessions (Report.BySessionType rep))
         = Report.TotalSessions rep)
  /\ (isum (map ModelSummary.TotalTokens (Report.ByModel rep)) = Report.TotalTokens rep
      /\ isum (map ModelSummary.Sessions (Report.ByModel rep)) = Report.TotalSessions rep)
  /\ (isum (map DaySummary.TotalTokens (Report.ByDay rep))
      = snd (fst (totals (List.filter known filtered)))
      /\ isum (map DaySummary.Sessions (Report.ByDay rep))
         = snd (totals (List.filter known filtered)))
  /\ Report.TotalCost rep = fsum (map cost filtered)
  /\ (forall a, In a (Report.ByAgent rep) ->
        AgentSummary.TotalCost a = fsum (map cost (List.filter (ofAgent a) filtered)))
  /\ (forall t, In t (Report.BySessionType rep) ->
        SessionTypeSummary.TotalCost t = fsum (map cost (List.filter (ofType t) filtered)))
  /\ (forall m, In m (Report.ByModel rep) ->
        ModelSummary.TotalCost m = fsum (map cost (List.filter (ofModel m) filtered)))
  /\ (forall d, In d (Report.ByDay rep) ->
        DaySummary.TotalCost d = fsum (map cost (List.filter (ofDay d) filtered))).
Proof.
  intros filtered rep. subst rep. unfold Generate. cbn [Report.ByAgent
    Report.BySessionType Report.ByModel Report.ByDay Report.TotalTokens
    Report.TotalSessions Report.TotalCost].
  fold filtered. rewrite !totals_spec. cbn [fst snd].
  split_and!.
  - apply agent_sums.
  - apply agent_sums.
  - apply type_sums.
  - apply type_sums.
  - apply model_sums.
  - apply model_sums.
  - apply day_sums.
  - apply day_sums.
  - done.
  - apply agent_cost.
  - apply type_cost.
  - apply model_cost.
  - apply day_cost.
Qed.

(** C4 as stated fails on the costs: the report adds 0.1, 0.2 and 0.3 in
    input order, the by-agent entries hold 0.5 and 0.1, and the two sums
    differ in the last bit. *)
Lemma C4_counterexample_cost_sums_differ :
  let rep := Generate sampleEnv (New roundingSessions (configFor "all" false false)) in
  map AgentSummary.TotalCost (Report.ByAgent rep) = [0.5%float; 0.1%float]
  /\ Report.TotalCost rep = 0.6000000000000001%float
  /\ fsum (map AgentSummary.TotalCost (Report.ByAgent rep)) = 0.6%float
  /\ feq (fsum (map AgentSummary.TotalCost (Report.ByAgent rep))) (Report.TotalCost rep)
     = false
  /\ fsum (map AgentSummary.TotalCost (Report.ByAgent rep)) <> Report.TotalCost rep.
Proof.
  split_and!; try (vm_compute; reflexivity).
  intros H.
  assert (E : feq (fsum (map AgentSummary.TotalCost
                           (Report.ByAgent
                              (Generate sampleEnv
                                 (New roundingSessions (configFor "all" false false))))))
                (Report.TotalCost
                   (Generate sampleEnv
                      (New roundingSessions (configFor "all" false false)))) = false)
    by (vm_compute; reflexivity).
  rewrite H in E. vm_compute in E. discriminate.
Qed.

(** ** The order of [float64] *)

Lemma SFcompare_rank (f g : spec_float) :
  ordered f -> ordered g ->
  exists c, SFcompare f g = Some c
            /\ (c = Lt <-> rank_lt f g)
            /\ (c = Eq <-> rank_eq f g)
            /\ (c = Gt <-> rank_lt g f).
Proof.
  unfold ordered, rank_lt, rank_eq.
  destruct f as [s1|s1| |s1 m1 e1], g as [s2|s2| |s2 m2 e2]; try done; intros _ _;
    try destruct s1; try destruct s2; simpl; eexists; (split; [reflexivity|]);
    try (split_and!; split; intros; first [done | lia]).
  - change (Pos.compare_cont Eq m1 m2) with (m1 ?= m2)%positive.
    destruct (Z.compare_spec e1 e2); destruct (Pos.compare_spec m1 m2); simpl;
      split_and!; split; intros; first [done | lia].
  - change (Pos.compare_cont Eq m1 m2) with (m1 ?= m2)%positive.
    destruct (Z.compare_spec e1 e2); destruct (Pos.compare_spec m1 m2); simpl;
      split_and!; split; intros; first [done | lia].
Qed.

Lemma SFcompare_nan_l g : SFcompare S754_nan g = None.
Proof. by destruct g. Qed.

Lemma SFcompare_nan_r f : SFcompare f S754_nan = None.
Proof. by destruct f as [| | |[]]. Qed.

Lemma ltb_rank x y :
  PrimFloat.ltb x y = true <-> ~ isNaN x /\ ~ isNaN y /\ flt x y.
Proof.
  rewrite FloatAxioms.ltb_spec. unfold SFltb, isNaN, flt.
  destruct (Prim2SF x) eqn:Ex; try (rewrite SFcompare_nan_l; split; [done|tauto]);
  destruct (Prim2SF y) eqn:Ey; try (rewrite SFcompare_nan_r; split; [done|tauto]);
    rewrite <- Ex, <- Ey;
    (destruct (SFcompare_rank (Prim2SF x) (Prim2SF y)) as (c & -> & HLt & HEq & HGt);
     [unfold ordered; congruence..|]);
    rewrite Ex, Ey in *;
    (split; [intros Hc; split_and!; [done..|]; apply HLt; by destruct c
            |intros (_ & _ & H); apply HLt in H; by rewrite H]).
Qed.

Lemma leb_rank x y :
  PrimFloat.leb x y = true <-> ~ isNaN x /\ ~ isNaN y /\ (flt x y \/ fsame x y).
Proof.
  rewrite FloatAxioms.leb_spec. unfold SFleb, isNaN, flt, fsame.
  destruct (Prim2SF x) eqn:Ex; try (rewrite SFcompare_nan_l; split; [done|tauto]);
  destruct (Prim2SF y) eqn:Ey; try (rewrite SFcompare_nan_r; split; [done|tauto]);
    rewrite <- Ex, <- Ey;
    (destruct (SFcompare_rank (Prim2SF x) (Prim2SF y)) as (c & -> & HLt & HEq & HGt);
     [unfold ordered; congruence..|]);
    rewrite Ex, Ey in *;
    (split; [intros Hc; split_and!; [done..|]; destruct c;
               [right; by apply HEq|left; by apply HLt|done]
            |intros (_ & _ & [H|H]); [apply HLt in H|apply HEq in H]; by rewrite H]).
Qed.


Lemma flt_trans x y z : flt x y -> flt y z -> flt x z.
Proof. unfold flt, rank_lt. lia. Qed.

Lemma flt_irrefl x : ~ flt x x.
Proof. unfold flt, rank_lt. lia. Qed.

Lemma flt_total x y : flt x y \/ fsame x y \/ flt y x.
Proof. unfold flt, fsame, rank_lt, rank_eq. lia. Qed.

Lemma fsame_flt_l x y z : fsame x y -> flt y z -> flt x z.
Proof. unfold flt, fsame, rank_lt, rank_eq. lia. Qed.



Lemma fsame_sym x y : fsame x y -> fsame y x.
Proof. unfold fsame, rank_eq. lia. Qed.


Lemma fgt_spec a b : fgt a b = true <-> ~ isNaN a /\ ~ isNaN b /\ flt b a.
Proof. unfold fgt. rewrite ltb_rank. tauto. Qed.

Lemma fge_spec a b :
  fge a b = true <-> ~ isNaN a /\ ~ isNaN b /\ (flt b a \/ fsame a b).
Proof.
  unfold fge. rewrite leb_rank. split.
  - intros (? & ? & [?|?%fsame_sym]); tauto.
  - intros (? & ? & [?|?%fsame_sym]); tauto.
Qed.


(** [>] is a strict order on all of [float64]. *)
Lemma fgt_asym a b : fgt a b = true -> fgt b a = false.
Proof.
  rewrite fgt_spec. intros (_ & _ & H).
  apply not_true_is_false. rewrite fgt_spec. intros (_ & _ & H').
  exact (flt_irrefl _ (flt_trans _ _ _ H H')).
Qed.

Lemma fgt_irrefl a : fgt a a = false.
Proof.
  apply not_true_is_false. rewrite fgt_spec. intros (_ & _ & H).
  exact (flt_irrefl _ H).
Qed.

Lemma fgt_trans a b c : fgt a b = true -> fgt b c = true -> fgt a c = true.
Proof.
  rewrite !fgt_spec. intros (? & ? & ?) (? & ? & ?).
  split_and!; [done..|]. by eapply flt_trans.
Qed.

(** Away from NaN the order is total. *)
Lemma fge_total a b : ~ isNaN a -> ~ isNaN b -> fgt b a = false -> fge a b = true.
Proof.
  intros Ha Hb Hgt. apply fge_spec. split_and!; [done..|].
  destruct (flt_total b a) as [H|[H|H]].
  - by left.
  - right. by apply fsame_sym.
  - assert (fgt b a = true) by (apply fgt_spec; tauto). congruence.
Qed.





Lemma fge_not_nan a b : fge a b = true -> ~ isNaN a /\ ~ isNaN b.
Proof. rewrite fge_spec. tauto. Qed.

(** ** Non-negative costs *)

Lemma Prim2SF_fzero : Prim2SF fzero = S754_zero false.
Proof. reflexivity. Qed.

Lemma nonneg_NN x : nonneg x <-> NN (Prim2SF x).
Proof.
  unfold nonneg. rewrite fge_spec. unfold isNaN, flt, fsame, rank_lt, rank_eq.
  rewrite Prim2SF_fzero.
  destruct (Prim2SF x) as [s|[]| |[] m e]; simpl;
    (split;
     [intros (Hn & _ & Hr); try done; try lia
     |intros HN; try done; split_and!; try done; lia]).
Qed.

Lemma nonneg_not_nan x : nonneg x -> ~ isNaN x.
Proof. unfold nonneg. intros H. by apply fge_not_nan in H as [H _]. Qed.

Lemma nonneg_fzero : nonneg fzero.
Proof. reflexivity. Qed.

Lemma shr_1_nonneg mrs : 0 <= shr_m mrs -> 0 <= shr_m (shr_1 mrs).
Proof. destruct mrs as [[|[p|p|]|[p|p|]] r s]; simpl; lia. Qed.

Lemma iter_shr_1_nonneg p mrs :
  0 <= shr_m mrs -> 0 <= shr_m (SpecFloat.iter_pos shr_1 p mrs).
Proof.
  revert mrs. induction p as [p IH|p IH|]; intros mrs Hm; simpl.
  - apply IH, IH. by apply shr_1_nonneg.
  - by apply IH, IH.
  - by apply shr_1_nonneg.
Qed.

Lemma shr_fexp_nonneg m e l :
  0 <= m -> 0 <= shr_m (fst (shr_fexp prec emax m e l)).
Proof.
  intros Hm. unfold shr_fexp, shr.
  assert (H0 : 0 <= shr_m (shr_record_of_loc m l)) by (by destruct l as [|[]]).
  destruct (_ - e) as [|p|p]; simpl; [done| |done].
  by apply iter_shr_1_nonneg.
Qed.

Lemma round_nearest_even_nonneg m l : 0 <= m -> 0 <= round_nearest_even m l.
Proof.
  intros Hm. destruct l as [|[]]; simpl; try lia.
  destruct (Z.even m); lia.
Qed.

Lemma binary_round_aux_signed sx mx ex lx :
  0 <= mx -> signed sx (binary_round_aux prec emax sx mx ex lx).
Proof.
  intros Hm. unfold binary_round_aux.
  pose proof (shr_fexp_nonneg mx ex lx Hm) as H1.
  destruct (shr_fexp prec emax mx ex lx) as [mrs' e'].
  pose proof (shr_fexp_nonneg _ e' loc_Exact
                (round_nearest_even_nonneg _ (loc_of_shr_record mrs') H1)) as H2.
  destruct (shr_fexp prec emax _ e' loc_Exact) as [mrs'' e''].
  simpl in H2. destruct (shr_m mrs'') as [|m|m]; simpl; [done| |lia].
  by destruct (_ <=? _).
Qed.

Lemma binary_round_signed sx mx ex : signed sx (binary_round prec emax sx mx ex).
Proof.
  unfold binary_round. destruct (shl_align _ _ _) as [mz ez].
  apply binary_round_aux_signed. lia.
Qed.

Lemma signed_false_NN f : signed false f -> NN f.
Proof. destruct f as [s|s| |s m e]; simpl; try done; by intros ->. Qed.

Lemma SFadd_NN f g : NN f -> NN g -> NN (SF64add f g).
Proof.
  unfold SF64add.
  destruct f as [s1|[]| |[] m1 e1], g as [s2|[]| |[] m2 e2]; simpl; try done.
  - intros _ _. by destruct s1, s2.
  - intros _ _. apply signed_false_NN, binary_round_signed.
Qed.

Lemma fadd_nonneg a b : nonneg a -> nonneg b -> nonneg (fadd a b).
Proof.
  rewrite !nonneg_NN. unfold fadd. rewrite add_spec. apply SFadd_NN.
Qed.

Lemma fsum_nonneg_from l a :
  nonneg a -> Forall nonneg l -> nonneg (fold_left fadd l a).
Proof.
  revert a. induction l as [|x l IH]; intros a Ha Hl; simpl; [done|].
  inversion Hl; subst. apply IH; [|done]. by apply fadd_nonneg.
Qed.

Lemma fsum_nonneg l : Forall nonneg l -> nonneg (fsum l).
Proof. apply fsum_nonneg_from, nonneg_fzero. Qed.

(** ** What [sort.Slice] guarantees *)

Section Sorting.

Context {A : Type}.
Variable less : A -> A -> bool.
Hypothesis less_asym : forall x y, less x y = true -> less y x = false.

Lemma HdRel_insertLeft y x r :
  HdRel (fun u v => less u v = false) y r ->
  less y x = false ->
  HdRel (fun u v => less u v = false) y (insertLeft less x r).
Proof.
  intros Hr Hx. destruct r as [|z r]; simpl; [by constructor|].
  destruct (less x z); constructor; [|done].
  by inversion Hr.
Qed.

Lemma insertLeft_sorted x acc :
  Sorted (fun u v => less u v = false) acc ->
  Sorted (fun u v => less u v = false) (insertLeft less x acc).
Proof.
  induction 1 as [|y r Hs IH Hd]; simpl.
  - repeat constructor.
  - destruct (less x y) eqn:E.
    + constructor; [done|]. apply HdRel_insertLeft; [done|]. by apply less_asym.
    + constructor; [by constructor|]. by constructor.
Qed.

Lemma fold_insertLeft_sorted l acc :
  Sorted (fun u v => less u v = false) acc ->
  Sorted (fun u v => less u v = false)
    (fold_left (fun p x => insertLeft less x p) l acc).
Proof.
  revert acc. induction l as [|x l IH]; intros acc Hacc; simpl; [done|].
  by apply IH, insertLeft_sorted.
Qed.

Lemma Sorted_add_last (P : A -> A -> Prop) l y :
  Sorted P l -> (forall z, last l = Some z -> P z y) -> Sorted P (l ++ [y]).
Proof.
  induction 1 as [|a l Hs IH Hd]; intros Hlast; simpl.
  - repeat constructor.
  - constructor.
    + apply IH. intros z Hz. apply Hlast. destruct l; [done|]. done.
    + destruct l as [|b l]; simpl.
      * constructor. by apply Hlast.
      * constructor. by inversion Hd.
Qed.

Lemma Sorted_rev_flip (P : A -> A -> Prop) l :
  Sorted P l -> Sorted (fun a b => P b a) (rev l).
Proof.
  induction 1 as [|y l Hs IH Hd]; simpl; [constructor|].
  apply Sorted_add_last; [done|].
  intros z Hz. destruct l as [|b l]; [done|].
  simpl in Hz. rewrite last_snoc in Hz. injection Hz as <-. by inversion Hd.
Qed.

Lemma sortSlice_inOrder l : Sorted (inOrder less) (sortSlice less l).
Proof.
  unfold sortSlice, inOrder.
  apply (Sorted_rev_flip (fun u v => less u v = false)).
  apply fold_insertLeft_sorted. constructor.
Qed.

End Sorting.

Lemma Sorted_weaken {A : Type} (P : A -> Prop) (R R' : A -> A -> Prop) l :
  Forall P l ->
  (forall a b, P a -> P b -> R a b -> R' a b) ->
  Sorted R l -> Sorted R' l.
Proof.
  intros HP Himpl Hs. induction Hs as [|a l Hs IH Hd]; [constructor|].
  inversion HP as [|? ? Pa Pl]; subst.
  constructor; [by apply IH|].
  destruct Hd as [|b l Rab]; constructor.
  inversion Pl; subst. by apply Himpl.
Qed.

Lemma Forall_perm_In {A : Type} (P : A -> Prop) (l : list A) :
  (forall x, In x l -> P x) -> Forall P l.
Proof. intros H. apply Forall_forall. intros x Hx. by apply H, list_elem_of_In. Qed.

(** Sorting by cost, descending, when no cost is a NaN. *)
Lemma sortSlice_cost_desc {A : Type} (c : A -> float64) (l : list A) :
  (forall x, In x l -> ~ isNaN (c x)) ->
  Sorted (fun a b => fge (c a) (c b) = true)
    (sortSlice (fun a b => fgt (c a) (c b)) l).
Proof.
  intros Hnan.
  eapply (Sorted_weaken (fun x => ~ isNaN (c x))); [| |apply sortSlice_inOrder].
  - apply Forall_perm_In. intros x Hx. apply Hnan.
    eapply Permutation_in; [apply sortSlice_perm|exact Hx].
  - unfold inOrder. intros a b Ha Hb Hab. by apply fge_total.
  - intros x y. apply fgt_asym.
Qed.

(** ** The by-cron entries *)

Lemma groupOf_cron k l e :
  (CronSummary.CronName e, CronSummary.CronID e) = k ->
  groupOf cronKey k l = List.filter (ofCron e) l.
Proof.
  intros <-. apply filter_ext_all. intros s. unfold cronKey, ofCron.
  destruct (String.eqb (Session.Type_ s) SessionTypeCron); simpl; [|done].
  destruct (String.eqb_spec (Session.CronName s) (CronSummary.CronName e)) as [->|Hn];
    simpl.
  - destruct (String.eqb_spec (Session.CronID s) (CronSummary.CronID e)) as [->|Hi].
    + by apply bool_decide_eq_true.
    + apply bool_decide_eq_false. congruence.
  - apply bool_decide_eq_false. congruence.
Qed.

Lemma cronFinish_fields c :
  CronSummary.CronName (cronFinish c) = CronSummary.CronName c
  /\ CronSummary.CronID (cronFinish c) = CronSummary.CronID c
  /\ CronSummary.Runs (cronFinish c) = CronSummary.Runs c
  /\ CronSummary.TotalCost (cronFinish c) = CronSummary.TotalCost c
  /\ CronSummary.MaxCost (cronFinish c) = CronSummary.MaxCost c
  /\ CronSummary.TotalTokens (cronFinish c) = CronSummary.TotalTokens c.
Proof. unfold cronFinish. by destruct (_ >? 0). Qed.


Lemma cron_entry o l e :
  In e (aggregateByCron o l) ->
  List.filter (ofCron e) l <> []
  /\ e = cronFinish
           (fold_left cronUpd (List.filter (ofCron e) l)
              (cronInit (CronSummary.CronName e, CronSummary.CronID e))).
Proof.
  rewrite aggregateByCron_group.
  intros Hin. apply (aggregate_entries _ _ _ cronFinish) in Hin as (k & Hne & He).
  assert (Hk : (CronSummary.CronName e, CronSummary.CronID e) = k).
  { rewrite He.
    destruct (cronFinish_fields (fold_left cronUpd (groupOf cronKey k l) (cronInit k)))
      as (-> & -> & _).
    rewrite (fold_upd_const cronUpd CronSummary.CronName) by done.
    rewrite (fold_upd_const cronUpd CronSummary.CronID) by done.
    by destruct k. }
  rewrite <- (groupOf_cron k l e Hk). by rewrite Hk.
Qed.

Lemma Zsum_ones l : Zsum (map one l) = Z.of_nat (length l).
Proof. induction l as [|s l IH]; simpl; [done|]. unfold one at 1. lia. Qed.




Lemma Forall_filter {A : Type} (P : A -> Prop) (p : A -> bool) (l : list A) :
  Forall P l -> Forall P (List.filter p l).
Proof.
  intros H. apply Forall_forall. intros x Hx.
  apply list_elem_of_In, filter_In in Hx as [Hx _].
  rewrite Forall_forall in H. by apply H, list_elem_of_In.
Qed.



Example by_cron_of_the_samples :
  aggregateByCron [] sampleSessions
  = [CronSummary.mk "nightly" "nightly-a1b2c3" 1 3%float 3%float 3%float 2000].
Proof. vm_compute. reflexivity. Qed.

(** ** Keys of a dimension are distinct *)

Lemma aggregate_keys_NoDup `{Countable K} {V : Type}
    (key : Session.t -> option K) (init : K -> V) (upd : V -> Session.t -> V)
    (kf : V -> K) (less : V -> V -> bool) (o : MapOrder) l :
  (forall k, kf (init k) = k) ->
  (forall v s, kf (upd v s) = kf v) ->
  NoDup (map kf
           (sortSlice less
              (fold_left (fun result kv => append result (snd kv))
                 (rangeMap o (fold_left (groupStep key init upd) l ∅)) []))).
Proof.
  intros Hinit Hupd.
  rewrite (Permutation_map kf (ranged_sorted_perm (fun v => v) less o _)).
  rewrite map_map.
  assert (E : map (fun kv => kf (snd kv))
                (map_to_list (fold_left (groupStep key init upd) l ∅))
              = map fst (map_to_list (fold_left (groupStep key init upd) l ∅))).
  { apply map_ext_in. intros [k v] Hin. simpl.
    apply list_elem_of_In, elem_of_map_to_list in Hin.
    rewrite fold_groupStep_empty in Hin.
    destruct (groupOf key k l); [done|]. injection Hin as <-.
    by rewrite (fold_upd_const upd kf Hupd), ?Hupd, Hinit. }
  rewrite E. apply NoDup_fst_map_to_list.
Qed.

Lemma Sorted_distinct_keys {A K : Type} (f : A -> K) (R : A -> A -> Prop) l :
  NoDup (map f l) -> Sorted R l -> Sorted (fun a b => R a b /\ f a <> f b) l.
Proof.
  intros Hnd Hs. induction Hs as [|a l Hs IH Hd]; [constructor|].
  simpl in Hnd. apply NoDup_cons in Hnd as [Hnotin Hnd].
  constructor; [by apply IH|].
  destruct Hd as [|b l Rab]; constructor.
  split; [done|]. intros E. apply Hnotin. rewrite E. simpl. by left.
Qed.

(** ** The order of strings *)

Lemma string_ltb_asym a b : String.ltb a b = true -> String.ltb b a = false.
Proof.
  unfold String.ltb. rewrite (String.compare_antisym b a).
  by destruct (String.compare a b).
Qed.

Lemma string_ltb_trans a b c :
  String.ltb a b = true -> String.ltb b c = true -> String.ltb a c = true.
Proof.
  unfold String.ltb. intros Hab Hbc.
  assert (H1 : String_as_OT.cmp a b = Lt)
    by (unfold String_as_OT.cmp; by destruct (String.compare a b)).
  assert (H2 : String_as_OT.cmp b c = Lt)
    by (unfold String_as_OT.cmp; by destruct (String.compare b c)).
  apply String_as_OT.cmp_lt in H1, H2.
  pose proof (String_as_OT.lt_trans _ _ _ H1 H2) as H3.
  apply String_as_OT.cmp_lt in H3. unfold String_as_OT.cmp in H3. by rewrite H3.
Qed.

Lemma string_ltb_total a b :
  a <> b -> String.ltb b a = false -> String.ltb a b = true.
Proof.
  unfold String.ltb. intros Hne. rewrite (String.compare_antisym a b).
  destruct (String.compare b a) eqn:E; simpl; try done.
  apply String.compare_eq_iff in E. congruence.
Qed.

Lemma string_leb_of_not_ltb a b : String.ltb b a = false -> String.leb a b = true.
Proof.
  unfold String.ltb, String.leb. rewrite (String.compare_antisym a b).
  by destruct (String.compare b a).
Qed.

(** ** The order of every dimension *)

Lemma aggregateByDay_strict o l :
  Sorted (fun a b => String.ltb (DaySummary.Date a) (DaySummary.Date b) = true)
    (aggregateByDay o l).
Proof.
  rewrite aggregateByDay_group.
  eapply (Sorted_weaken (fun _ => True)).
  3: { apply (Sorted_distinct_keys DaySummary.Date).
       - by apply (aggregate_keys_NoDup dayKey dayInit dayUpd DaySummary.Date).
       - apply sortSlice_inOrder. intros x y. apply string_ltb_asym. }
  - apply Forall_forall. done.
  - intros a b _ _ [Hab Hne]. apply string_ltb_total; [exact Hne|exact Hab].
Qed.

Lemma order_at_inj t u : validKind t -> validKind u -> order_at t = order_at u -> t = u.
Proof.
  unfold validKind. intros [ -> | [ -> | -> ] ] [ -> | [ -> | -> ] ]; vm_compute; congruence.
Qed.

Lemma aggregateBySessionType_ranked o l :
  Sorted
    (fun a b =>
       order_at (SessionTypeSummary.Type_ a) <= order_at (SessionTypeSummary.Type_ b))
    (aggregateBySessionType o l).
Proof.
  rewrite aggregateBySessionType_group.
  eapply (Sorted_weaken (fun _ => True)).
  3: { apply sortSlice_inOrder. intros x y. lia. }
  - apply Forall_forall. done.
  - intros a b _ _ Hab. unfold inOrder in Hab. lia.
Qed.

Lemma type_entry_valid o l t :
  Forall (fun s => validKind (Session.Type_ s)) l ->
  In t (aggregateBySessionType o l) -> validKind (SessionTypeSummary.Type_ t).
Proof.
  intros Hvalid Hin. destruct (type_entry _ _ _ Hin) as [Hne _].
  destruct (List.filter (ofType t) l) as [|s g] eqn:E; [done|].
  assert (Hs : In s (List.filter (ofType t) l)) by (rewrite E; by left).
  apply filter_In in Hs as [Hs Ht]. unfold ofType in Ht.
  apply String.eqb_eq in Ht. rewrite <- Ht.
  rewrite Forall_forall in Hvalid. by apply Hvalid, list_elem_of_In.
Qed.

Lemma aggregateBySessionType_strict o l :
  Forall (fun s => validKind (Session.Type_ s)) l ->
  Sorted
    (fun a b =>
       order_at (SessionTypeSummary.Type_ a) < order_at (SessionTypeSummary.Type_ b))
    (aggregateBySessionType o l).
Proof.
  intros Hvalid.
  eapply (Sorted_weaken (fun t => validKind (SessionTypeSummary.Type_ t))).
  3: { apply (Sorted_distinct_keys SessionTypeSummary.Type_).
       - rewrite aggregateBySessionType_group.
         by apply (aggregate_keys_NoDup typeKey typeInit typeUpd SessionTypeSummary.Type_).
       - apply aggregateBySessionType_ranked. }
  - apply Forall_perm_In. intros t. by apply type_entry_valid.
  - intros a b Ha Hb [Hab Hne].
    destruct (Z.eq_dec (order_at (SessionTypeSummary.Type_ a))
                (order_at (SessionTypeSummary.Type_ b))) as [E|E]; [|lia].
    destruct Hne. by apply order_at_inj.
Qed.

Lemma fsum_costs_not_nan (l : list Session.t) :
  Forall (fun s => nonneg (cost s)) l -> ~ isNaN (fsum (map cost l)).
Proof. intros H. apply nonneg_not_nan, fsum_nonneg. by apply Forall_map. Qed.

Lemma aggregateByAgent_desc o l :
  Forall (fun s => nonneg (cost s)) l ->
  Sorted (fun a b => fge (AgentSummary.TotalCost a) (AgentSummary.TotalCost b) = true)
    (aggregateByAgent o l).
Proof.
  intros Hcost. rewrite aggregateByAgent_group. apply sortSlice_cost_desc.
  intros a Ha.
  assert (Hin : In a (aggregateByAgent o l)).
  { rewrite aggregateByAgent_group.
    eapply Permutation_in; [symmetry; apply sortSlice_perm|exact Ha]. }
  rewrite (agent_cost _ _ _ Hin). by apply fsum_costs_not_nan, Forall_filter.
Qed.

Lemma aggregateByModel_desc o l :
  Forall (fun s => nonneg (cost s)) l ->
  Sorted (fun a b => fge (ModelSummary.TotalCost a) (ModelSummary.TotalCost b) = true)
    (aggregateByModel o l).
Proof.
  intros Hcost. rewrite aggregateByModel_group. apply sortSlice_cost_desc.
  intros a Ha.
  assert (Hin : In a (aggregateByModel o l)).
  { rewrite aggregateByModel_group.
    eapply Permutation_in; [symmetry; apply sortSlice_perm|exact Ha]. }
  rewrite (model_cost _ _ _ Hin). by apply fsum_costs_not_nan, Forall_filter.
Qed.

Lemma cron_cost o l e :
  In e (aggregateByCron o l) ->
  CronSummary.TotalCost e = fsum (map cost (List.filter (ofCron e) l)).
Proof.
  intros Hin. destruct (cron_entry _ _ _ Hin) as [_ He].
  rewrite He at 1.
  destruct (cronFinish_fields
              (fold_left cronUpd (List.filter (ofCron e) l)
                 (cronInit (CronSummary.CronName e, CronSummary.CronID e))))
    as (_ & _ & _ & -> & _).
  by rewrite (fold_upd_float cronUpd CronSummary.TotalCost cost).
Qed.

Lemma aggregateByCron_desc o l :
  Forall (fun s => nonneg (cost s)) l ->
  Sorted (fun a b => fge (CronSummary.TotalCost a) (CronSummary.TotalCost b) = true)
    (aggregateByCron o l).
Proof.
  intros Hcost. rewrite aggregateByCron_group. apply sortSlice_cost_desc.
  intros a Ha.
  assert (Hin : In a (aggregateByCron o l)).
  { rewrite aggregateByCron_group.
    eapply Permutation_in; [symmetry; apply sortSlice_perm|exact Ha]. }
  rewrite (cron_cost _ _ _ Hin). by apply fsum_costs_not_nan, Forall_filter.
Qed.

Lemma getSessionDetails_desc l :
  Forall (fun s => nonneg (cost s)) l ->
  Sorted (fun a b => fge (SessionDetail.Cost a) (SessionDetail.Cost b) = true)
    (getSessionDetails l).
Proof.
  intros Hcost. rewrite getSessionDetails_sorts. apply sortSlice_cost_desc.
  intros d Hd. apply in_map_iff in Hd as (s & <- & Hs). simpl.
  apply nonneg_not_nan. rewrite Forall_forall in Hcost.
  by apply Hcost, list_elem_of_In.
Qed.

Lemma Forall_filterByPeriod (P : Session.t -> Prop) now r l :
  Forall P l -> Forall P (filterByPeriod now r l).
Proof.
  intros H. destruct (filterByPeriod_is_filter now r l) as [keep ->].
  by apply Forall_filter.
Qed.

(** C8. In every report the by-agent, by-model, by-cron and session-detail
    lists are non-increasing in cost from one entry to the next, the by-day
    list is non-decreasing in its date string, and the by-kind list follows
    the ranks of the map [order] (interactive 0, cron 1, subagent 2), not
    the costs; when every session has one of the three kinds the ranks
    increase strictly, so the kinds come as interactive, cron, subagent.
    The session costs are non-negative, as the data model has them. *)
Theorem C8_dimensions_are_ordered (env : Env) (r : Reporter.t) :
  Forall (fun s => nonneg (cost s)) (Reporter.sessions r) ->
  let rep := Generate env r in
  Sorted (fun a b => fge (AgentSummary.TotalCost a) (AgentSummary.TotalCost b) = true)
    (Report.ByAgent rep)
  /\ Sorted (fun a b => fge (ModelSummary.TotalCost a) (ModelSummary.TotalCost b) = true)
       (Report.ByModel rep)
  /\ (forall l, Report.ByCron rep = Some l ->
        Sorted (fun a b => fge (CronSummary.TotalCost a) (CronSummary.TotalCost b) = true) l)
  /\ (forall l, Report.Sessions rep = Some l ->
        Sorted (fun a b => fge (SessionDetail.Cost a) (SessionDetail.Cost b) = true) l)
  /\ Sorted (fun a b => String.leb (DaySummary.Date a) (DaySummary.Date b) = true)
       (Report.ByDay rep)
  /\ Sorted
       (fun a b =>
          order_at (SessionTypeSummary.Type_ a) <= order_at (SessionTypeSummary.Type_ b))
       (Report.BySessionType rep)
  /\ (Forall (fun s => validKind (Session.Type_ s)) (Reporter.sessions r) ->
      Sorted
        (fun a b =>
           order_at (SessionTypeSummary.Type_ a) < order_at (SessionTypeSummary.Type_ b))
        (Report.BySessionType rep)).
Proof.
  intros Hcost rep. subst rep. unfold Generate. simpl.
  pose proof (Forall_filterByPeriod _ (now env) r _ Hcost) as Hf.
  split_and!.
  - by apply aggregateByAgent_desc.
  - by apply aggregateByModel_desc.
  - intros l. destruct (_ || _); [|done]. intros [= <-]. by apply aggregateByCron_desc.
  - intros l. destruct (Config.Full _); [|done]. intros [= <-].
    by apply getSessionDetails_desc.
  - eapply (Sorted_weaken (fun _ => True)).
    3: apply aggregateByDay_strict.
    + by apply Forall_forall.
    + intros a b _ _ Hab. apply string_leb_of_not_ltb. by apply string_ltb_asym.
  - apply aggregateBySessionType_ranked.
  - intros Hvalid. apply aggregateBySessionType_strict.
    by apply Forall_filterByPeriod.
Qed.

Lemma C8_dimensions_are_ordered_witness :
  let rep := Generate sampleEnv (New sampleSessions (configFor "all" true true)) in
  Sorted (fun a b => fge (AgentSummary.TotalCost a) (AgentSummary.TotalCost b) = true)
    (Report.ByAgent rep)
  /\ Sorted (fun a b => String.leb (DaySummary.Date a) (DaySummary.Date b) = true)
       (Report.ByDay rep)
  /\ Sorted
       (fun a b =>
          order_at (SessionTypeSummary.Type_ a) < order_at (SessionTypeSummary.Type_ b))
       (Report.BySessionType rep).
Proof.
  assert (Hcost : Forall (fun s => nonneg (cost s))
                    (Reporter.sessions (New sampleSessions (configFor "all" true true))))
    by repeat constructor.
  destruct (C8_dimensions_are_ordered sampleEnv
              (New sampleSessions (configFor "all" true true)) Hcost)
    as (Hagent & _ & _ & _ & Hday & _ & Hkind).
  split_and!; [exact Hagent|exact Hday|].
  apply Hkind. repeat constructor; unfold validKind; simpl; tauto.
Defined.

Example ordered_report_of_the_samples :
  let rep := Generate sampleEnv (New sampleSessions (configFor "all" true true)) in
  map AgentSummary.Agent (Report.ByAgent rep) = ["amos"; "pepper"; "urza"]
  /\ map SessionTypeSummary.Type_ (Report.BySessionType rep)
     = ["interactive"; "cron"; "subagent"]
  /\ map DaySummary.Date (Report.ByDay rep) = ["2026-02-10"; "2026-02-11"].
Proof. repeat split; vm_compute; reflexivity. Qed.

(** ** Two runs on the same input *)

Section Unique.

Context {A : Type}.
Variable less : A -> A -> bool.
Hypothesis less_asym : forall x y, less x y = true -> less y x = false.
Hypothesis less_trans :
  forall x y z, less x y = true -> less y z = true -> less x z = true.

#[local] Instance before_trans : Transitive (placedBefore less).
Proof. intros x y z. apply less_trans. Qed.

#[local] Instance before_antisym : AntiSymm (=) (placedBefore less).
Proof.
  intros x y Hxy Hyx. apply less_asym in Hxy. unfold placedBefore in Hyx. congruence.
Qed.

Lemma before_irrefl x : ~ placedBefore less x x.
Proof. intros H. pose proof (less_asym _ _ H). unfold placedBefore in H. congruence. Qed.

Lemma StronglySorted_NoDup l : StronglySorted (placedBefore less) l -> NoDup l.
Proof.
  induction 1 as [|x l Hs IH Hall]; constructor; [|done].
  intros Hin. rewrite Forall_forall in Hall.
  exact (before_irrefl x (Hall x Hin)).
Qed.

Lemma StronglySorted_total l x y :
  StronglySorted (placedBefore less) l -> In x l -> In y l -> x <> y ->
  placedBefore less x y \/ placedBefore less y x.
Proof.
  induction 1 as [|z l Hs IH Hall]; simpl; [done|].
  rewrite Forall_forall in Hall.
  intros [->|Hx] [->|Hy] Hne.
  - done.
  - left. by apply Hall, list_elem_of_In.
  - right. by apply Hall, list_elem_of_In.
  - by apply IH.
Qed.

(** When one run comes out strictly ordered (no two entries tie), any
    other run over a permutation of the same entries comes out equal. *)
Lemma sort_unique l1 l2 :
  Permutation l1 l2 ->
  Sorted (placedBefore less) l1 ->
  Sorted (inOrder less) l2 ->
  l1 = l2.
Proof.
  intros Hperm Hs1 Hs2.
  assert (Hss1 : StronglySorted (placedBefore less) l1) by (by apply Sorted_StronglySorted).
  pose proof (StronglySorted_NoDup _ Hss1) as Hnd1.
  assert (Hnd2 : NoDup l2) by (by rewrite <- Hperm).
  apply (Sorted_unique (placedBefore less)); [done| |done].
  eapply (Sorted_weaken (fun x => In x l1)).
  3: { apply (Sorted_distinct_keys (fun x => x)); [|exact Hs2].
       by rewrite map_id. }
  - apply Forall_forall. intros x Hx. apply list_elem_of_In in Hx.
    eapply Permutation_in; [symmetry; exact Hperm|exact Hx].
  - intros a b Ha Hb [Hab Hne]. unfold inOrder in Hab.
    destruct (StronglySorted_total _ _ _ Hss1 Ha Hb Hne) as [H|H]; [done|].
    unfold placedBefore in H. congruence.
Qed.

End Unique.

(** The entries do not depend on the order in which the map is ranged
    over. *)
Lemma ranged_sorted_perm2 `{Countable K} {V W : Type} (g : V -> W)
    (less : W -> W -> bool) (o1 o2 : MapOrder) (agg : gmap K V) :
  Permutation
    (sortSlice less
       (fold_left (fun result kv => append result (g (snd kv))) (rangeMap o1 agg) []))
    (sortSlice less
       (fold_left (fun result kv => append result (g (snd kv))) (rangeMap o2 agg) [])).
Proof. by rewrite !ranged_sorted_perm. Qed.

Lemma aggregateByAgent_perm o1 o2 l :
  Permutation (aggregateByAgent o1 l) (aggregateByAgent o2 l).
Proof. apply (ranged_sorted_perm2 (fun v => v)). Qed.

Lemma aggregateBySessionType_perm o1 o2 l :
  Permutation (aggregateBySessionType o1 l) (aggregateBySessionType o2 l).
Proof. apply (ranged_sorted_perm2 (fun v => v)). Qed.

Lemma aggregateByModel_perm o1 o2 l :
  Permutation (aggregateByModel o1 l) (aggregateByModel o2 l).
Proof. apply (ranged_sorted_perm2 (fun v => v)). Qed.

Lemma aggregateByDay_perm o1 o2 l :
  Permutation (aggregateByDay o1 l) (aggregateByDay o2 l).
Proof. apply (ranged_sorted_perm2 (fun v => v)). Qed.

Lemma aggregateByCron_perm o1 o2 l :
  Permutation (aggregateByCron o1 l) (aggregateByCron o2 l).
Proof. apply (ranged_sorted_perm2 cronFinish). Qed.

Lemma aggregateByDay_deterministic o1 o2 l :
  aggregateByDay o1 l = aggregateByDay o2 l.
Proof.
  apply (sort_unique (fun a b => String.ltb (DaySummary.Date a) (DaySummary.Date b))).
  - intros x y. apply string_ltb_asym.
  - intros x y z. apply string_ltb_trans.
  - apply aggregateByDay_perm.
  - apply aggregateByDay_strict.
  - apply sortSlice_inOrder. intros x y. apply string_ltb_asym.
Qed.

Lemma aggregateBySessionType_deterministic o1 o2 l :
  Forall (fun s => validKind (Session.Type_ s)) l ->
  aggregateBySessionType o1 l = aggregateBySessionType o2 l.
Proof.
  intros Hvalid.
  apply (sort_unique
           (fun a b =>
              order_at (SessionTypeSummary.Type_ a) <? order_at (SessionTypeSummary.Type_ b))).
  - intros x y. lia.
  - intros x y z Hxy Hyz. apply Z.ltb_lt in Hxy, Hyz. apply Z.ltb_lt. lia.
  - apply aggregateBySessionType_perm.
  - eapply (Sorted_weaken (fun _ => True)).
    3: by apply aggregateBySessionType_strict.
    + by apply Forall_forall.
    + intros a b _ _ Hab. by apply Z.ltb_lt.
  - apply sortSlice_inOrder. intros x y. lia.
Qed.

(** In a dimension sorted by cost the two runs agree as soon as one of
    them has no two entries of equal cost. *)
Lemma cost_sorted_deterministic {A : Type} (c : A -> float64) (l1 l2 l : list A) :
  l1 = sortSlice (fun a b => fgt (c a) (c b)) l ->
  Permutation l1 l2 ->
  Sorted (inOrder (fun a b => fgt (c a) (c b))) l2 ->
  Sorted (fun a b => fgt (c a) (c b) = true) l1 ->
  l1 = l2.
Proof.
  intros _ Hperm Hs2 Hs1.
  apply (sort_unique (fun a b => fgt (c a) (c b))); try done.
  - intros x y. apply fgt_asym.
  - intros x y z. apply fgt_trans.
Qed.

(** C9, as the code has it. Two runs of [Generate] on the same sessions and
    configuration with the same [now] give the same period, totals,
    by-day list, anomalies and session details. The by-agent, by-kind,
    by-model and by-cron lists hold the same entries in both runs; their
    order comes from the order in which Go ranges over a map and from
    [sort.Slice], so it is the same in both runs when no two entries of the
    list tie on the sort key: for the cost-sorted lists when the costs of
    one run decrease strictly, for the by-kind list when every session has
    one of the three kinds. Entries that tie may come in either order. *)
Theorem C9_two_runs_agree_up_to_ties (env1 env2 : Env) (r : Reporter.t) :
  now env1 = now env2 ->
  let rep1 := Generate env1 r in
  let rep2 := Generate env2 r in
  Report.Period rep1 = Report.Period rep2
  /\ Report.TotalCost rep1 = Report.TotalCost rep2
  /\ Report.TotalTokens rep1 = Report.TotalTokens rep2
  /\ Report.TotalSessions rep1 = Report.TotalSessions rep2
  /\ Report.ByDay rep1 = Report.ByDay rep2
  /\ Report.Anomalies rep1 = Report.Anomalies rep2
  /\ Report.Sessions rep1 = Report.Sessions rep2
  /\ Permutation (Report.ByAgent rep1) (Report.ByAgent rep2)
  /\ Permutation (Report.BySessionType rep1) (Report.BySessionType rep2)
  /\ Permutation (Report.ByModel rep1) (Report.ByModel rep2)
  /\ sameEntries (Report.ByCron rep1) (Report.ByCron rep2)
  /\ (noTies AgentSummary.TotalCost (Report.ByAgent rep1) ->
      Report.ByAgent rep1 = Report.ByAgent rep2)
  /\ (noTies ModelSummary.TotalCost (Report.ByModel rep1) ->
      Report.ByModel rep1 = Report.ByModel rep2)
  /\ (forall l, Report.ByCron rep1 = Some l -> noTies CronSummary.TotalCost l ->
        Report.ByCron rep2 = Some l)
  /\ (Forall (fun s => validKind (Session.Type_ s)) (Reporter.sessions r) ->
      Report.BySessionType rep1 = Report.BySessionType rep2).
Proof.
  intros Hnow rep1 rep2. subst rep1 rep2. unfold Generate. simpl. rewrite <- Hnow.
  set (filtered := filterByPeriod (now env1) r (Reporter.sessions r)).
  split_and!; try done.
  - apply aggregateByDay_deterministic.
  - apply aggregateByAgent_perm.
  - apply aggregateBySessionType_perm.
  - apply aggregateByModel_perm.
  - destruct (_ || _); simpl; [|done]. apply aggregateByCron_perm.
  - intros Hno.
    apply (cost_sorted_deterministic AgentSummary.TotalCost _ _ _ eq_refl);
      [apply aggregateByAgent_perm| |exact Hno].
    apply sortSlice_inOrder. intros x y. apply fgt_asym.
  - intros Hno.
    apply (cost_sorted_deterministic ModelSummary.TotalCost _ _ _ eq_refl);
      [apply aggregateByModel_perm| |exact Hno].
    apply sortSlice_inOrder. intros x y. apply fgt_asym.
  - intros l. destruct (_ || _); [|done]. intros [= <-] Hno. f_equal. symmetry.
    apply (cost_sorted_deterministic CronSummary.TotalCost _ _ _ eq_refl);
      [apply aggregateByCron_perm| |exact Hno].
    apply sortSlice_inOrder. intros x y. apply fgt_asym.
  - intros Hvalid. apply aggregateBySessionType_deterministic.
    by apply Forall_filterByPeriod.
Qed.

Lemma C9_two_runs_witness :
  let r := New sampleSessions (configFor "all" true true) in
  Report.ByDay (Generate sampleEnv r) = Report.ByDay (Generate sampleEnv' r)
  /\ Report.ByAgent (Generate sampleEnv r) = Report.ByAgent (Generate sampleEnv' r)
  /\ Report.BySessionType (Generate sampleEnv r)
     = Report.BySessionType (Generate sampleEnv' r).
Proof.
  destruct (C9_two_runs_agree_up_to_ties sampleEnv sampleEnv'
              (New sampleSessions (configFor "all" true true)) eq_refl)
    as (_ & _ & _ & _ & Hday & _ & _ & _ & _ & _ & _ & Hagent & _ & _ & Hkind).
  split_and!; [exact Hday| |].
  - apply Hagent. unfold noTies. vm_compute. repeat constructor.
  - apply Hkind. repeat constructor; unfold validKind; simpl; tauto.
Defined.

(** C9 as stated fails when two entries tie: the same input and the same
    clock give the by-agent list in either order, according to the order
    in which the map is ranged over. *)
Lemma C9_counterexample_tied_agents_swap :
  let r := New tiedSessions (configFor "all" false false) in
  now sampleEnv = now sampleEnv'
  /\ generatedAt sampleEnv = generatedAt sampleEnv'
  /\ map AgentSummary.Agent (Report.ByAgent (Generate sampleEnv r)) = ["urza"; "amos"]
  /\ map AgentSummary.Agent (Report.ByAgent (Generate sampleEnv' r)) = ["amos"; "urza"]
  /\ Report.ByAgent (Generate sampleEnv r) <> Report.ByAgent (Generate sampleEnv' r).
Proof.
  split_and!; try (vm_compute; reflexivity).
  intros H. apply (f_equal (map AgentSummary.Agent)) in H.
  vm_compute in H. discriminate.
Qed.

(** * More of the code: the reporter, the parser and the command line *)

(** ** The period filter, for every period *)

Lemma filterByPeriod_keptBy now r l :
  filterByPeriod now r l = List.filter (keptBy now r) l.
Proof.
  unfold filterByPeriod, keptBy.
  destruct (_ || _).
  - symmetry. by apply filter_all.
  - destruct (String.eqb _ "yesterday").
    + rewrite (fold_append_filter _ (fun s => s)). simpl. by rewrite filter_id_map.
    + rewrite (fold_append_filter _ (fun s => s)). simpl. rewrite filter_id_map.
      by repeat destruct (String.eqb _ _).
Qed.

Lemma filter_sublist {A : Type} (p : A -> bool) (l : list A) :
  sublist (List.filter p l) l.
Proof.
  induction l as [|x l IH]; simpl; [constructor|].
  destruct (p x); by constructor.
Qed.

Lemma filter_filter_same {A : Type} (p : A -> bool) (l : list A) :
  List.filter p (List.filter p l) = List.filter p l.
Proof.
  induction l as [|x l IH]; simpl; [done|].
  destruct (p x) eqn:E; simpl; [rewrite E|]; congruence.
Qed.

(** X1. Whatever the period and the reading of the clock, [filterByPeriod]
    only drops sessions: its result is a sublist of its input, in the same
    order; filtering the result again keeps all of it; and a concatenation
    is filtered part by part. *)
Theorem filterByPeriod_only_drops (now : time.Time) (r : Reporter.t)
    (l : list Session.t) :
  sublist (filterByPeriod now r l) l
  /\ filterByPeriod now r (filterByPeriod now r l) = filterByPeriod now r l
  /\ (forall l', filterByPeriod now r (l ++ l')
                 = (filterByPeriod now r l ++ filterByPeriod now r l')%list).
Proof.
  rewrite !filterByPeriod_keptBy. split_and!.
  - apply filter_sublist.
  - apply filter_filter_same.
  - intros l'. rewrite !filterByPeriod_keptBy. apply List.filter_app.
Qed.

(** X2. Under ["week"] and ["month"] the filter keeps exactly the sessions
    with a known start strictly after [now.AddDate(0, 0, -7)],
    respectively [now.AddDate(0, -1, 0)]: the window has no upper bound,
    and a session that started exactly at the cutoff is dropped. *)
Theorem rolling_windows_are_strict (now : time.Time) (r : Reporter.t)
    (l : list Session.t) (s : Session.t) :
  let cutoff :=
    if String.eqb (Config.Period (Reporter.config r)) "week"
    then time.AddDate now 0 0 (-7) else time.AddDate now 0 (-1) 0 in
  withPeriod r "week" \/ withPeriod r "month" ->
  (In s (filterByPeriod now r l)
   <-> In s l /\ time.IsZero (Session.StartedAt s) = false
       /\ time.After (Session.StartedAt s) cutoff = true)
  /\ (time.Equal (Session.StartedAt s) cutoff = true -> ~ In s (filterByPeriod now r l)).
Proof.
  intros cutoff Hp.
  assert (E : filterByPeriod now r l = List.filter (keptAfter cutoff) l).
  { subst cutoff. destruct Hp as [Hp|Hp].
    - rewrite (filterByPeriod_week _ _ _ Hp). unfold withPeriod in Hp. by rewrite Hp.
    - rewrite (filterByPeriod_month _ _ _ Hp). unfold withPeriod in Hp. by rewrite Hp. }
  rewrite E. split.
  - rewrite List.filter_In. unfold keptAfter.
    rewrite andb_true_iff, negb_true_iff. tauto.
  - intros Heq. apply filter_drops. by apply keptAfter_at_cutoff.
Qed.

(** X2 on the sample sessions: under ["week"] the session of yesterday
    evening is kept for it started after the cutoff. *)
Lemma rolling_windows_witness :
  (In lateYesterday
     (filterByPeriod sampleNow (New sampleSessions (configFor "week" false false))
        sampleSessions)
   <-> In lateYesterday sampleSessions
       /\ time.IsZero (Session.StartedAt lateYesterday) = false
       /\ time.After (Session.StartedAt lateYesterday) (time.AddDate sampleNow 0 0 (-7))
          = true)
  /\ (time.Equal (Session.StartedAt lateYesterday) (time.AddDate sampleNow 0 0 (-7)) = true ->
      ~ In lateYesterday
          (filterByPeriod sampleNow (New sampleSessions (configFor "week" false false))
             sampleSessions)).
Proof.
  apply (rolling_windows_are_strict sampleNow
           (New sampleSessions (configFor "week" false false)) sampleSessions
           lateYesterday).
  left. reflexivity.
Defined.

(** ** Substrings, again *)

Lemma string_app_assoc (a b c : string) : (a +:+ b) +:+ c = a +:+ b +:+ c.
Proof.
  induction a as [|x a IH]; [done|].
  change (String x ((a +:+ b) +:+ c) = String x (a +:+ b +:+ c)). by rewrite IH.
Qed.

Lemma isSubstring_trans a b c : isSubstring a b -> isSubstring b c -> isSubstring a c.
Proof.
  intros (p1 & q1 & ->) (p2 & q2 & ->).
  exists (p2 +:+ p1), (q1 +:+ q2).
  by rewrite !string_app_assoc.
Qed.

(** X3. [findInString] alone decides whether [substr] occurs in [s], also
    when [substr] is empty or longer than [s]; so [contains] returns what
    [findInString] returns: its tests of the lengths, of equality, of the
    prefix and of the suffix never change the result. And
    [containsOpus(model)] is [contains(model, "opus")]: a model name holds
    one of the three fragments exactly when it holds ["opus"]; the
    fragments ["claude-opus"] and ["claude-3-opus"] add nothing. *)
Theorem contains_and_containsOpus_decide_substring :
  (forall s substr : string,
     (findInString s substr = true <-> isSubstring substr s)
     /\ contains s substr = findInString s substr)
  /\ (forall model : string,
        containsOpus model = contains model "opus"
        /\ (containsOpus model = true <-> isSubstring "opus" model)).
Proof.
  split.
  { intros s substr.
    assert (F : findInString s substr = true <-> isSubstring substr s).
    { split.
      - unfold findInString. intros H. apply findFrom_true in H as [j H].
        by apply substring_inv in H.
      - intros (pre & post & ->). unfold findInString.
        apply (findFrom_hit _ _ (String.length pre)); [|apply substring_at].
        rewrite !string_app_length. lia. }
    split; [exact F|].
    pose proof (contains_spec s substr) as C.
    destruct (contains s substr), (findInString s substr); try done.
    - symmetry. apply F, C. done.
    - apply C, F. done. }
  { intros model.
    assert (E : containsOpus model = true <-> isSubstring "opus" model).
    { rewrite containsOpus_spec. split.
      - intros (f & Hin & Hsub).
        apply (isSubstring_trans _ f); [|done].
        simpl in Hin. destruct Hin as [ <- | [ <- | [ <- | [] ] ] ].
        + by exists "", "".
        + by exists "claude-", "".
        + by exists "claude-3-", "".
      - intros H. exists "opus". split; [|done]. simpl. by left. }
    split; [|exact E].
    pose proof (contains_spec model "opus") as C.
    destruct (containsOpus model), (contains model "opus"); try done.
    - symmetry. apply C, E. done.
    - apply E, C. done. }
Qed.

(** ** The anomaly detector: how many flags, and for which threshold *)

Lemma filter_length_le {A : Type} (p : A -> bool) (l : list A) :
  (length (List.filter p l) <= length l)%nat.
Proof. induction l as [|x l IH]; simpl; [lia|]. destruct (p x); simpl; lia. Qed.

Lemma filter_exclusive_length {A : Type} (p q : A -> bool) (l : list A) :
  (forall x, p x = true -> q x = false) ->
  (length (List.filter p l) + length (List.filter q l) <= length l)%nat.
Proof.
  intros H. induction l as [|x l IH]; simpl; [lia|].
  destruct (p x) eqn:E; [rewrite (H _ E)|destruct (q x)]; simpl; lia.
Qed.

Lemma highToken_excludes_overkill s : highTokenRule s = true -> opusOverkillRule s = false.
Proof.
  unfold highTokenRule, opusOverkillRule. intros H.
  apply andb_false_iff. right. apply Z.ltb_ge. apply Z.gtb_lt in H. lia.
Qed.

Lemma filter_map_const {A B : Type} (p : B -> bool) (f : A -> B) (l : list A) (b : bool) :
  (forall x, p (f x) = b) ->
  List.filter p (map f l) = if b then map f l else [].
Proof.
  intros H. induction l as [|x l IH]; simpl; [by destruct b|].
  rewrite H, IH. by destruct b.
Qed.

Lemma flagged_expensive r l :
  flagged "expensive_cron" (detectAnomalies r l)
  = map Session.ID (List.filter (expensiveCronRule (Config.Threshold (Reporter.config r))) l).
Proof.
  unfold flagged. rewrite detectAnomalies_concat, !List.filter_app.
  rewrite (filter_map_const _ (expensiveCron r) _ true) by done.
  rewrite (filter_map_const _ highTokenCount _ false) by done.
  rewrite (filter_map_const _ opusOverkill _ false) by done.
  simpl. rewrite ?app_nil_r, map_map. done.
Qed.

Lemma flagged_high r l :
  flagged "high_token_count" (detectAnomalies r l)
  = map Session.ID (List.filter highTokenRule l).
Proof.
  unfold flagged. rewrite detectAnomalies_concat, !List.filter_app.
  rewrite (filter_map_const _ (expensiveCron r) _ false) by done.
  rewrite (filter_map_const _ highTokenCount _ true) by done.
  rewrite (filter_map_const _ opusOverkill _ false) by done.
  simpl. rewrite ?app_nil_r, map_map. done.
Qed.

Lemma flagged_overkill r l :
  flagged "opus_overkill" (detectAnomalies r l)
  = map Session.ID (List.filter opusOverkillRule l).
Proof.
  unfold flagged. rewrite detectAnomalies_concat, !List.filter_app.
  rewrite (filter_map_const _ (expensiveCron r) _ false) by done.
  rewrite (filter_map_const _ highTokenCount _ false) by done.
  rewrite (filter_map_const _ opusOverkill _ true) by done.
  simpl. rewrite map_map. done.
Qed.

(** X4. No session is flagged both for a high token count and for an
    overkill of Opus, so [detectAnomalies] returns at most two flags for
    each session; and every flag carries the id, the agent and the cost of
    a session of the input. *)
Theorem at_most_two_flags_per_session (r : Reporter.t) (sessions : list Session.t) :
  (forall s, highTokenRule s = true -> opusOverkillRule s = false)
  /\ (length (detectAnomalies r sessions) <= 2 * length sessions)%nat
  /\ (forall a, In a (detectAnomalies r sessions) ->
        exists s, In s sessions /\ Anomaly.SessionID a = Session.ID s
                  /\ Anomaly.Agent a = Session.Agent s
                  /\ Anomaly.Cost a = Usage.CostTotal (Session.Usage s)).
Proof.
  split_and!.
  - apply highToken_excludes_overkill.
  - rewrite detectAnomalies_concat, !length_app, !length_map.
    pose proof (filter_length_le
                  (expensiveCronRule (Config.Threshold (Reporter.config r))) sessions).
    pose proof (filter_exclusive_length highTokenRule opusOverkillRule sessions
                  highToken_excludes_overkill).
    lia.
  - intros a. rewrite detectAnomalies_concat, !in_app_iff, !in_map_iff.
    intros [ (s & <- & Hs) | [ (s & <- & Hs) | (s & <- & Hs) ] ];
      apply List.filter_In in Hs as [Hs _]; by exists s.
Qed.

Lemma filter_implies_sublist {A : Type} (p q : A -> bool) (l : list A) :
  (forall x, p x = true -> q x = true) ->
  sublist (List.filter p l) (List.filter q l).
Proof.
  intros H. induction l as [|x l IH]; simpl; [constructor|].
  destruct (p x) eqn:E; [rewrite (H _ E); by constructor|].
  destruct (q x); [by constructor|done].
Qed.

Lemma sublist_map {A B : Type} (f : A -> B) (l1 l2 : list A) :
  sublist l1 l2 -> sublist (map f l1) (map f l2).
Proof. induction 1; simpl; by constructor. Qed.

(** X5. Raising the threshold only removes flags: with a threshold [t]
    greater than or equal to the configured one, the sessions flagged
    [expensive_cron] are a sublist of those flagged before, and the
    sessions flagged by the other two rules are the same. *)
Theorem raising_the_threshold_only_removes_flags (r : Reporter.t)
    (sessions : list Session.t) (t : float64) :
  fge t (Config.Threshold (Reporter.config r)) = true ->
  let r' := New (Reporter.sessions r) (setThreshold t (Reporter.config r)) in
  sublist (flagged "expensive_cron" (detectAnomalies r' sessions))
    (flagged "expensive_cron" (detectAnomalies r sessions))
  /\ flagged "high_token_count" (detectAnomalies r' sessions)
     = flagged "high_token_count" (detectAnomalies r sessions)
  /\ flagged "opus_overkill" (detectAnomalies r' sessions)
     = flagged "opus_overkill" (detectAnomalies r sessions).
Proof.
  intros Ht r'. rewrite !flagged_expensive, !flagged_high, !flagged_overkill.
  split_and!; [|done..].
  apply sublist_map, filter_implies_sublist. intros s.
  unfold expensiveCronRule. simpl. rewrite !andb_true_iff. intros [Hc Hg].
  split; [done|].
  apply fgt_spec in Hg as (Hn1 & Hn2 & Hlt).
  apply fge_spec in Ht as (_ & Hn3 & Hle).
  apply fgt_spec. split_and!; [done..|].
  destruct Hle as [Hle|Hle].
  - by eapply flt_trans.
  - eapply fsame_flt_l; [|exact Hlt]. by apply fsame_sym.
Qed.

(** X5 on the sample sessions, with the threshold raised from 0.5 to 5. *)
Lemma raising_the_threshold_witness :
  let r := New sampleSessions (configFor "all" false false) in
  let r' := New (Reporter.sessions r) (setThreshold 5%float (Reporter.config r)) in
  sublist (flagged "expensive_cron" (detectAnomalies r' sampleSessions))
    (flagged "expensive_cron" (detectAnomalies r sampleSessions))
  /\ flagged "high_token_count" (detectAnomalies r' sampleSessions)
     = flagged "high_token_count" (detectAnomalies r sampleSessions)
  /\ flagged "opus_overkill" (detectAnomalies r' sampleSessions)
     = flagged "opus_overkill" (detectAnomalies r sampleSessions).
Proof.
  apply (raising_the_threshold_only_removes_flags
           (New sampleSessions (configFor "all" false false)) sampleSessions 5%float).
  reflexivity.
Defined.

(** ** The keys of a dimension *)

Lemma groupOf_nonempty `{Countable K} (key : Session.t -> option K) (k : K) l :
  groupOf key k l <> [] <-> exists s, In s l /\ key s = Some k.
Proof.
  unfold groupOf. split.
  - intros Hne. destruct (List.filter _ l) as [|s g] eqn:E; [done|].
    assert (Hin : In s (List.filter (fun s => bool_decide (key s = Some k)) l))
      by (rewrite E; by left).
    apply List.filter_In in Hin as [Hin Hk]. apply bool_decide_eq_true in Hk. eauto.
  - intros (s & Hin & Hk) E.
    assert (Hs : In s (List.filter (fun s => bool_decide (key s = Some k)) l)).
    { apply List.filter_In. split; [done|]. by apply bool_decide_eq_true. }
    by rewrite E in Hs.
Qed.

Lemma aggregate_keys `{Countable K} {V W : Type}
    (key : Session.t -> option K) (init : K -> V) (upd : V -> Session.t -> V)
    (g : V -> W) (kf : W -> K) (less : W -> W -> bool) (o : MapOrder) l :
  (forall k, kf (g (init k)) = k) ->
  (forall v s, kf (g (upd v s)) = kf (g v)) ->
  let result :=
    sortSlice less
      (fold_left (fun result kv => append result (g (snd kv)))
         (rangeMap o (fold_left (groupStep key init upd) l ∅)) []) in
  NoDup (map kf result)
  /\ (forall k, In k (map kf result) <-> exists s, In s l /\ key s = Some k).
Proof.
  intros Hinit Hupd result.
  assert (Hk : forall k grp, kf (g (fold_left upd grp (init k))) = k).
  { intros k grp.
    by rewrite (fold_upd_const upd (fun v => kf (g v)) Hupd), Hinit. }
  split.
  - subst result.
    rewrite (Permutation_map kf (ranged_sorted_perm g less o _)).
    rewrite map_map.
    assert (E : map (fun kv => kf (g (snd kv)))
                  (map_to_list (fold_left (groupStep key init upd) l ∅))
                = map fst (map_to_list (fold_left (groupStep key init upd) l ∅))).
    { apply map_ext_in. intros [k v] Hin. simpl.
      apply list_elem_of_In, elem_of_map_to_list in Hin.
      rewrite fold_groupStep_empty in Hin.
      destruct (groupOf key k l) eqn:E; [done|]. injection Hin as <-.
      apply (Hk k (_ :: _)). }
    rewrite E. apply NoDup_fst_map_to_list.
  - intros k. rewrite <- groupOf_nonempty. rewrite in_map_iff. split.
    + intros (x & <- & Hx). apply aggregate_entries in Hx as (k' & Hne & ->).
      by rewrite Hk.
    + intros Hne. exists (g (fold_left upd (groupOf key k l) (init k))).
      split; [apply Hk|]. apply aggregate_entries. eauto.
Qed.

(** X6. Every dimension has exactly one entry for each key that occurs:
    the keys of its entries are distinct, and a key has an entry exactly
    when a session has that key. The keys are the agent; the kind; the
    model name, ["unknown"] for the empty one; the date of a known start;
    the name and id of a cron run. *)
Theorem one_entry_per_key (o : MapOrder) (l : list Session.t) :
  (NoDup (map AgentSummary.Agent (aggregateByAgent o l))
   /\ (forall k, In k (map AgentSummary.Agent (aggregateByAgent o l))
                 <-> exists s, In s l /\ Session.Agent s = k))
  /\ (NoDup (map SessionTypeSummary.Type_ (aggregateBySessionType o l))
      /\ (forall k, In k (map SessionTypeSummary.Type_ (aggregateBySessionType o l))
                    <-> exists s, In s l /\ Session.Type_ s = k))
  /\ (NoDup (map ModelSummary.Model (aggregateByModel o l))
      /\ (forall k, In k (map ModelSummary.Model (aggregateByModel o l))
                    <-> exists s, In s l /\ modelName s = k))
  /\ (NoDup (map DaySummary.Date (aggregateByDay o l))
      /\ (forall k, In k (map DaySummary.Date (aggregateByDay o l))
                    <-> exists s, In s l /\ time.IsZero (Session.StartedAt s) = false
                                  /\ time.Format_date (Session.StartedAt s) = k))
  /\ (NoDup (map (fun e => (CronSummary.CronName e, CronSummary.CronID e))
               (aggregateByCron o l))
      /\ (forall k, In k (map (fun e => (CronSummary.CronName e, CronSummary.CronID e))
                            (aggregateByCron o l))
                    <-> exists s, In s l /\ Session.Type_ s = SessionTypeCron
                                  /\ (Session.CronName s, Session.CronID s) = k)).
Proof.
  split_and!.
  - rewrite aggregateByAgent_group.
    apply (aggregate_keys agentKey agentInit agentUpd (fun v => v) AgentSummary.Agent);
      done.
  - intros k. rewrite aggregateByAgent_group.
    rewrite (proj2 (aggregate_keys agentKey agentInit agentUpd (fun v => v)
                      AgentSummary.Agent _ o l ltac:(done) ltac:(done))).
    unfold agentKey. split; intros (s & ? & ?); exists s; split; congruence.
  - rewrite aggregateBySessionType_group.
    apply (aggregate_keys typeKey typeInit typeUpd (fun v => v) SessionTypeSummary.Type_);
      done.
  - intros k. rewrite aggregateBySessionType_group.
    rewrite (proj2 (aggregate_keys typeKey typeInit typeUpd (fun v => v)
                      SessionTypeSummary.Type_ _ o l ltac:(done) ltac:(done))).
    unfold typeKey.
    split; [intros (s & ? & [= <-]); by exists s|intros (s & ? & <-); by exists s].
  - rewrite aggregateByModel_group.
    apply (aggregate_keys modelKey modelInit modelUpd (fun v => v) ModelSummary.Model);
      done.
  - intros k. rewrite aggregateByModel_group.
    rewrite (proj2 (aggregate_keys modelKey modelInit modelUpd (fun v => v)
                      ModelSummary.Model _ o l ltac:(done) ltac:(done))).
    unfold modelKey, modelName. split; intros (s & ? & ?); exists s; split; congruence.
  - rewrite aggregateByDay_group.
    apply (aggregate_keys dayKey dayInit dayUpd (fun v => v) DaySummary.Date); done.
  - intros k. rewrite aggregateByDay_group.
    rewrite (proj2 (aggregate_keys dayKey dayInit dayUpd (fun v => v)
                      DaySummary.Date _ o l ltac:(done) ltac:(done))).
    unfold dayKey. split.
    + intros (s & ? & Hk). exists s.
      destruct (time.IsZero (Session.StartedAt s)); [done|]. split_and!; congruence.
    + intros (s & ? & Hz & Hk). exists s. rewrite Hz. split; congruence.
  - rewrite aggregateByCron_group.
    apply (aggregate_keys cronKey cronInit cronUpd cronFinish
             (fun e => (CronSummary.CronName e, CronSummary.CronID e))).
    + by intros [].
    + intros v s. unfold cronFinish, cronUpd. simpl.
      by repeat case_match.
  - intros k. rewrite aggregateByCron_group.
    rewrite (proj2 (aggregate_keys cronKey cronInit cronUpd cronFinish
                      (fun e => (CronSummary.CronName e, CronSummary.CronID e)) _ o l
                      ltac:(by intros [])
                      ltac:(intros v s; unfold cronFinish, cronUpd; simpl;
                            by repeat case_match))).
    unfold cronKey. split.
    + intros (s & ? & Hk). exists s.
      destruct (String.eqb (Session.Type_ s) SessionTypeCron) eqn:E; [|done].
      apply String.eqb_eq in E. split_and!; congruence.
    + intros (s & ? & Hc & Hk). exists s. rewrite Hc. simpl. split; congruence.
Qed.

(** ** Models without a name and sessions that are no cron runs *)

Lemma fold_left_map {A B C : Type} (f : A -> C -> A) (h : B -> C) l a :
  fold_left f (map h l) a = fold_left (fun a x => f a (h x)) l a.
Proof. revert a. induction l as [|x l IH]; intros a; simpl; [done|]. apply IH. Qed.

Lemma modelStep_namedModel agg s : modelStep agg (namedModel s) = modelStep agg s.
Proof.
  unfold modelStep, namedModel, modelName. simpl.
  destruct (String.eqb (Usage.Model (Session.Usage s)) "") eqn:E; simpl; [done|].
  by rewrite E.
Qed.

(** X7. [aggregateByModel] files the sessions without a model name under
    ["unknown"], together with the sessions whose model is ["unknown"]: no
    entry has the empty name, the entry ["unknown"] exists exactly when a
    session has the empty or that name, and giving every session the name
    it is filed under does not change the result. *)
Theorem empty_model_is_filed_under_unknown (o : MapOrder) (l : list Session.t) :
  ~ In "" (map ModelSummary.Model (aggregateByModel o l))
  /\ (In "unknown" (map ModelSummary.Model (aggregateByModel o l))
      <-> exists s, In s l /\ (Usage.Model (Session.Usage s) = ""
                               \/ Usage.Model (Session.Usage s) = "unknown"))
  /\ aggregateByModel o (map namedModel l) = aggregateByModel o l.
Proof.
  assert (K : forall k, In k (map ModelSummary.Model (aggregateByModel o l))
                        <-> exists s, In s l /\ modelName s = k).
  { intros k. rewrite aggregateByModel_group.
    rewrite (proj2 (aggregate_keys modelKey modelInit modelUpd (fun v => v)
                      ModelSummary.Model _ o l ltac:(done) ltac:(done))).
    unfold modelKey, modelName. split; intros (s & ? & ?); exists s; split; congruence. }
  split_and!.
  - rewrite K. intros (s & _ & Hs). unfold modelName in Hs.
    destruct (String.eqb _ "") eqn:E; [done|]. by apply String.eqb_neq in E.
  - rewrite K. unfold modelName. split; intros (s & Hin & Hs); exists s; (split; [done|]).
    + destruct (String.eqb _ "") eqn:E; [left; by apply String.eqb_eq|by right].
    + destruct Hs as [ -> | -> ]; done.
  - unfold aggregateByModel. rewrite fold_left_map.
    by rewrite (fold_left_ext _ modelStep _ _ modelStep_namedModel).
Qed.

Lemma cronStep_not_cron agg s : isCron s = false -> cronStep agg s = agg.
Proof. unfold isCron, cronStep. by intros ->. Qed.

Lemma fold_cronStep_cron l agg :
  fold_left cronStep (List.filter isCron l) agg = fold_left cronStep l agg.
Proof.
  revert agg. induction l as [|s l IH]; intros agg; simpl; [done|].
  destruct (isCron s) eqn:Hk; simpl.
  - apply IH.
  - rewrite (cronStep_not_cron _ _ Hk). apply IH.
Qed.

Lemma keyed_cron s : keyed cronKey s = isCron s.
Proof. unfold keyed, cronKey, isCron. by destruct (String.eqb _ _). Qed.

Lemma isum_aggregate_finished `{Countable K} {V W : Type}
    (key : Session.t -> option K) (init : K -> V) (upd : V -> Session.t -> V)
    (g : V -> W) (f : W -> Z) (w : Session.t -> Z)
    (less : W -> W -> bool) (o : MapOrder) l :
  (forall k, f (g (init k)) = 0) ->
  (forall v s, f (g (upd v s)) = int_add (f (g v)) (w s)) ->
  isum (map f
          (sortSlice less
             (fold_left (fun result kv => append result (g (snd kv)))
                (rangeMap o (fold_left (groupStep key init upd) l ∅)) [])))
  = isum (map w (List.filter (keyed key) l)).
Proof.
  intros Hinit Hupd. rewrite !isum_wrap.
  rewrite (Zsum_perm _ _ (Permutation_map f (ranged_sorted_perm g less o _))).
  rewrite map_map.
  fold (msum (fun v => f (g v)) (fold_left (groupStep key init upd) l ∅)).
  rewrite (msum_fold key init upd (fun v => f (g v)) w Hinit Hupd). f_equal.
Qed.

Lemma Runs_cronFinish c : CronSummary.Runs (cronFinish c) = CronSummary.Runs c.
Proof. apply cronFinish_fields. Qed.

Lemma TotalTokens_cronFinish c :
  CronSummary.TotalTokens (cronFinish c) = CronSummary.TotalTokens c.
Proof. apply cronFinish_fields. Qed.

Lemma aggregateByCron_nil o : aggregateByCron o [] = [].
Proof.
  unfold aggregateByCron, rangeMap. simpl.
  rewrite map_to_list_empty, permute_nil. reflexivity.
Qed.

(** X8. [aggregateByCron] reads the cron runs only: it returns the same on
    the cron sessions of the list alone, nothing when there is none, and
    over its entries the runs add up to the number of cron sessions and
    the tokens to their tokens (as Go integers). *)
Theorem by_cron_counts_cron_runs_only (o : MapOrder) (l : list Session.t) :
  aggregateByCron o l = aggregateByCron o (List.filter isCron l)
  /\ isum (map CronSummary.Runs (aggregateByCron o l))
     = isum (map one (List.filter isCron l))
  /\ isum (map CronSummary.TotalTokens (aggregateByCron o l))
     = isum (map tokens (List.filter isCron l))
  /\ (Forall (fun s => Session.Type_ s <> SessionTypeCron) l -> aggregateByCron o l = []).
Proof.
  assert (E : aggregateByCron o l = aggregateByCron o (List.filter isCron l)).
  { unfold aggregateByCron. by rewrite fold_cronStep_cron. }
  split_and!.
  - exact E.
  - rewrite aggregateByCron_group.
    rewrite (isum_aggregate_finished cronKey cronInit cronUpd cronFinish
               CronSummary.Runs one).
    + by rewrite (filter_ext_all _ _ _ keyed_cron).
    + done.
    + intros v s. by rewrite !Runs_cronFinish.
  - rewrite aggregateByCron_group.
    rewrite (isum_aggregate_finished cronKey cronInit cronUpd cronFinish
               CronSummary.TotalTokens tokens).
    + by rewrite (filter_ext_all _ _ _ keyed_cron).
    + done.
    + intros v s. by rewrite !TotalTokens_cronFinish.
  - intros Hall. rewrite E.
    replace (List.filter isCron l) with (@nil Session.t); [apply aggregateByCron_nil|].
    symmetry. clear E. induction Hall as [|s l' Hs _ IH]; simpl; [reflexivity|].
    unfold isCron at 1. apply String.eqb_neq in Hs. by rewrite Hs.
Qed.

(** X9. [getSessionDetails] returns one detail for each session: its
    result is a permutation of the details of the sessions, it has their
    number, and its entries are the details of the sessions. *)
Theorem session_details_are_the_sessions (sessions : list Session.t) :
  Permutation (getSessionDetails sessions) (map sessionDetail sessions)
  /\ length (getSessionDetails sessions) = length sessions
  /\ (forall d, In d (getSessionDetails sessions)
                <-> exists s, In s sessions /\ d = sessionDetail s).
Proof.
  assert (P : Permutation (getSessionDetails sessions) (map sessionDetail sessions)).
  { rewrite getSessionDetails_sorts. apply sortSlice_perm. }
  split_and!.
  - exact P.
  - rewrite (Permutation_length P). apply length_map.
  - intros d. rewrite (Permutation_in' (eq_refl d) P), in_map_iff.
    split; intros (s & ? & ?); exists s; split; congruence.
Qed.

(** ** The report as a whole *)

Lemma aggregateByAgent_nil o : aggregateByAgent o [] = [].
Proof.
  unfold aggregateByAgent, rangeMap. simpl.
  rewrite map_to_list_empty, permute_nil. reflexivity.
Qed.

Lemma aggregateBySessionType_nil o : aggregateBySessionType o [] = [].
Proof.
  unfold aggregateBySessionType, rangeMap. simpl.
  rewrite map_to_list_empty, permute_nil. reflexivity.
Qed.

Lemma aggregateByModel_nil o : aggregateByModel o [] = [].
Proof.
  unfold aggregateByModel, rangeMap. simpl.
  rewrite map_to_list_empty, permute_nil. reflexivity.
Qed.

(** X10. When the period filter keeps no session, and so when there is
    none, the report has zero totals and empty lists; the lists of cron
    jobs and of sessions are empty but present when they are asked for,
    and absent otherwise. *)
Theorem nothing_kept_gives_the_empty_report (env : Env) (r : Reporter.t) :
  filterByPeriod (now env) r (Reporter.sessions r) = [] ->
  Generate env r = emptyReport env (Reporter.config r).
Proof.
  intros H. unfold Generate, emptyReport. rewrite H.
  rewrite aggregateByAgent_nil, aggregateBySessionType_nil, aggregateByModel_nil,
    aggregateByDay_nil, aggregateByCron_nil.
  reflexivity.
Qed.

(** X10 on two sessions of which none started today. *)
Lemma nothing_kept_witness :
  Generate sampleEnv (New [lateYesterday; undated] (configFor "today" true false))
  = emptyReport sampleEnv (configFor "today" true false).
Proof.
  apply (nothing_kept_gives_the_empty_report sampleEnv
           (New [lateYesterday; undated] (configFor "today" true false))).
  vm_compute. reflexivity.
Defined.

Lemma Generate_config env sessions c agent models :
  Generate env
    (New sessions
       (Config.mk (Config.Period c) agent (Config.Crons c) models (Config.Full c)
          (Config.Threshold c)))
  = Generate env (New sessions c).
Proof. destruct c. reflexivity. Qed.

(** X11. [Generate] reads neither [Config.Agent] nor [Config.Models]: the
    report is the same whatever they are. The reporter does not filter by
    agent, and the flag of the models does not switch the model dimension
    on or off: [runReport] writes, returns and prints the same with and
    without [--models]. *)
Theorem report_ignores_agent_and_models :
  (forall (env : Env) (sessions : list Session.t) (c : Config.t) (agent : string)
          (models : bool),
     Generate env
       (New sessions
          (Config.mk (Config.Period c) agent (Config.Crons c) models (Config.Full c)
             (Config.Threshold c)))
     = Generate env (New sessions c))
  /\ (forall (w : World) (f : Flags.t) (models : bool),
        runReport w (setModels models f) = runReport w f).
Proof.
  split; [apply Generate_config|].
  intros w f models. unfold runReport, setModels.
  cbn [Flags.agentsDir Flags.reportPeriod Flags.reportFormat Flags.reportAgent
       Flags.reportCrons Flags.reportModels Flags.reportFull Flags.reportThreshold].
  destruct (if String.eqb (Flags.agentsDir f) "" then _ else _) as [e|dir]; [done|].
  repeat (destruct (_ && _); [done|]). cbv zeta.
  destruct (ParseAll _ _ _) as [[err|sessions] stderr]; [done|].
  pose proof (Generate_config (runtime w) (map fst sessions) (configOf f)
                (Flags.reportAgent f) models) as H.
  unfold configOf in H.
  cbn [Config.Period Config.Crons Config.Full Config.Threshold] in H. by rewrite H.
Qed.

(** X12. [TotalSessions] is the number of sessions the period filter keeps,
    between 0 and the number of sessions given, as long as that number
    fits a Go [int]. *)
Theorem total_sessions_counts_the_kept_sessions (env : Env) (r : Reporter.t) :
  Z.of_nat (length (Reporter.sessions r)) <= max_int ->
  Report.TotalSessions (Generate env r)
  = Z.of_nat (length (filterByPeriod (now env) r (Reporter.sessions r)))
  /\ 0 <= Report.TotalSessions (Generate env r)
     <= Z.of_nat (length (Reporter.sessions r)).
Proof.
  intros Hlen.
  change (Report.TotalSessions (Generate env r))
    with (snd (totals (filterByPeriod (now env) r (Reporter.sessions r)))).
  rewrite totals_spec. cbn [snd].
  rewrite isum_wrap, Zsum_ones.
  assert (Hle : (length (filterByPeriod (now env) r (Reporter.sessions r))
                 <= length (Reporter.sessions r))%nat).
  { rewrite filterByPeriod_keptBy. apply filter_length_le. }
  rewrite wrap64_small; [lia|]. unfold min_int. unfold max_int in *. lia.
Qed.

(** X12 on the sample sessions and the period ["week"]. *)
Lemma total_sessions_witness :
  Report.TotalSessions (Generate sampleEnv (New sampleSessions (configFor "week" false false)))
  = Z.of_nat
      (length (filterByPeriod (now sampleEnv)
                 (New sampleSessions (configFor "week" false false))
                 (Reporter.sessions (New sampleSessions (configFor "week" false false)))))
  /\ 0 <= Report.TotalSessions
            (Generate sampleEnv (New sampleSessions (configFor "week" false false)))
     <= Z.of_nat
          (length (Reporter.sessions (New sampleSessions (configFor "week" false false)))).
Proof.
  apply (total_sessions_counts_the_kept_sessions sampleEnv
           (New sampleSessions (configFor "week" false false))).
  vm_compute. discriminate.
Defined.

(** X13. The input tokens and the output tokens of the entries by agent,
    and of the entries by model, add up to those of the sessions (as Go
    integers). *)
Theorem input_and_output_tokens_reconcile (o : MapOrder) (l : list Session.t) :
  isum (map AgentSummary.InputTokens (aggregateByAgent o l)) = isum (map inputTokens l)
  /\ isum (map AgentSummary.OutputTokens (aggregateByAgent o l))
     = isum (map outputTokens l)
  /\ isum (map ModelSummary.InputTokens (aggregateByModel o l)) = isum (map inputTokens l)
  /\ isum (map ModelSummary.OutputTokens (aggregateByModel o l))
     = isum (map outputTokens l).
Proof.
  rewrite aggregateByAgent_group, aggregateByModel_group. split_and!.
  - rewrite (isum_aggregate agentKey agentInit agentUpd AgentSummary.InputTokens
               inputTokens); [|done..]. by rewrite filter_all.
  - rewrite (isum_aggregate agentKey agentInit agentUpd AgentSummary.OutputTokens
               outputTokens); [|done..]. by rewrite filter_all.
  - rewrite (isum_aggregate modelKey modelInit modelUpd ModelSummary.InputTokens
               inputTokens); [|done..]. by rewrite filter_all.
  - rewrite (isum_aggregate modelKey modelInit modelUpd ModelSummary.OutputTokens
               outputTokens); [|done..]. by rewrite filter_all.
Qed.

(** ** [strings.Split] and [strings.Join] *)

Lemma string_cons_app c a b : String c a +:+ b = String c (a +:+ b).
Proof. reflexivity. Qed.

Lemma allBytes_app p a b : allBytes p (a +:+ b) = allBytes p a && allBytes p b.
Proof.
  induction a as [|x a IH]; [done|].
  rewrite string_cons_app. simpl. by rewrite IH, andb_assoc.
Qed.

Lemma allBytes_impl (p q : ascii -> bool) s :
  (forall c, p c = true -> q c = true) -> allBytes p s = true -> allBytes q s = true.
Proof.
  intros H. induction s as [|c s IH]; simpl; [done|].
  rewrite !andb_true_iff. intros [Hc Hs]. split; [by apply H|by apply IH].
Qed.

Lemma Split_nonempty s sep : Split s sep <> [].
Proof.
  destruct s as [|c s]; simpl; [done|].
  destruct (Ascii.eqb c sep); [done|]. by destruct (Split s sep).
Qed.

Lemma Split_none s sep :
  allBytes (fun c => negb (Ascii.eqb c sep)) s = true -> Split s sep = [s].
Proof.
  induction s as [|c s IH]; simpl; [done|].
  rewrite andb_true_iff, negb_true_iff. intros [-> Hs]. by rewrite (IH Hs).
Qed.

Lemma Split_app s t sep :
  Split (s +:+ String sep t) sep = (Split s sep ++ Split t sep)%list.
Proof.
  induction s as [|c s IH].
  - change ("" +:+ String sep t) with (String sep t). simpl.
    by rewrite Ascii.eqb_refl.
  - rewrite string_cons_app. simpl. rewrite IH.
    destruct (Ascii.eqb c sep); [done|].
    pose proof (Split_nonempty s sep).
    by destruct (Split s sep).
Qed.

Lemma Join_cons p ps sep :
  ps <> [] -> Join (p :: ps) sep = p +:+ sep +:+ Join ps sep.
Proof. by destruct ps. Qed.

Lemma Join_snoc ps x sep :
  ps <> [] -> Join (ps ++ [x]) sep = Join ps sep +:+ sep +:+ x.
Proof.
  induction ps as [|p ps IH]; [done|]. intros _.
  destruct ps as [|q ps]; [done|].
  change ((p :: q :: ps) ++ [x])%list with (p :: q :: (ps ++ [x]))%list.
  rewrite Join_cons by done.
  change (q :: (ps ++ [x]))%list with ((q :: ps) ++ [x])%list.
  rewrite IH by done.
  rewrite (Join_cons p (q :: ps)) by done. by rewrite !string_app_assoc.
Qed.

Lemma Join_Split s sep : Join (Split s sep) (String sep "") = s.
Proof.
  induction s as [|c s IH]; simpl; [done|].
  pose proof (Split_nonempty s sep) as Hne.
  destruct (Ascii.eqb c sep) eqn:E.
  - apply Ascii.eqb_eq in E as ->. rewrite Join_cons by done. by rewrite IH.
  - destruct (Split s sep) as [|p ps] eqn:Es; [done|].
    destruct ps as [|q ps].
    + simpl in *. by rewrite IH.
    + rewrite Join_cons by done. rewrite Join_cons in IH by done.
      rewrite string_cons_app. by rewrite IH.
Qed.

Lemma Split_parts s sep :
  Forall (fun p => allBytes (fun c => negb (Ascii.eqb c sep)) p = true) (Split s sep).
Proof.
  induction s as [|c s IH]; simpl; [by constructor|].
  destruct (Ascii.eqb c sep) eqn:E; [by constructor|].
  destruct (Split s sep) as [|p ps]; [constructor; [simpl; by rewrite E|done]|].
  inversion IH; subst. constructor; [simpl; by rewrite E|done].
Qed.

(** ** [deriveCronName] *)

Lemma allAlphaNumeric_spec s : allAlphaNumeric s = allBytes alphaNumeric s.
Proof.
  induction s as [|c s IH]; simpl; [done|]. rewrite IH. unfold alphaNumeric.
  rewrite !N.ltb_antisym.
  by destruct (97 <=? _)%N, (_ <=? 122)%N, (65 <=? _)%N, (_ <=? 90)%N, (48 <=? _)%N,
    (_ <=? 57)%N.
Qed.

Lemma isAlphaNumeric_spec s :
  isAlphaNumeric s = true <-> s <> "" /\ allBytes alphaNumeric s = true.
Proof.
  unfold isAlphaNumeric. rewrite allAlphaNumeric_spec.
  destruct (allBytes alphaNumeric s); [|intuition discriminate].
  destruct s; simpl; [intuition discriminate|]. intuition done.
Qed.

Lemma alphaNumeric_not_dash c :
  alphaNumeric c = true -> negb (Ascii.eqb c "-") = true.
Proof.
  intros H. apply negb_true_iff. destruct (Ascii.eqb c "-") eqn:E; [|done].
  apply Ascii.eqb_eq in E as ->. by vm_compute in H.
Qed.

Lemma nth_last_snoc {A : Type} (l : list A) (x d : A) :
  nth (length (l ++ [x]) - 1) (l ++ [x]) d = x.
Proof.
  rewrite length_app. simpl.
  replace (length l + 1 - 1)%nat with (length l) by lia.
  rewrite app_nth2 by lia. by rewrite Nat.sub_diag.
Qed.

Lemma firstn_snoc {A : Type} (l : list A) (x : A) :
  firstn (length (l ++ [x]) - 1) (l ++ [x]) = l.
Proof.
  rewrite length_app. simpl.
  replace (length l + 1 - 1)%nat with (length l + 0)%nat by lia.
  rewrite firstn_app_2. simpl. apply app_nil_r.
Qed.

Lemma deriveCronName_last name last :
  allBytes (fun c => negb (Ascii.eqb c "-")) last = true ->
  deriveCronName (name +:+ "-" +:+ last)
  = if (6 <=? String.length last)%nat && isAlphaNumeric last then name
    else name +:+ "-" +:+ last.
Proof.
  intros Hl. unfold deriveCronName.
  change (name +:+ "-" +:+ last) with (name +:+ String "-" last).
  rewrite Split_app, (Split_none last) by done.
  pose proof (Split_nonempty name "-") as Hne.
  assert (Hlen : (1 <? length (Split name "-" ++ [last]))%nat = true).
  { apply Nat.ltb_lt. rewrite length_app. simpl.
    destruct (Split name "-"); [done|simpl; lia]. }
  rewrite Hlen. cbv zeta. rewrite nth_last_snoc, firstn_snoc.
  destruct (_ && _); [|done]. apply (Join_Split name "-").
Qed.

(** X14. [deriveCronName] strips a trailing hash: for an id [name-hash]
    whose last part has at least 6 bytes, all of them ASCII letters or
    digits, it returns [name]. It returns its argument, or its argument
    without its last part [-hash], and then [hash] has at least 6 bytes,
    all of them ASCII letters or digits. An id whose last part is shorter
    or holds another byte, and an id without a dash, are returned as they
    are. *)
Theorem deriveCronName_keeps_or_strips (cronID : string) :
  (forall name hash,
     cronID = name +:+ "-" +:+ hash ->
     (6 <= String.length hash)%nat ->
     isAlphaNumeric hash = true ->
     deriveCronName cronID = name)
  /\ (deriveCronName cronID = cronID
   \/ exists hash,
        cronID = deriveCronName cronID +:+ "-" +:+ hash
        /\ (6 <= String.length hash)%nat /\ allBytes alphaNumeric hash = true)
  /\ (forall name last,
        cronID = name +:+ "-" +:+ last ->
        allBytes notDash last = true ->
        (String.length last < 6)%nat \/ allBytes alphaNumeric last = false ->
        deriveCronName cronID = cronID)
  /\ (allBytes notDash cronID = true -> deriveCronName cronID = cronID).
Proof.
  split_and!.
  - intros name hash -> Hlen Han. rewrite deriveCronName_last.
    + rewrite Han. apply Nat.leb_le in Hlen. by rewrite Hlen.
    + apply isAlphaNumeric_spec in Han as [_ Han].
      apply (allBytes_impl alphaNumeric); [apply alphaNumeric_not_dash|done].
  - unfold deriveCronName.
    destruct (1 <? length (Split cronID "-"))%nat eqn:Hlen; [|by left].
    cbv zeta.
    destruct (_ && _) eqn:Hc; [|by left]. right.
    apply andb_true_iff in Hc as [H6 Han]. apply Nat.leb_le in H6.
    apply isAlphaNumeric_spec in Han as [_ Han].
    apply Nat.ltb_lt in Hlen.
    destruct (exists_last (Split_nonempty cronID "-")) as (ps & x & E).
    rewrite E in *. rewrite nth_last_snoc in *. rewrite firstn_snoc.
    exists x. split_and!; [|done..].
    rewrite <- (Join_Split cronID "-") at 1. rewrite E.
    apply Join_snoc. intros ->. simpl in Hlen. lia.
  - intros name last -> Hl Hc. rewrite deriveCronName_last by done.
    destruct (6 <=? String.length last)%nat eqn:H6; [|done]. simpl.
    destruct Hc as [Hc|Hc]; [apply Nat.leb_le in H6; lia|].
    destruct (isAlphaNumeric last) eqn:Han; [|done].
    apply isAlphaNumeric_spec in Han as [_ Han]. congruence.
  - intros Hn. unfold deriveCronName. by rewrite (Split_none cronID "-").
Qed.

(** X14 on the id [daily-kickoff-abc123] of the tests. *)
Lemma deriveCronName_strips_witness :
  deriveCronName ("daily-kickoff" +:+ "-" +:+ "abc123") = "daily-kickoff".
Proof.
  apply (proj1 (deriveCronName_keeps_or_strips ("daily-kickoff" +:+ "-" +:+ "abc123"))
           "daily-kickoff" "abc123").
  - reflexivity.
  - simpl. lia.
  - reflexivity.
Defined.

(** ** The patterns of the session keys *)

Lemma stripPrefix_app l s : stripPrefix l (l +:+ s) = Some s.
Proof.
  induction l as [|c l IH]; [done|].
  rewrite string_cons_app. simpl. by rewrite Ascii.eqb_refl.
Qed.

Lemma stripPrefix_inv l s s' : stripPrefix l s = Some s' -> s = l +:+ s'.
Proof.
  revert s. induction l as [|c l IH]; intros s H; simpl in H.
  - by injection H as ->.
  - destruct s as [|d s]; [done|].
    destruct (Ascii.eqb c d) eqn:E; [|done].
    apply Ascii.eqb_eq in E as ->. rewrite string_cons_app. f_equal. by apply IH.
Qed.

Lemma greedy_inv class k s caps :
  greedy class k s = Some caps ->
  exists w s' caps',
    caps = w :: caps' /\ s = w +:+ s' /\ w <> "" /\ allBytes class w = true
    /\ k s' = Some caps'.
Proof.
  revert caps. induction s as [|c s IH]; intros caps H; simpl in H; [done|].
  destruct (class c) eqn:Hc; [|done].
  destruct (greedy class k s) as [[|cap caps0]|] eqn:G.
  - destruct (IH _ eq_refl) as (w & s' & caps' & ? & _); done.
  - injection H as <-.
    destruct (IH _ eq_refl) as (w & s' & caps' & [= -> ->] & -> & Hw & Ha & Hk).
    exists (String c w), s', caps'. split_and!; try done.
    simpl. by rewrite Hc, Ha.
  - destruct (k s) as [caps'|] eqn:Hk; [|done]. injection H as <-.
    exists (String c ""), s, caps'. split_and!; try done.
    simpl. by rewrite Hc.
Qed.

(** The longest run is the match when the rest of the pattern accepts what
    follows it. *)
Lemma greedy_longest class k w s' caps' :
  w <> "" -> allBytes class w = true ->
  (s' = "" \/ exists c t, s' = String c t /\ class c = false) ->
  k s' = Some caps' ->
  greedy class k (w +:+ s') = Some (w :: caps').
Proof.
  intros Hw Ha Hs Hk.
  assert (G0 : greedy class k s' = None).
  { destruct Hs as [->|(c & t & -> & Hc)]; simpl; [done|]. by rewrite Hc. }
  induction w as [|c w IH]; [done|].
  simpl in Ha. apply andb_true_iff in Ha as [Hc Ha].
  rewrite string_cons_app. simpl. rewrite Hc.
  destruct w as [|d w].
  - change ("" +:+ s') with s'. by rewrite G0, Hk.
  - by rewrite IH.
Qed.

(** Two strings that agree up to their first colon. *)
Lemma split_at_colon a b x y :
  allBytes notColon a = true -> allBytes notColon b = true ->
  a +:+ String ":" x = b +:+ String ":" y -> a = b /\ x = y.
Proof.
  revert b. induction a as [|c a IH]; intros b Ha Hb E.
  - destruct b as [|d b].
    + by injection E as ->.
    + rewrite string_cons_app in E. injection E as <- _.
      simpl in Hb. done.
  - destruct b as [|d b].
    + rewrite string_cons_app in E. injection E as -> _. simpl in Ha. done.
    + rewrite !string_cons_app in E. injection E as -> E.
      simpl in Ha, Hb. apply andb_true_iff in Ha as [_ Ha], Hb as [_ Hb].
      destruct (IH _ Ha Hb E) as [-> ->]. done.
Qed.

Lemma matchItems_Lit l rest s :
  matchItems (Lit l :: rest) s
  = match stripPrefix l s with Some s' => matchItems rest s' | None => None end.
Proof. reflexivity. Qed.

Lemma matchItems_CapPlus class rest s :
  matchItems (CapPlus class :: rest) s = greedy class (matchItems rest) s.
Proof. reflexivity. Qed.

Lemma matchItems_Lit_inv l rest s caps :
  matchItems (Lit l :: rest) s = Some caps ->
  exists s', s = l +:+ s' /\ matchItems rest s' = Some caps.
Proof.
  rewrite matchItems_Lit. destruct (stripPrefix l s) as [s'|] eqn:E; [|done].
  apply stripPrefix_inv in E. eauto.
Qed.

Lemma matchItems_CapPlus_inv class rest s caps :
  matchItems (CapPlus class :: rest) s = Some caps ->
  exists w s' caps',
    caps = w :: caps' /\ s = w +:+ s' /\ w <> "" /\ allBytes class w = true
    /\ matchItems rest s' = Some caps'.
Proof. rewrite matchItems_CapPlus. apply greedy_inv. Qed.

Lemma matchItems_end_inv s caps : matchItems [] s = Some caps -> s = "" /\ caps = [].
Proof. destruct s; simpl; [|done]. by intros [= <-]. Qed.

Lemma matchItems_Lit_app l rest s : matchItems (Lit l :: rest) (l +:+ s) = matchItems rest s.
Proof. by rewrite matchItems_Lit, stripPrefix_app. Qed.

Lemma matchItems_CapPlus_app class rest w s' caps' :
  w <> "" -> allBytes class w = true ->
  (s' = "" \/ exists c t, s' = String c t /\ class c = false) ->
  matchItems rest s' = Some caps' ->
  matchItems (CapPlus class :: rest) (w +:+ s') = Some (w :: caps').
Proof. rewrite matchItems_CapPlus. apply greedy_longest. Qed.

(** What the cron pattern matches, and its groups. *)
Lemma cronPattern_match id caps :
  matchItems cronPattern id = Some caps
  <-> exists name cron sid,
        segment name /\ segment cron /\ oneLine sid
        /\ id = "agent:" +:+ name +:+ ":cron:" +:+ cron +:+ ":run:" +:+ sid
        /\ caps = [name; cron; sid].
Proof.
  unfold cronPattern. split.
  - intros H.
    apply matchItems_Lit_inv in H as (s1 & -> & H).
    apply matchItems_CapPlus_inv in H as (name & s2 & caps2 & -> & -> & Hn & Hna & H).
    apply matchItems_Lit_inv in H as (s3 & -> & H).
    apply matchItems_CapPlus_inv in H as (cron & s4 & caps4 & -> & -> & Hc & Hca & H).
    apply matchItems_Lit_inv in H as (s5 & -> & H).
    apply matchItems_CapPlus_inv in H as (sid & s6 & caps6 & -> & -> & Hs & Hsa & H).
    apply matchItems_end_inv in H as [-> ->].
    rewrite string_app_nil_r.
    exists name, cron, sid. by split_and!.
  - intros (name & cron & sid & [Hn Hna] & [Hc Hca] & [Hs Hsa] & -> & ->).
    rewrite matchItems_Lit_app.
    apply matchItems_CapPlus_app; try done.
    { right. by exists ":"%char, ("cron:" +:+ cron +:+ ":run:" +:+ sid). }
    rewrite matchItems_Lit_app.
    apply matchItems_CapPlus_app; try done.
    { right. by exists ":"%char, ("run:" +:+ sid). }
    rewrite matchItems_Lit_app.
    rewrite <- (string_app_nil_r sid) at 1.
    apply matchItems_CapPlus_app; try done. by left.
Qed.

Lemma subagentPattern_match id caps :
  matchItems subagentPattern id = Some caps
  <-> exists name sid,
        segment name /\ oneLine sid
        /\ id = "agent:" +:+ name +:+ ":subagent:" +:+ sid
        /\ caps = [name; sid].
Proof.
  unfold subagentPattern. split.
  - intros H.
    apply matchItems_Lit_inv in H as (s1 & -> & H).
    apply matchItems_CapPlus_inv in H as (name & s2 & caps2 & -> & -> & Hn & Hna & H).
    apply matchItems_Lit_inv in H as (s3 & -> & H).
    apply matchItems_CapPlus_inv in H as (sid & s6 & caps6 & -> & -> & Hs & Hsa & H).
    apply matchItems_end_inv in H as [-> ->].
    rewrite string_app_nil_r.
    exists name, sid. by split_and!.
  - intros (name & sid & [Hn Hna] & [Hs Hsa] & -> & ->).
    rewrite matchItems_Lit_app.
    apply matchItems_CapPlus_app; try done.
    { right. by exists ":"%char, ("subagent:" +:+ sid). }
    rewrite matchItems_Lit_app.
    rewrite <- (string_app_nil_r sid) at 1.
    apply matchItems_CapPlus_app; try done. by left.
Qed.

(** ** [parseSessionKey] and [Key] *)

Lemma cronShape_not_subagent id name cron sid name' sid' :
  cronShape id name cron sid -> subagentShape id name' sid' -> False.
Proof.
  intros ([_ Hn] & _ & _ & ->) ([_ Hn'] & _ & E).
  apply (f_equal (stripPrefix "agent:")) in E. rewrite !stripPrefix_app in E.
  injection E as E.
  change (":cron:" +:+ cron +:+ ":run:" +:+ sid)
    with (String ":" ("cron:" +:+ cron +:+ ":run:" +:+ sid)) in E.
  change (":subagent:" +:+ sid') with (String ":" ("subagent:" +:+ sid')) in E.
  apply split_at_colon in E as [_ E]; [|done..].
  rewrite !string_cons_app in E. discriminate.
Qed.

Lemma parseSessionKey_cases s id :
  (exists name cron sid,
     cronShape id name cron sid
     /\ parseSessionKey s id
        = withKind s SessionTypeCron cron (deriveCronName cron) (Session.SubagentID s))
  \/ (exists name sid,
        subagentShape id name sid
        /\ parseSessionKey s id
           = withKind s SessionTypeSubagent (Session.CronID s) (Session.CronName s) sid)
  \/ ((forall name cron sid, ~ cronShape id name cron sid)
      /\ (forall name sid, ~ subagentShape id name sid)
      /\ parseSessionKey s id
         = withKind s SessionTypeInteractive (Session.CronID s) (Session.CronName s)
             (Session.SubagentID s)).
Proof.
  unfold parseSessionKey, FindStringSubmatch.
  destruct (matchItems cronPattern id) as [caps|] eqn:Ec.
  { left. apply cronPattern_match in Ec as (name & cron & sid & ? & ? & ? & ? & ->).
    exists name, cron, sid. by split. }
  assert (Hc : forall name cron sid, ~ cronShape id name cron sid).
  { intros name cron sid (? & ? & ? & ?).
    assert (matchItems cronPattern id = Some [name; cron; sid]) as E
      by (apply cronPattern_match; by exists name, cron, sid).
    congruence. }
  right. simpl length at 1. cbv iota. simpl Nat.eqb at 1. cbv iota.
  destruct (matchItems subagentPattern id) as [caps|] eqn:Es.
  { left. apply subagentPattern_match in Es as (name & sid & ? & ? & ? & ->).
    exists name, sid. by split. }
  right. split; [done|]. split.
  - intros name sid (? & ? & ?).
    assert (matchItems subagentPattern id = Some [name; sid]) as E
      by (apply subagentPattern_match; by exists name, sid).
    congruence.
  - simpl length at 1. simpl Nat.eqb at 1. cbv iota.
    by destruct (_ =? 2)%nat.
Qed.

(** X15. [parseSessionKey] always sets one of the three kinds, and changes
    no field but the kind, the cron id and name and the sub-agent id; when
    it sets the kind interactive it changes the kind only. *)
Theorem parseSessionKey_sets_only_the_kind_fields (s : Session.t) (sessionID : string) :
  let p := parseSessionKey s sessionID in
  validKind (Session.Type_ p)
  /\ Session.ID p = Session.ID s /\ Session.Agent p = Session.Agent s
  /\ Session.FilePath p = Session.FilePath s /\ Session.Usage p = Session.Usage s
  /\ Session.StartedAt p = Session.StartedAt s /\ Session.Duration p = Session.Duration s
  /\ (Session.Type_ p = SessionTypeInteractive ->
      Session.CronID p = Session.CronID s /\ Session.CronName p = Session.CronName s
      /\ Session.SubagentID p = Session.SubagentID s).
Proof.
  intros p. subst p. unfold validKind.
  destruct (parseSessionKey_cases s sessionID)
    as [ (name & cron & sid & _ & ->) | [ (name & sid & _ & ->) | (_ & _ & ->) ] ];
    simpl; split_and!; try done; auto.
Qed.

(** X16. [parseSessionKey] sets the kind cron exactly for the ids
    [agent:{name}:cron:{id}:run:{sid}] where [name] and [id] are not empty
    and have no colon and [sid] is not empty and has no newline; it then
    sets the cron id to [id] and the cron name to [deriveCronName(id)],
    and leaves the sub-agent id. *)
Theorem parseSessionKey_recognises_cron_runs (s : Session.t) (sessionID : string) :
  let p := parseSessionKey s sessionID in
  (Session.Type_ p = SessionTypeCron
   <-> exists name cron sid, cronShape sessionID name cron sid)
  /\ (forall name cron sid,
        cronShape sessionID name cron sid ->
        Session.CronID p = cron /\ Session.CronName p = deriveCronName cron
        /\ Session.SubagentID p = Session.SubagentID s).
Proof.
  intros p. subst p.
  destruct (parseSessionKey_cases s sessionID)
    as [ (name & cron & sid & Hs & ->) | [ (name & sid & Hs & ->) | (Hc & _ & ->) ] ];
    simpl.
  - split; [split; eauto|].
    intros name' cron' sid' Hs'.
    destruct Hs as (? & ? & ? & E), Hs' as (? & ? & ? & E').
    assert (Some [name; cron; sid] = Some [name'; cron'; sid']) as [= -> -> ->].
    { rewrite <- (proj2 (cronPattern_match sessionID [name; cron; sid]))
        by (by exists name, cron, sid).
      apply cronPattern_match. by exists name', cron', sid'. }
    done.
  - split.
    + split; [done|]. intros (n & c & i & Hc). by destruct (cronShape_not_subagent _ _ _ _ _ _ Hc Hs).
    + intros n c i Hc. by destruct (cronShape_not_subagent _ _ _ _ _ _ Hc Hs).
  - split.
    + split; [done|]. intros (n & c & i & Hc'). by destruct (Hc _ _ _ Hc').
    + intros n c i Hc'. by destruct (Hc _ _ _ Hc').
Qed.

(** X17. [parseSessionKey] sets the kind sub-agent exactly for the ids
    [agent:{name}:subagent:{sid}] where [name] is not empty and has no
    colon and [sid] is not empty and has no newline; it then sets the
    sub-agent id to [sid] and leaves the cron id and name. Every id of
    neither form, also one that does not start with [agent:], gives the
    kind interactive. *)
Theorem parseSessionKey_recognises_subagents (s : Session.t) (sessionID : string) :
  let p := parseSessionKey s sessionID in
  (Session.Type_ p = SessionTypeSubagent
   <-> exists name sid, subagentShape sessionID name sid)
  /\ (forall name sid,
        subagentShape sessionID name sid ->
        Session.SubagentID p = sid /\ Session.CronID p = Session.CronID s
        /\ Session.CronName p = Session.CronName s)
  /\ (Session.Type_ p = SessionTypeInteractive
      <-> (forall name cron sid, ~ cronShape sessionID name cron sid)
          /\ (forall name sid, ~ subagentShape sessionID name sid)).
Proof.
  intros p. subst p.
  destruct (parseSessionKey_cases s sessionID)
    as [ (name & cron & sid & Hs & ->) | [ (name & sid & Hs & ->) | (Hc & Hn & ->) ] ];
    simpl.
  - split_and!.
    + split; [done|]. intros (n & i & Hs'). by destruct (cronShape_not_subagent _ _ _ _ _ _ Hs Hs').
    + intros n i Hs'. by destruct (cronShape_not_subagent _ _ _ _ _ _ Hs Hs').
    + split; [done|]. intros [Hc _]. by destruct (Hc _ _ _ Hs).
  - split_and!.
    + split; eauto.
    + intros name' sid' Hs'.
      destruct Hs as (? & ? & E), Hs' as (? & ? & E').
      assert (Some [name; sid] = Some [name'; sid']) as [= -> ->].
      { rewrite <- (proj2 (subagentPattern_match sessionID [name; sid]))
          by (by exists name, sid).
        apply subagentPattern_match. by exists name', sid'. }
      done.
    + split; [done|]. intros [_ Hn]. by destruct (Hn _ _ Hs).
  - split_and!.
    + split; [done|]. intros (n & i & Hs'). by destruct (Hn _ _ Hs').
    + intros n i Hs'. by destruct (Hn _ _ Hs').
    + done.
Qed.

Lemma cronShape_unique id name cron sid name' cron' sid' :
  cronShape id name cron sid -> cronShape id name' cron' sid' ->
  name = name' /\ cron = cron' /\ sid = sid'.
Proof.
  intros (? & ? & ? & ?) (? & ? & ? & ?).
  assert (Some [name; cron; sid] = Some [name'; cron'; sid']) as [= -> -> ->]; [|done].
  rewrite <- (proj2 (cronPattern_match id [name; cron; sid]))
    by (by exists name, cron, sid).
  apply cronPattern_match. by exists name', cron', sid'.
Qed.

Lemma subagentShape_unique id name sid name' sid' :
  subagentShape id name sid -> subagentShape id name' sid' ->
  name = name' /\ sid = sid'.
Proof.
  intros (? & ? & ?) (? & ? & ?).
  assert (Some [name; sid] = Some [name'; sid']) as [= -> ->]; [|done].
  rewrite <- (proj2 (subagentPattern_match id [name; sid])) by (by exists name, sid).
  apply subagentPattern_match. by exists name', sid'.
Qed.

Lemma parseSessionKey_cron s id name cron sid :
  cronShape id name cron sid ->
  parseSessionKey s id
  = withKind s SessionTypeCron cron (deriveCronName cron) (Session.SubagentID s).
Proof.
  intros Hc.
  destruct (parseSessionKey_cases s id)
    as [ (n & c & i & Hs & ->) | [ (n & i & Hs & ->) | (Hn & _ & ->) ] ].
  - by destruct (cronShape_unique _ _ _ _ _ _ _ Hc Hs) as (_ & -> & _).
  - by destruct (cronShape_not_subagent _ _ _ _ _ _ Hc Hs).
  - by destruct (Hn _ _ _ Hc).
Qed.

Lemma parseSessionKey_subagent s id name sid :
  subagentShape id name sid ->
  parseSessionKey s id
  = withKind s SessionTypeSubagent (Session.CronID s) (Session.CronName s) sid.
Proof.
  intros Hc.
  destruct (parseSessionKey_cases s id)
    as [ (n & c & i & Hs & ->) | [ (n & i & Hs & ->) | (_ & Hn & ->) ] ].
  - by destruct (cronShape_not_subagent _ _ _ _ _ _ Hs Hc).
  - by destruct (subagentShape_unique _ _ _ _ _ Hc Hs) as (_ & ->).
  - by destruct (Hn _ _ Hc).
Qed.

Lemma allBytes_colon a x : allBytes notColon (a +:+ String ":" x) = false.
Proof.
  induction a as [|c a IH]; [done|].
  rewrite string_cons_app. simpl. rewrite IH. apply andb_false_r.
Qed.

Lemma parseSessionKey_agent_only s agent :
  allBytes notColon agent = true ->
  parseSessionKey s ("agent:" +:+ agent)
  = withKind s SessionTypeInteractive (Session.CronID s) (Session.CronName s)
      (Session.SubagentID s).
Proof.
  intros Ha.
  destruct (parseSessionKey_cases s ("agent:" +:+ agent))
    as [ (n & c & i & Hs & ->) | [ (n & i & Hs & ->) | (_ & _ & ->) ] ]; [| |done].
  - destruct Hs as (_ & _ & _ & E).
    apply (f_equal (stripPrefix "agent:")) in E. rewrite !stripPrefix_app in E.
    injection E as ->.
    change (":cron:" +:+ c +:+ ":run:" +:+ i)
      with (String ":" ("cron:" +:+ c +:+ ":run:" +:+ i)) in Ha.
    by rewrite allBytes_colon in Ha.
  - destruct Hs as (_ & _ & E).
    apply (f_equal (stripPrefix "agent:")) in E. rewrite !stripPrefix_app in E.
    injection E as ->.
    change (":subagent:" +:+ i) with (String ":" ("subagent:" +:+ i)) in Ha.
    by rewrite allBytes_colon in Ha.
Qed.

(** X18. [parseSessionKey] reads back what [Key] writes. For a session
    whose agent name is not empty and has no colon: of a cron run with
    such a cron id and a non-empty id without newline, it reads the kind
    cron and the cron id, and derives the cron name; of a sub-agent with
    such an id, the kind sub-agent, with the id of the session as the
    sub-agent id; of any other session, the kind interactive. *)
Theorem parseSessionKey_reads_back_Key (s s0 : Session.t) :
  segment (Session.Agent s) ->
  (Session.Type_ s = SessionTypeCron ->
   segment (Session.CronID s) /\ oneLine (Session.ID s)) ->
  (Session.Type_ s = SessionTypeSubagent -> oneLine (Session.ID s)) ->
  let p := parseSessionKey s0 (Key s) in
  (Session.Type_ s = SessionTypeCron ->
   p = withKind s0 SessionTypeCron (Session.CronID s) (deriveCronName (Session.CronID s))
         (Session.SubagentID s0))
  /\ (Session.Type_ s = SessionTypeSubagent ->
      p = withKind s0 SessionTypeSubagent (Session.CronID s0) (Session.CronName s0)
            (Session.ID s))
  /\ (Session.Type_ s <> SessionTypeCron -> Session.Type_ s <> SessionTypeSubagent ->
      p = withKind s0 SessionTypeInteractive (Session.CronID s0) (Session.CronName s0)
            (Session.SubagentID s0)).
Proof.
  intros Ha Hc Hs p. subst p. unfold Key. split_and!.
  - intros E. rewrite E. simpl String.eqb. cbv iota.
    destruct (Hc E) as [Hcron Hid].
    by apply (parseSessionKey_cron _ _ (Session.Agent s) (Session.CronID s) (Session.ID s)).
  - intros E. rewrite E. simpl String.eqb. cbv iota.
    pose proof (Hs E) as Hid.
    by apply (parseSessionKey_subagent _ _ (Session.Agent s) (Session.ID s)).
  - intros E1 E2. apply String.eqb_neq in E1, E2. rewrite E1, E2.
    apply parseSessionKey_agent_only. apply Ha.
Qed.

(** X18 on the cron run of the tests. *)
Lemma parseSessionKey_reads_back_Key_witness :
  parseSessionKey (fst noSession) (Key sampleRun)
  = withKind (fst noSession) SessionTypeCron "daily-kickoff-abc123" "daily-kickoff" "".
Proof.
  refine (proj1 (parseSessionKey_reads_back_Key sampleRun (fst noSession) _ _ _) eq_refl).
  - split; [discriminate|reflexivity].
  - intros _. split; (split; [discriminate|reflexivity]).
  - intros _. split; [discriminate|reflexivity].
Defined.

(** ** [parseSessionFile] *)

Lemma scanLine_skip st msg : isAssistant msg = false -> scanLine st (Some msg) = st.
Proof. unfold isAssistant, scanLine. by intros ->. Qed.

Lemma fold_scanLine lines st :
  fold_left scanLine lines st
  = fold_left (fun st msg => scanLine st (Some msg)) (assistantMessages lines) st.
Proof.
  revert st. induction lines as [|line lines IH]; intros st; [done|].
  cbn [fold_left]. unfold assistantMessages. cbn [flat_map].
  fold (assistantMessages lines).
  destruct line as [msg|]; [|apply IH].
  destruct (isAssistant msg) eqn:E.
  - cbn [app fold_left]. apply IH.
  - rewrite (scanLine_skip _ _ E). apply IH.
Qed.

Lemma assistantMessages_all lines :
  Forall (fun msg => isAssistant msg = true) (assistantMessages lines).
Proof.
  induction lines as [|[msg|] lines IH]; simpl; [done| |done].
  destruct (isAssistant msg) eqn:E; simpl; [by constructor|done].
Qed.

(** One iteration on an assistant message, field by field. *)
Lemma scanLine_assistant st msg :
  isAssistant msg = true ->
  let st' := scanLine st (Some msg) in
  let u := Session.Usage (session_of st) in
  let u' := Session.Usage (session_of st') in
  session_of st' = withUsage (session_of st) u'
  /\ Messages st' = (Messages st ++ [msg])%list
  /\ firstTimestamp st'
     = (if time.IsZero (Message.Timestamp msg) then firstTimestamp st
        else if time.IsZero (firstTimestamp st) then Message.Timestamp msg
             else firstTimestamp st)
  /\ lastTimestamp st'
     = (if time.IsZero (Message.Timestamp msg) then lastTimestamp st
        else Message.Timestamp msg)
  /\ Usage.Input u' = int_add (Usage.Input u) (Message.Usage.Input (usageOf msg))
  /\ Usage.Output u' = int_add (Usage.Output u) (Message.Usage.Output (usageOf msg))
  /\ Usage.Total u' = int_add (Usage.Total u) (Message.Usage.Total (usageOf msg))
  /\ Usage.CacheRead u'
     = int_add (Usage.CacheRead u) (Message.Usage.CacheRead (usageOf msg))
  /\ Usage.CacheWrite u'
     = int_add (Usage.CacheWrite u) (Message.Usage.CacheWrite (usageOf msg))
  /\ Usage.CostInput u' = fadd (Usage.CostInput u) (Message.Cost.Input (costOf msg))
  /\ Usage.CostOutput u' = fadd (Usage.CostOutput u) (Message.Cost.Output (costOf msg))
  /\ Usage.CostTotal u' = fadd (Usage.CostTotal u) (Message.Cost.Total (costOf msg))
  /\ Usage.Model u' = (if String.eqb (modelOf msg) "" then Usage.Model u else modelOf msg).
Proof.
  unfold isAssistant. intros E. unfold scanLine. rewrite E. cbv zeta.
  unfold modelOf, usageOf, costOf, append. simpl.
  split_and!; try done.
  - by destruct (time.IsZero (Message.Timestamp msg)).
  - by destruct (time.IsZero (Message.Timestamp msg)).
  - destruct (String.eqb (Message.Body.Model _) "") eqn:E1; simpl; [|by rewrite E1].
    by destruct (String.eqb (Message.Model msg) "").
Qed.

Lemma withUsage_withUsage s u1 u2 : withUsage (withUsage s u1) u2 = withUsage s u2.
Proof. reflexivity. Qed.

Lemma withUsage_same s : withUsage s (Session.Usage s) = s.
Proof. by destruct s. Qed.

Lemma last_cons_cons {A : Type} (x : A) l d : List.last (x :: l) d = List.last l x.
Proof.
  revert x d. induction l as [|y l IH]; intros x d; [done|].
  change (List.last (x :: y :: l) d) with (List.last (y :: l) d).
  by rewrite !IH.
Qed.

(** The loop over the assistant messages, field by field. *)
Lemma scan_fold msgs st :
  Forall (fun msg => isAssistant msg = true) msgs ->
  let st' := fold_left (fun st msg => scanLine st (Some msg)) msgs st in
  let u := Session.Usage (session_of st) in
  let u' := Session.Usage (session_of st') in
  session_of st' = withUsage (session_of st) u'
  /\ Messages st' = (Messages st ++ msgs)%list
  /\ firstTimestamp st'
     = (if time.IsZero (firstTimestamp st) then hd (firstTimestamp st) (stamps msgs)
        else firstTimestamp st)
  /\ lastTimestamp st' = List.last (stamps msgs) (lastTimestamp st)
  /\ Usage.Input u'
     = fold_left int_add (map (fun m => Message.Usage.Input (usageOf m)) msgs)
         (Usage.Input u)
  /\ Usage.Output u'
     = fold_left int_add (map (fun m => Message.Usage.Output (usageOf m)) msgs)
         (Usage.Output u)
  /\ Usage.Total u'
     = fold_left int_add (map (fun m => Message.Usage.Total (usageOf m)) msgs)
         (Usage.Total u)
  /\ Usage.CacheRead u'
     = fold_left int_add (map (fun m => Message.Usage.CacheRead (usageOf m)) msgs)
         (Usage.CacheRead u)
  /\ Usage.CacheWrite u'
     = fold_left int_add (map (fun m => Message.Usage.CacheWrite (usageOf m)) msgs)
         (Usage.CacheWrite u)
  /\ Usage.CostInput u'
     = fold_left fadd (map (fun m => Message.Cost.Input (costOf m)) msgs)
         (Usage.CostInput u)
  /\ Usage.CostOutput u'
     = fold_left fadd (map (fun m => Message.Cost.Output (costOf m)) msgs)
         (Usage.CostOutput u)
  /\ Usage.CostTotal u'
     = fold_left fadd (map (fun m => Message.Cost.Total (costOf m)) msgs)
         (Usage.CostTotal u)
  /\ Usage.Model u' = List.last (models msgs) (Usage.Model u).
Proof.
  intros Hall. revert st. induction Hall as [|msg msgs Hm _ IH]; intros st.
  - cbn [fold_left]. cbv zeta. split_and!; try done.
    + symmetry. apply withUsage_same.
    + by rewrite app_nil_r.
    + unfold stamps. simpl. by destruct (time.IsZero _).
  - cbn [fold_left]. specialize (IH (scanLine st (Some msg))).
    cbv zeta in IH.
    destruct IH as (I1 & I2 & I3 & I4 & I5 & I6 & I7 & I8 & I9 & I10 & I11 & I12 & I13).
    destruct (scanLine_assistant st msg Hm)
      as (S1 & S2 & S3 & S4 & S5 & S6 & S7 & S8 & S9 & S10 & S11 & S12 & S13).
    cbv zeta. split_and!.
    + rewrite I1. rewrite S1 at 1. apply withUsage_withUsage.
    + rewrite I2, S2. by rewrite <- app_assoc.
    + rewrite I3, S3. unfold stamps. cbn [map List.filter].
      destruct (time.IsZero (Message.Timestamp msg)) eqn:Ez; cbn [negb].
      * done.
      * destruct (time.IsZero (firstTimestamp st)) eqn:Ef; [|by rewrite Ef].
        by rewrite Ez.
    + rewrite I4, S4. unfold stamps. cbn [map List.filter].
      destruct (time.IsZero (Message.Timestamp msg)) eqn:Ez; cbn [negb]; [done|].
      by rewrite last_cons_cons.
    + rewrite I5, S5. done.
    + rewrite I6, S6. done.
    + rewrite I7, S7. done.
    + rewrite I8, S8. done.
    + rewrite I9, S9. done.
    + rewrite I10, S10. done.
    + rewrite I11, S11. done.
    + rewrite I12, S12. done.
    + rewrite I13, S13. unfold models. cbn [map List.filter].
      destruct (String.eqb (modelOf msg) "") eqn:Em; cbn [negb]; [done|].
      by rewrite last_cons_cons.
Qed.

Lemma freshSession_fields agent sessionID filePath :
  let s := freshSession agent sessionID filePath in
  Session.ID s = sessionID /\ Session.Agent s = agent /\ Session.FilePath s = filePath
  /\ Session.Usage s = Usage.mk 0 0 0 0 0 fzero fzero fzero ""
  /\ Session.StartedAt s = time.zero /\ Session.Duration s = 0
  /\ validKind (Session.Type_ s).
Proof.
  unfold freshSession. cbv zeta.
  destruct (parseSessionKey_cases
              (Session.mk sessionID agent "" "" "" "" filePath
                 (Usage.mk 0 0 0 0 0 fzero fzero fzero "") time.zero 0) sessionID)
    as [ (name & cron & sid & _ & ->) | [ (name & sid & _ & ->) | (_ & _ & ->) ] ];
    unfold validKind; simpl; split_and!; auto.
Qed.

(** The state after the last line, field by field. *)
Lemma scanned_fields agent sessionID filePath file :
  let st := scanned agent sessionID filePath file in
  let msgs := assistantMessages (lines file) in
  let u := Session.Usage (session_of st) in
  session_of st = withUsage (freshSession agent sessionID filePath) u
  /\ Messages st = msgs
  /\ firstTimestamp st = hd time.zero (stamps msgs)
  /\ lastTimestamp st = List.last (stamps msgs) time.zero
  /\ Usage.Input u = isum (map (fun m => Message.Usage.Input (usageOf m)) msgs)
  /\ Usage.Output u = isum (map (fun m => Message.Usage.Output (usageOf m)) msgs)
  /\ Usage.Total u = isum (map (fun m => Message.Usage.Total (usageOf m)) msgs)
  /\ Usage.CacheRead u = isum (map (fun m => Message.Usage.CacheRead (usageOf m)) msgs)
  /\ Usage.CacheWrite u = isum (map (fun m => Message.Usage.CacheWrite (usageOf m)) msgs)
  /\ Usage.CostInput u = fsum (map (fun m => Message.Cost.Input (costOf m)) msgs)
  /\ Usage.CostOutput u = fsum (map (fun m => Message.Cost.Output (costOf m)) msgs)
  /\ Usage.CostTotal u = fsum (map (fun m => Message.Cost.Total (costOf m)) msgs)
  /\ Usage.Model u = List.last (models msgs) "".
Proof.
  unfold scanned. rewrite fold_scanLine.
  pose proof (scan_fold (assistantMessages (lines file))
                (mkScan (freshSession agent sessionID filePath) [] time.zero time.zero)
                (assistantMessages_all (lines file))) as H.
  cbv zeta in H. cbn [session_of Messages firstTimestamp lastTimestamp] in H.
  destruct (freshSession_fields agent sessionID filePath) as (_ & _ & _ & Hu & _).
  cbv zeta in Hu. rewrite Hu in H. cbn [Usage.Input Usage.Output Usage.Total
    Usage.CacheRead Usage.CacheWrite Usage.CostInput Usage.CostOutput Usage.CostTotal
    Usage.Model] in H.
  exact H.
Qed.

Lemma parseSessionFile_unfold agent sessionID filePath file :
  parseSessionFile agent sessionID filePath (inr file)
  = let st := scanned agent sessionID filePath file in
    match scanErr file with
    | Some err => (session_of st, Messages st, Some err)
    | None =>
        (if negb (time.IsZero (firstTimestamp st))
            && negb (time.IsZero (lastTimestamp st))
         then
           Session.mk (Session.ID (session_of st)) (Session.Agent (session_of st))
             (Session.Type_ (session_of st)) (Session.CronID (session_of st))
             (Session.CronName (session_of st)) (Session.SubagentID (session_of st))
             (Session.FilePath (session_of st)) (Session.Usage (session_of st))
             (firstTimestamp st) (Sub (lastTimestamp st) (firstTimestamp st))
         else session_of st,
         Messages st, None)
    end.
Proof. reflexivity. Qed.

(** The session [parseSessionFile] returns differs from the state of the
    loop in its start and duration only. *)
Lemma parsedSession_fields agent sessionID filePath file :
  let st := scanned agent sessionID filePath file in
  let p := parseSessionFile agent sessionID filePath (inr file) in
  parseError p = scanErr file
  /\ parsedMessages p = Messages st
  /\ Session.Usage (parsedSession p) = Session.Usage (session_of st)
  /\ Session.ID (parsedSession p) = sessionID
  /\ Session.Agent (parsedSession p) = agent
  /\ Session.FilePath (parsedSession p) = filePath
  /\ Session.Type_ (parsedSession p)
     = Session.Type_ (freshSession agent sessionID filePath)
  /\ Session.CronID (parsedSession p)
     = Session.CronID (freshSession agent sessionID filePath)
  /\ Session.CronName (parsedSession p)
     = Session.CronName (freshSession agent sessionID filePath)
  /\ Session.SubagentID (parsedSession p)
     = Session.SubagentID (freshSession agent sessionID filePath).
Proof.
  cbv zeta. rewrite parseSessionFile_unfold. cbv zeta.
  destruct (scanned_fields agent sessionID filePath file) as (Hs & _).
  cbv zeta in Hs.
  destruct (freshSession_fields agent sessionID filePath) as (Hid & Hag & Hfp & _).
  cbv zeta in Hid, Hag, Hfp.
  unfold parsedSession, parsedMessages, parseError.
  remember (scanned agent sessionID filePath file) as st eqn:Est. clear Est.
  remember (freshSession agent sessionID filePath) as fresh eqn:Ef. clear Ef.
  assert (Hf : Session.ID (session_of st) = sessionID
               /\ Session.Agent (session_of st) = agent
               /\ Session.FilePath (session_of st) = filePath
               /\ Session.Type_ (session_of st) = Session.Type_ fresh
               /\ Session.CronID (session_of st) = Session.CronID fresh
               /\ Session.CronName (session_of st) = Session.CronName fresh
               /\ Session.SubagentID (session_of st) = Session.SubagentID fresh).
  { rewrite Hs. unfold withUsage.
    cbn [Session.ID Session.Agent Session.FilePath Session.Type_ Session.CronID
         Session.CronName Session.SubagentID].
    by split_and!. }
  destruct Hf as (F1 & F2 & F3 & F4 & F5 & F6 & F7).
  destruct (scanErr file) as [err|]; [|destruct (_ && _)]; cbn [fst snd];
    cbn [Session.ID Session.Agent Session.FilePath Session.Type_ Session.CronID
         Session.CronName Session.SubagentID Session.Usage];
    by split_and!.
Qed.

(** X19. [parseSessionFile] keeps the lines that decode to a message of type
    ["message"] and role ["assistant"], in order, and skips every other
    line: the messages of the session are these, every field of its usage
    is the sum of theirs in the order of the file (Go integers; [float64]
    sums from 0), and its model is the last model they name (of the body
    of the message, else of the message), empty when they name none. This
    holds also when the scanner stops on an error, for the lines read. *)
Theorem parseSessionFile_sums_the_assistant_messages
    (agent sessionID filePath : string) (file : File) :
  let p := parseSessionFile agent sessionID filePath (inr file) in
  let u := Session.Usage (parsedSession p) in
  let msgs := assistantMessages (lines file) in
  parseError p = scanErr file
  /\ parsedMessages p = msgs
  /\ Usage.Input u = isum (map (fun m => Message.Usage.Input (usageOf m)) msgs)
  /\ Usage.Output u = isum (map (fun m => Message.Usage.Output (usageOf m)) msgs)
  /\ Usage.Total u = isum (map (fun m => Message.Usage.Total (usageOf m)) msgs)
  /\ Usage.CacheRead u = isum (map (fun m => Message.Usage.CacheRead (usageOf m)) msgs)
  /\ Usage.CacheWrite u = isum (map (fun m => Message.Usage.CacheWrite (usageOf m)) msgs)
  /\ Usage.CostInput u = fsum (map (fun m => Message.Cost.Input (costOf m)) msgs)
  /\ Usage.CostOutput u = fsum (map (fun m => Message.Cost.Output (costOf m)) msgs)
  /\ Usage.CostTotal u = fsum (map (fun m => Message.Cost.Total (costOf m)) msgs)
  /\ Usage.Model u = List.last (models msgs) "".
Proof.
  cbv zeta.
  destruct (parsedSession_fields agent sessionID filePath file) as (He & Hm & Hu & _).
  cbv zeta in He, Hm, Hu.
  destruct (scanned_fields agent sessionID filePath file)
    as (_ & S2 & _ & _ & S5 & S6 & S7 & S8 & S9 & S10 & S11 & S12 & S13).
  cbv zeta in S2, S5, S6, S7, S8, S9, S10, S11, S12, S13.
  rewrite He, Hm, Hu. by split_and!.
Qed.

(** X20. Whatever the file holds, the id, the agent and the path of the
    session [parseSessionFile] returns are its arguments, and its kind,
    cron id, cron name and sub-agent id are what [parseSessionKey] reads
    from the id; the kind is one of the three. *)
Theorem parseSessionFile_names_the_session_from_its_arguments
    (agent sessionID filePath : string) (file : File) :
  let s := parsedSession (parseSessionFile agent sessionID filePath (inr file)) in
  let k :=
    parseSessionKey
      (Session.mk sessionID agent "" "" "" "" filePath
         (Usage.mk 0 0 0 0 0 fzero fzero fzero "") time.zero 0)
      sessionID in
  Session.ID s = sessionID /\ Session.Agent s = agent /\ Session.FilePath s = filePath
  /\ Session.Type_ s = Session.Type_ k /\ Session.CronID s = Session.CronID k
  /\ Session.CronName s = Session.CronName k
  /\ Session.SubagentID s = Session.SubagentID k
  /\ validKind (Session.Type_ s).
Proof.
  cbv zeta.
  destruct (parsedSession_fields agent sessionID filePath file)
    as (_ & _ & _ & H1 & H2 & H3 & H4 & H5 & H6 & H7).
  cbv zeta in H1, H2, H3, H4, H5, H6, H7.
  destruct (freshSession_fields agent sessionID filePath) as (_ & _ & _ & _ & _ & _ & Hv).
  cbv zeta in Hv. rewrite <- H4 in Hv.
  by split_and!.
Qed.

Lemma stamps_nonzero msgs : Forall (fun t => time.IsZero t = false) (stamps msgs).
Proof.
  unfold stamps. apply List.Forall_forall. intros t Ht.
  apply List.filter_In in Ht as [_ Ht]. by apply negb_true_iff.
Qed.

Lemma last_In {A : Type} (l : list A) (x d : A) : In (List.last (x :: l) d) (x :: l).
Proof.
  revert x. induction l as [|y l IH]; intros x; [by left|].
  right. apply (IH y).
Qed.

(** X21. Without an error of the scanner, the session starts at the first
    non-zero timestamp of its assistant messages and its duration is the
    last such timestamp minus the first (the zero time and 0 when no
    message has one). With an error of the scanner the error is returned
    and the start and the duration stay zero. When the file cannot be
    opened, the zero session is returned with the error. *)
Theorem parseSessionFile_start_and_duration
    (agent sessionID filePath : string) (file : File) :
  let p := parseSessionFile agent sessionID filePath (inr file) in
  let s := parsedSession p in
  let ts := stamps (assistantMessages (lines file)) in
  (scanErr file = None ->
   Session.StartedAt s = hd time.zero ts
   /\ Session.Duration s = Sub (List.last ts time.zero) (hd time.zero ts))
  /\ (forall err, scanErr file = Some err ->
        parseError p = Some err
        /\ Session.StartedAt s = time.zero /\ Session.Duration s = 0)
  /\ (forall err,
        parseSessionFile agent sessionID filePath (inl err) = (noSession, Some err)).
Proof.
  cbv zeta. rewrite parseSessionFile_unfold. cbv zeta.
  destruct (scanned_fields agent sessionID filePath file) as (Hs & _ & Hf & Hl & _).
  cbv zeta in Hs, Hf, Hl.
  destruct (freshSession_fields agent sessionID filePath)
    as (_ & _ & _ & _ & Hst & Hd & _).
  cbv zeta in Hst, Hd.
  remember (scanned agent sessionID filePath file) as st eqn:Est. clear Est.
  remember (freshSession agent sessionID filePath) as fresh eqn:Ef. clear Ef.
  assert (Hz : Session.StartedAt (session_of st) = time.zero
               /\ Session.Duration (session_of st) = 0).
  { rewrite Hs. unfold withUsage. cbn [Session.StartedAt Session.Duration]. done. }
  destruct Hz as [Hz1 Hz2].
  pose proof (stamps_nonzero (assistantMessages (lines file))) as Hnz.
  unfold parsedSession, parseError.
  split_and!.
  - intros ->. cbn [fst snd]. rewrite Hf, Hl.
    destruct (stamps (assistantMessages (lines file))) as [|t0 ts] eqn:Et.
    + cbn [hd List.last]. simpl. rewrite Hz1, Hz2. done.
    + cbn [hd].
      assert (H0 : time.IsZero t0 = false) by (by inversion Hnz).
      assert (H1 : time.IsZero (List.last (t0 :: ts) time.zero) = false).
      { rewrite List.Forall_forall in Hnz. apply Hnz, last_In. }
      rewrite H0, H1. cbn [negb andb Session.StartedAt Session.Duration]. done.
  - intros err ->. cbn [fst snd]. done.
  - done.
Qed.

Lemma parsed_valid_and_nonneg t :
  costsNonNegative t -> validKind (Session.Type_ (parsed t)) /\ nonneg (cost (parsed t)).
Proof.
  intros Hc. unfold parsed, cost.
  destruct (parsedSession_fields (ofAgentNamed t) (sessionID_of t) (path_of t) (file_of t))
    as (_ & _ & Hu & _ & _ & _ & Hk & _).
  cbv zeta in Hu, Hk.
  destruct (freshSession_fields (ofAgentNamed t) (sessionID_of t) (path_of t))
    as (_ & _ & _ & _ & _ & _ & Hv).
  cbv zeta in Hv.
  destruct (scanned_fields (ofAgentNamed t) (sessionID_of t) (path_of t) (file_of t))
    as (_ & _ & _ & _ & _ & _ & _ & _ & _ & _ & _ & Hcost & _).
  cbv zeta in Hcost.
  rewrite Hk, Hu, Hcost. split; [done|].
  apply fsum_nonneg. unfold costsNonNegative in Hc.
  by apply Forall_map.
Qed.

(** X22. The sessions [parseSessionFile] builds from transcripts whose
    assistant messages have costs that are neither negative nor NaN have
    a valid kind and such a cost. The report generated from them lists the
    agents and the models by decreasing cost and the kinds in the strict
    order interactive, cron, sub-agent, the same list for every order of
    iteration over the map. *)
Theorem parsed_sessions_give_ordered_reports (env : Env) (c : Config.t)
    (transcripts : list Transcript) :
  Forall costsNonNegative transcripts ->
  let sessions := map parsed transcripts in
  let rep := Generate env (New sessions c) in
  Forall (fun s => validKind (Session.Type_ s) /\ nonneg (cost s)) sessions
  /\ Sorted (fun a b => fge (AgentSummary.TotalCost a) (AgentSummary.TotalCost b) = true)
       (Report.ByAgent rep)
  /\ Sorted (fun a b => fge (ModelSummary.TotalCost a) (ModelSummary.TotalCost b) = true)
       (Report.ByModel rep)
  /\ Sorted
       (fun a b =>
          order_at (SessionTypeSummary.Type_ a) < order_at (SessionTypeSummary.Type_ b))
       (Report.BySessionType rep)
  /\ (forall env', now env' = now env ->
        Report.BySessionType (Generate env' (New sessions c)) = Report.BySessionType rep).
Proof.
  intros Hall sessions rep.
  assert (Hs : Forall (fun s => validKind (Session.Type_ s) /\ nonneg (cost s)) sessions).
  { subst sessions. apply List.Forall_forall. intros s Hin.
    apply in_map_iff in Hin as (t & <- & Hin).
    rewrite List.Forall_forall in Hall. by apply parsed_valid_and_nonneg, Hall. }
  assert (Hv : Forall (fun s => validKind (Session.Type_ s)) sessions).
  { eapply Forall_impl; [exact Hs|]. by intros s [? _]. }
  assert (Hn : Forall (fun s => nonneg (cost s)) sessions).
  { eapply Forall_impl; [exact Hs|]. by intros s [_ ?]. }
  subst rep. unfold Generate.
  cbn [Report.ByAgent Report.ByModel Report.BySessionType Reporter.sessions New].
  split_and!.
  - exact Hs.
  - by apply aggregateByAgent_desc, Forall_filterByPeriod.
  - by apply aggregateByModel_desc, Forall_filterByPeriod.
  - by apply aggregateBySessionType_strict, Forall_filterByPeriod.
  - intros env' ->.
    by apply aggregateBySessionType_deterministic, Forall_filterByPeriod.
Qed.

(** X22 on the transcript of the test of [parseSessionFile]. *)
Lemma parsed_sessions_witness :
  let sessions := map parsed [sampleTranscript] in
  let rep := Generate sampleEnv (New sessions (configFor "all" false false)) in
  Forall (fun s => validKind (Session.Type_ s) /\ nonneg (cost s)) sessions
  /\ Sorted (fun a b => fge (AgentSummary.TotalCost a) (AgentSummary.TotalCost b) = true)
       (Report.ByAgent rep)
  /\ Sorted (fun a b => fge (ModelSummary.TotalCost a) (ModelSummary.TotalCost b) = true)
       (Report.ByModel rep)
  /\ Sorted
       (fun a b =>
          order_at (SessionTypeSummary.Type_ a) < order_at (SessionTypeSummary.Type_ b))
       (Report.BySessionType rep).
Proof.
  assert (Hc : Forall costsNonNegative [sampleTranscript]) by repeat constructor.
  destruct (parsed_sessions_give_ordered_reports sampleEnv (configFor "all" false false)
              [sampleTranscript] Hc) as (H1 & H2 & H3 & H4 & _).
  by split_and!.
Defined.

(** The test of [parseSessionFile] of the repository, and the start and
    duration of its session. *)
Example the_test_of_parseSessionFile :
  let p := parseSessionFile "urza" "test-session" "/tmp/test-session.jsonl" (inr sampleFile) in
  length (parsedMessages p) = 2%nat
  /\ Usage.CostTotal (Session.Usage (parsedSession p)) = 0.00375%float
  /\ Usage.Total (Session.Usage (parsedSession p)) = 450
  /\ Session.Type_ (parsedSession p) = SessionTypeInteractive
  /\ Session.StartedAt (parsedSession p)
     = time.Date 2026 2 10 16 53 15 420000000 time.UTC
  /\ Session.Duration (parsedSession p) = 44580000000.
Proof. vm_compute. by split_and!. Qed.

(** ** The periods of the command line *)

Lemma validPeriods_spec p :
  default false (validPeriods !! p) = true
  <-> p = "today" \/ p = "yesterday" \/ p = "week" \/ p = "month" \/ p = "all".
Proof.
  unfold validPeriods.
  destruct (decide (p = "today")) as [->|H1]; [by intuition|].
  destruct (decide (p = "yesterday")) as [->|H2]; [by intuition|].
  destruct (decide (p = "week")) as [->|H3]; [by intuition|].
  destruct (decide (p = "month")) as [->|H4]; [by intuition|].
  destruct (decide (p = "all")) as [->|H5]; [by intuition|].
  rewrite !lookup_insert_ne by done. rewrite lookup_singleton_ne by done.
  simpl. intuition done.
Qed.

(** ** The sessions on the disk *)

Lemma parseEntry_spec fs agent dir idx acc entry :
  fst (parseEntry fs agent dir idx acc entry)
  = (fst acc ++ option_list (sessionOfEntry fs agent dir idx entry))%list.
Proof.
  unfold parseEntry, sessionOfEntry. destruct acc as [sessions stderr].
  destruct (DirEntry.IsDir entry); cbn [orb fst].
  { cbn [option_list]. by rewrite app_nil_r. }
  destruct (HasSuffix (DirEntry.Name entry) ".jsonl"); cbn [negb fst].
  2: { cbn [option_list]. by rewrite app_nil_r. }
  cbv zeta. unfold parseError, parsedSession, parsedMessages.
  destruct (parseSessionFile _ _ _ _) as [[s m] [err|]]; cbn [fst snd option_list].
  - by rewrite app_nil_r.
  - done.
Qed.

Lemma fold_parseEntry fs agent dir idx entries acc :
  fst (fold_left (parseEntry fs agent dir idx) entries acc)
  = (fst acc ++ omap (sessionOfEntry fs agent dir idx) entries)%list.
Proof.
  revert acc. induction entries as [|e entries IH]; intros acc.
  - cbn. by rewrite app_nil_r.
  - cbn [fold_left]. rewrite IH, parseEntry_spec. rewrite <- app_assoc. f_equal.
    cbn [omap list_omap]. by destruct (sessionOfEntry fs agent dir idx e).
Qed.

Lemma parseAgentSessions_spec fs p agent :
  fst (parseAgentSessions fs p agent)
  = match ReadDir fs (sessionsDirOf fs p agent) with
    | inl err => inl ("failed to read sessions directory: " +:+ err)
    | inr entries =>
        inr (omap (sessionOfEntry fs agent (sessionsDirOf fs p agent)
                     (sessionIndexOf fs p agent)) entries)
    end.
Proof.
  unfold parseAgentSessions. cbv zeta.
  fold (sessionsDirOf fs p agent). fold (sessionIndexOf fs p agent).
  destruct (ReadDir fs (sessionsDirOf fs p agent)) as [err|entries]; [done|].
  pose proof (fold_parseEntry fs agent (sessionsDirOf fs p agent)
                (sessionIndexOf fs p agent) entries ([], [])) as H.
  destruct (fold_left _ entries _) as [sessions stderr]. cbn [fst] in *.
  by rewrite H.
Qed.

Lemma substring_split n s :
  (n <= String.length s)%nat ->
  substring 0 n s +:+ substring n (String.length s - n) s = s.
Proof.
  revert s. induction n as [|n IH]; intros s Hn.
  - rewrite Nat.sub_0_r.
    assert (E0 : substring 0 0 s = "") by (by destruct s). rewrite E0.
    change ("" +:+ substring 0 (String.length s) s) with (substring 0 (String.length s) s).
    clear. induction s as [|c s IH]; simpl; [done|]. by rewrite IH.
  - destruct s as [|c s]; simpl in Hn; [lia|].
    simpl. rewrite string_cons_app. rewrite (IH s) by lia. done.
Qed.

Lemma HasSuffix_TrimSuffix s suffix :
  HasSuffix s suffix = true -> s = TrimSuffix s suffix +:+ suffix.
Proof.
  intros H. unfold TrimSuffix. rewrite H. unfold HasSuffix in H.
  apply andb_true_iff in H as [Hl He]. apply Nat.leb_le in Hl.
  apply String.eqb_eq in He.
  pose proof (substring_split (String.length s - String.length suffix) s ltac:(lia)) as E.
  replace (String.length s - (String.length s - String.length suffix))%nat
    with (String.length suffix) in E by lia.
  by rewrite He in E.
Qed.

Lemma Key_withStartedAt s t : Key (withStartedAt s t) = Key s.
Proof. reflexivity. Qed.

(** What a session of an entry is made of. *)
Lemma sessionOfEntry_Some fs agent dir idx entry s m :
  sessionOfEntry fs agent dir idx entry = Some (s, m) ->
  let filePath := filepathJoin fs [dir; DirEntry.Name entry] in
  exists file,
    DirEntry.IsDir entry = false
    /\ DirEntry.Name entry = Session.ID s +:+ ".jsonl"
    /\ Open fs filePath = inr file /\ scanErr file = None
    /\ let t := parsedSession
                  (parseSessionFile agent (Session.ID s) filePath (inr file)) in
       s = match idx !! Key t with
           | Some indexEntry =>
               withStartedAt t (UnixMilli (timeLocal fs) (SessionIndexEntry.UpdatedAt indexEntry))
           | None => t
           end
       /\ m = assistantMessages (lines file)
       /\ Session.Agent s = agent /\ Session.FilePath s = filePath
       /\ validKind (Session.Type_ s).
Proof.
  intros H filePath. unfold sessionOfEntry in H.
  destruct (DirEntry.IsDir entry); [done|].
  destruct (HasSuffix (DirEntry.Name entry) ".jsonl") eqn:Hsuf; [|done].
  cbn [orb negb] in H. cbv zeta in H. fold filePath in H.
  set (sessionID := TrimSuffix (DirEntry.Name entry) ".jsonl") in *.
  destruct (Open fs filePath) as [err|file] eqn:Eo.
  { done. }
  destruct (parsedSession_fields agent sessionID filePath file)
    as (He & Hm & _ & Hid & Hag & Hfp & Hty & _).
  cbv zeta in He, Hm, Hid, Hag, Hfp, Hty.
  destruct (scanned_fields agent sessionID filePath file) as (_ & Hms & _).
  cbv zeta in Hms.
  destruct (freshSession_fields agent sessionID filePath) as (_ & _ & _ & _ & _ & _ & Hv).
  cbv zeta in Hv. rewrite <- Hty in Hv.
  remember (parseSessionFile agent sessionID filePath (inr file)) as p eqn:Ep.
  rewrite He in H.
  destruct (scanErr file) as [err|] eqn:Es; [done|].
  injection H as Hs Hm'.
  assert (Hsid : Session.ID s = sessionID).
  { rewrite <- Hs. by destruct (idx !! Key (parsedSession p)). }
  exists file. split_and!; try done.
  - rewrite Hsid. by apply HasSuffix_TrimSuffix.
  - rewrite Hsid, <- Ep. cbv zeta. split_and!.
    + done.
    + by rewrite <- Hm', Hm.
    + rewrite <- Hs. by destruct (idx !! Key (parsedSession p)).
    + rewrite <- Hs. by destruct (idx !! Key (parsedSession p)).
    + rewrite <- Hs. by destruct (idx !! Key (parsedSession p)).
Qed.

Lemma ListAgents_spec fs p :
  ListAgents fs p
  = match ReadDir fs (Parser.agentsDir p) with
    | inl err => inl ("failed to read agents directory: " +:+ err)
    | inr entries => inr (map DirEntry.Name (List.filter (isAgentDir fs p) entries))
    end.
Proof.
  unfold ListAgents. destruct (ReadDir fs (Parser.agentsDir p)) as [err|entries]; [done|].
  f_equal.
  change (map DirEntry.Name (List.filter (isAgentDir fs p) entries))
    with ([] ++ map DirEntry.Name (List.filter (isAgentDir fs p) entries))%list.
  rewrite <- (fold_append_filter (isAgentDir fs p) DirEntry.Name entries []).
  apply fold_left_ext. intros agents e. unfold isAgentDir.
  destruct (DirEntry.IsDir e); [|done]. by destruct (Stat fs _).
Qed.

Lemma parseAgent_spec fs p agentFilter acc agent :
  fst (parseAgent fs p agentFilter acc agent)
  = (fst acc ++ sessionsOfAgent fs p agentFilter agent)%list.
Proof.
  unfold parseAgent, sessionsOfAgent. destruct acc as [sessions stderr].
  destruct (_ && _); cbn [fst]; [by rewrite app_nil_r|].
  destruct (parseAgentSessions fs p agent) as [[err|ss] written]; cbn [fst];
    [by rewrite app_nil_r|done].
Qed.

Lemma fold_parseAgent fs p agentFilter agents acc :
  fst (fold_left (parseAgent fs p agentFilter) agents acc)
  = (fst acc ++ concat (map (sessionsOfAgent fs p agentFilter) agents))%list.
Proof.
  revert acc. induction agents as [|a agents IH]; intros acc.
  - cbn. by rewrite app_nil_r.
  - cbn [fold_left map concat]. rewrite IH, parseAgent_spec. by rewrite <- app_assoc.
Qed.

Lemma ParseAll_spec fs p agentFilter :
  fst (ParseAll fs p agentFilter)
  = match ListAgents fs p with
    | inl err => inl err
    | inr agents => inr (concat (map (sessionsOfAgent fs p agentFilter) agents))
    end.
Proof.
  unfold ParseAll. destruct (ListAgents fs p) as [err|agents]; [done|].
  pose proof (fold_parseAgent fs p agentFilter agents ([], [])) as H.
  destruct (fold_left _ agents _) as [sessions stderr]. cbn [fst] in *. by rewrite H.
Qed.

(** The sessions of an agent are its own, of a valid kind, and named after
    their files. *)
Lemma sessionsOfAgent_fields fs p agentFilter agent sm :
  In sm (sessionsOfAgent fs p agentFilter agent) ->
  Session.Agent (fst sm) = agent
  /\ (agentFilter <> "" -> agent = agentFilter)
  /\ validKind (Session.Type_ (fst sm)).
Proof.
  unfold sessionsOfAgent.
  destruct (negb (String.eqb agentFilter "") && negb (String.eqb agent agentFilter))
    eqn:Ef; [done|].
  rewrite parseAgentSessions_spec.
  destruct (ReadDir fs (sessionsDirOf fs p agent)) as [err|entries]; [done|].
  intros Hin. apply list_elem_of_In, list_elem_of_omap in Hin as (e & _ & He).
  destruct sm as [s m].
  destruct (sessionOfEntry_Some _ _ _ _ _ _ _ He) as (file & _ & _ & _ & _ & H).
  cbv zeta in H. destruct H as (_ & _ & Ha & _ & Hv). cbn [fst].
  split_and!; [done| |done].
  intros Hne. apply andb_false_iff in Ef as [Ef|Ef].
  - apply negb_false_iff, String.eqb_eq in Ef. done.
  - by apply negb_false_iff, String.eqb_eq in Ef.
Qed.

Lemma omap_sublist {A B C : Type} (g : A -> option B) (f : B -> C) (h : A -> C) l :
  (forall a b, g a = Some b -> f b = h a) ->
  sublist (map f (omap g l)) (map h l).
Proof.
  intros H. induction l as [|a l IH]; [constructor|].
  cbn [omap list_omap map]. destruct (g a) as [b|] eqn:E.
  - cbn [map]. rewrite (H _ _ E). by constructor.
  - by constructor.
Qed.

(** X23. [parseAgentSessions] fails exactly when the directory of the
    sessions cannot be read. Otherwise it returns, in the order of the
    directory, one session for each entry that is no directory, is named
    [{id}.jsonl], and whose file is opened and scanned without error: the
    session has that id, the agent given, the path of the file, a valid
    kind and the assistant messages of the file. Every other entry is
    skipped. *)
Theorem parseAgentSessions_reads_the_jsonl_files (fs : FileSystem) (p : Parser.t)
    (agent : string) :
  let dir := sessionsDirOf fs p agent in
  (forall err,
     ReadDir fs dir = inl err ->
     fst (parseAgentSessions fs p agent)
     = inl ("failed to read sessions directory: " +:+ err))
  /\ (forall entries,
        ReadDir fs dir = inr entries ->
        exists sessions,
          fst (parseAgentSessions fs p agent) = inr sessions
          /\ sublist (map (fun sm => Session.ID (fst sm) +:+ ".jsonl") sessions)
               (map DirEntry.Name entries)
          /\ Forall
               (fun sm =>
                  Session.Agent (fst sm) = agent
                  /\ validKind (Session.Type_ (fst sm))
                  /\ exists e file,
                       In e entries /\ DirEntry.IsDir e = false
                       /\ DirEntry.Name e = Session.ID (fst sm) +:+ ".jsonl"
                       /\ Session.FilePath (fst sm) = filepathJoin fs [dir; DirEntry.Name e]
                       /\ Open fs (Session.FilePath (fst sm)) = inr file
                       /\ scanErr file = None
                       /\ snd sm = assistantMessages (lines file))
               sessions
          /\ (forall e file,
                In e entries -> DirEntry.IsDir e = false ->
                HasSuffix (DirEntry.Name e) ".jsonl" = true ->
                Open fs (filepathJoin fs [dir; DirEntry.Name e]) = inr file ->
                scanErr file = None ->
                exists sm, In sm sessions
                           /\ DirEntry.Name e = Session.ID (fst sm) +:+ ".jsonl")).
Proof.
  intros dir. rewrite parseAgentSessions_spec. fold dir. split.
  - by intros err ->.
  - intros entries ->. eexists. split; [reflexivity|]. split_and!.
    + apply omap_sublist. intros e [s m] He. cbn [fst].
      destruct (sessionOfEntry_Some _ _ _ _ _ _ _ He) as (file & _ & Hn & _).
      by rewrite Hn.
    + apply List.Forall_forall. intros [s m] Hin.
      apply list_elem_of_In, list_elem_of_omap in Hin as (e & Hin & He).
      apply list_elem_of_In in Hin.
      destruct (sessionOfEntry_Some _ _ _ _ _ _ _ He)
        as (file & Hd & Hn & Ho & Hs & H).
      cbv zeta in H. destruct H as (_ & Hm & Ha & Hf & Hv). cbn [fst snd].
      split_and!; [done..|]. exists e, file. rewrite Hf. by split_and!.
    + intros e file Hin Hd Hsuf Ho Hs.
      destruct (sessionOfEntry fs agent dir (sessionIndexOf fs p agent) e)
        as [[s m]|] eqn:He.
      * exists (s, m). split.
        -- apply list_elem_of_In, list_elem_of_omap. exists e.
           split; [by apply list_elem_of_In|done].
        -- by destruct (sessionOfEntry_Some _ _ _ _ _ _ _ He) as (_ & _ & Hn & _).
      * exfalso. unfold sessionOfEntry in He. rewrite Hd, Hsuf in He.
        cbn [orb negb] in He. cbv zeta in He. rewrite Ho in He.
        destruct (parsedSession_fields agent (TrimSuffix (DirEntry.Name e) ".jsonl")
                    (filepathJoin fs [dir; DirEntry.Name e]) file) as (Hpe & _).
        cbv zeta in Hpe. rewrite Hpe, Hs in He. done.
Qed.

(** X24. A session that [parseAgentSessions] returns is the session
    [parseSessionFile] builds from its file, with its start replaced by
    [time.UnixMilli(updatedAt)] when the index has an entry under its
    [Key()]; its duration and every other field stay those of the
    transcript. Since the key of an interactive session is
    [agent:{agent}], an entry of the index under that key gives all the
    interactive sessions of the agent the same start. *)
Theorem index_entry_replaces_the_start (fs : FileSystem) (p : Parser.t)
    (agent : string) (sessions : list (Session.t * list Message.t)) :
  fst (parseAgentSessions fs p agent) = inr sessions ->
  let index := sessionIndexOf fs p agent in
  Forall
    (fun sm =>
       let s := fst sm in
       exists file,
         Open fs (Session.FilePath s) = inr file
         /\ let t := parsedSession
                       (parseSessionFile agent (Session.ID s) (Session.FilePath s)
                          (inr file)) in
            match index !! Key s with
            | Some entry =>
                s = withStartedAt t
                      (UnixMilli (timeLocal fs) (SessionIndexEntry.UpdatedAt entry))
            | None => s = t
            end)
    sessions
  /\ (forall entry,
        index !! ("agent:" +:+ agent) = Some entry ->
        Forall
          (fun sm =>
             Session.Type_ (fst sm) = SessionTypeInteractive ->
             Session.StartedAt (fst sm)
             = UnixMilli (timeLocal fs) (SessionIndexEntry.UpdatedAt entry))
          sessions).
Proof.
  rewrite parseAgentSessions_spec.
  destruct (ReadDir fs (sessionsDirOf fs p agent)) as [err|entries]; [done|].
  intros [= <-] index.
  assert (H : forall s m,
             In (s, m) (omap (sessionOfEntry fs agent (sessionsDirOf fs p agent) index)
                          entries) ->
             exists file,
               Open fs (Session.FilePath s) = inr file
               /\ Session.Agent s = agent
               /\ match index !! Key s with
                  | Some entry =>
                      s = withStartedAt
                            (parsedSession
                               (parseSessionFile agent (Session.ID s) (Session.FilePath s)
                                  (inr file)))
                            (UnixMilli (timeLocal fs) (SessionIndexEntry.UpdatedAt entry))
                  | None =>
                      s = parsedSession
                            (parseSessionFile agent (Session.ID s) (Session.FilePath s)
                               (inr file))
                  end).
  { intros s m Hin.
    apply list_elem_of_In, list_elem_of_omap in Hin as (e & _ & He).
    destruct (sessionOfEntry_Some _ _ _ _ _ _ _ He) as (file & _ & _ & Ho & _ & H).
    cbv zeta in H. destruct H as (Hs & _ & Ha & Hf & _).
    exists file. rewrite Hf. split_and!; [done..|].
    remember (parsedSession
                (parseSessionFile agent (Session.ID s)
                   (filepathJoin fs [sessionsDirOf fs p agent; DirEntry.Name e]) (inr file)))
      as t eqn:Et. clear Et.
    destruct (index !! Key t) as [entry|] eqn:Ek.
    - assert (Hk : Key s = Key t) by (rewrite Hs; apply Key_withStartedAt).
      by rewrite Hk, Ek.
    - assert (Hk : Key s = Key t) by (by rewrite Hs).
      by rewrite Hk, Ek. }
  split.
  - apply List.Forall_forall. intros [s m] Hin. cbn [fst].
    destruct (H s m Hin) as (file & Ho & _ & Hs). by exists file.
  - intros entry Hentry. apply List.Forall_forall. intros [s m] Hin Hty. cbn [fst] in *.
    destruct (H s m Hin) as (file & _ & Ha & Hs).
    assert (Hk : Key s = "agent:" +:+ agent).
    { unfold Key. rewrite Hty, Ha. done. }
    rewrite Hk, Hentry in Hs. rewrite Hs. done.
Qed.

(** X25. [ParseAll] fails exactly when the directory of the agents cannot
    be read. Otherwise it returns the sessions of the listed agents (the
    directories that have a sub-directory [sessions]), agent by agent in
    the order of the directory, skipping an agent whose sessions cannot be
    read; with a filter that is not empty, every session it returns is of
    that agent; every session has a valid kind and the name of a directory
    as its agent. *)
Theorem ParseAll_applies_the_agent_filter (fs : FileSystem) (p : Parser.t)
    (agentFilter : string) :
  (forall err,
     ReadDir fs (Parser.agentsDir p) = inl err ->
     fst (ParseAll fs p agentFilter) = inl ("failed to read agents directory: " +:+ err))
  /\ (forall entries,
        ReadDir fs (Parser.agentsDir p) = inr entries ->
        exists sessions,
          fst (ParseAll fs p agentFilter) = inr sessions
          /\ sessions
             = concat (map (sessionsOfAgent fs p agentFilter)
                         (map DirEntry.Name (List.filter (isAgentDir fs p) entries)))
          /\ (agentFilter <> "" ->
              Forall (fun sm => Session.Agent (fst sm) = agentFilter) sessions)
          /\ Forall
               (fun sm =>
                  validKind (Session.Type_ (fst sm))
                  /\ exists e, In e entries /\ DirEntry.IsDir e = true
                               /\ DirEntry.Name e = Session.Agent (fst sm))
               sessions).
Proof.
  rewrite ParseAll_spec, ListAgents_spec. split.
  - by intros err ->.
  - intros entries ->. eexists. split; [reflexivity|]. split; [reflexivity|].
    assert (H : forall sm,
               In sm (concat (map (sessionsOfAgent fs p agentFilter)
                                (map DirEntry.Name (List.filter (isAgentDir fs p) entries)))) ->
               exists e, In e entries /\ DirEntry.IsDir e = true
                         /\ In sm (sessionsOfAgent fs p agentFilter (DirEntry.Name e))).
    { intros sm Hin. apply in_concat in Hin as (ss & Hss & Hin).
      apply in_map_iff in Hss as (a & <- & Ha).
      apply in_map_iff in Ha as (e & <- & He).
      apply List.filter_In in He as [He Hd]. unfold isAgentDir in Hd.
      apply andb_true_iff in Hd as [Hd _]. by exists e. }
    split.
    + intros Hne. apply List.Forall_forall. intros sm Hin.
      destruct (H sm Hin) as (e & _ & _ & Hsm).
      destruct (sessionsOfAgent_fields _ _ _ _ _ Hsm) as (Ha & Hf & _).
      rewrite Ha. by apply Hf.
    + apply List.Forall_forall. intros sm Hin.
      destruct (H sm Hin) as (e & He & Hd & Hsm).
      destruct (sessionsOfAgent_fields _ _ _ _ _ Hsm) as (Ha & _ & Hv).
      split; [done|]. by exists e.
Qed.

(** [ParseAll] on the sample directory: the one session of [urza], dated by
    the index, and the warning for [amos]. *)
Example the_sample_directory :
  fst (ParseAll sampleFS (NewParser "/agents") "")
  = inr sampleParsed
  /\ snd (ParseAll sampleFS (NewParser "/agents") "")
     = [Sprintf ("Warning: failed to parse sessions for agent %s: %v" +:+ LF)
          [ArgString "amos";
           ArgString "failed to read sessions directory: open /agents/amos/sessions: permission denied"]]
  /\ map (fun sm => (Session.ID (fst sm), Session.Agent (fst sm), Session.Type_ (fst sm),
                     Session.FilePath (fst sm)))
       sampleParsed
     = [("test-session", "urza", "interactive", "/agents/urza/sessions/test-session.jsonl")]
  /\ map (fun sm => Session.StartedAt (fst sm)) sampleParsed
     = [time.Date 2025 2 10 16 53 15 416000000 time.UTC].
Proof. vm_compute. by split_and!. Qed.

(** X24 on the sample directory. *)
Lemma index_entry_witness :
  Forall
    (fun sm =>
       Session.Type_ (fst sm) = SessionTypeInteractive ->
       Session.StartedAt (fst sm) = UnixMilli time.UTC 1739206395416)
    sampleParsed.
Proof.
  refine (proj2 (index_entry_replaces_the_start sampleFS (NewParser "/agents") "urza"
                   sampleParsed _)
            (SessionIndexEntry.mk "agent:urza" "test-session" 1739206395416) _).
  - vm_compute. reflexivity.
  - vm_compute. reflexivity.
Defined.

Lemma if_app {A : Type} (c : bool) (b l : list A) :
  (if c then b ++ l else b)%list = (b ++ if c then l else [])%list.
Proof. destruct c; [done|by rewrite app_nil_r]. Qed.

Lemma writeAnomaly_app b a : writeAnomaly b a = (b ++ writeAnomaly [] a)%list.
Proof.
  unfold writeAnomaly, WriteString, append. cbv zeta.
  destruct (fgt _ _); [destruct (negb _)|]; by rewrite <- ?app_assoc.
Qed.

Lemma fold_writeAnomaly l b :
  fold_left writeAnomaly l b = (b ++ flat_map (writeAnomaly []) l)%list.
Proof.
  revert b. induction l as [|a l IH]; intros b; cbn [fold_left flat_map].
  - by rewrite app_nil_r.
  - by rewrite IH, (writeAnomaly_app b a), <- app_assoc.
Qed.

Lemma writeSessions_firstn i l b :
  writeSessions i l b = (b ++ map sessionRow (firstn (10 - i) l))%list.
Proof.
  revert i b. induction l as [|s l IH]; intros i b; cbn [writeSessions].
  - rewrite firstn_nil. simpl. by rewrite app_nil_r.
  - destruct (10 <=? i)%nat eqn:E.
    + apply Nat.leb_le in E. replace (10 - i)%nat with 0%nat by lia.
      simpl. by rewrite app_nil_r.
    + apply Nat.leb_gt in E. rewrite IH. unfold WriteString, append.
      replace (10 - i)%nat with (S (10 - S i)) by lia.
      cbn [firstn map]. by rewrite <- app_assoc.
Qed.

Lemma Format_layout r :
  let byCron := default [] (Report.ByCron r) in
  let sessions := default [] (Report.Sessions r) in
  TextFormatter_Format r
  = (TextFormatter_Format (summaryOnly r)
     ++ table (0 <? length (Report.ByAgent r))%nat " BY AGENT" [agentsHeader]
          (map agentRow (Report.ByAgent r))
     ++ table (0 <? length (Report.BySessionType r))%nat " BY SESSION TYPE" [typesHeader]
          (map typeRow (Report.BySessionType r))
     ++ table (0 <? length byCron)%nat " BY CRON JOB" [cronsHeader] (map cronRow byCron)
     ++ table (0 <? length (Report.ByModel r))%nat " BY MODEL" [modelsHeader]
          (map modelRow (Report.ByModel r))
     ++ table (1 <? length (Report.ByDay r))%nat " DAILY TREND" [daysHeader]
          (map dayRow (Report.ByDay r))
     ++ table (0 <? length (Report.Anomalies r))%nat " ANOMALIES" []
          (flat_map (writeAnomaly []) (Report.Anomalies r))
     ++ table ((0 <? length sessions)%nat && (length sessions <=? 20)%nat)
          " TOP EXPENSIVE SESSIONS" [sessionsHeader]
          (map sessionRow (firstn 10 sessions)))%list.
Proof.
  intros byCron sessions.
  unfold TextFormatter_Format, summaryOnly.
  cbn [Report.GeneratedAt Report.Period Report.TotalCost Report.TotalTokens
       Report.TotalSessions Report.ByAgent Report.BySessionType Report.ByCron
       Report.ByModel Report.ByDay Report.Anomalies Report.Sessions length default].
  change (0 <? 0)%nat with false. change (1 <? 0)%nat with false.
  cbn [andb]. fold byCron sessions.
  cbv zeta. unfold WriteString.
  rewrite !fold_append_all, fold_writeAnomaly, writeSessions_firstn.
  unfold append, table.
  destruct (negb (String.eqb (Report.Period r) ""));
    repeat
      match goal with
      | |- context [if ?c then _ else ?b] =>
          lazymatch b with
          | [] => fail
          | _ => set (b0 := b); rewrite <- !app_assoc, (if_app c b0); subst b0
          end
      end;
    rewrite <- !app_assoc; reflexivity.
Qed.

Lemma rendered_app fmt a b :
  rendered fmt (a ++ b) = (rendered fmt a ++ rendered fmt b)%list.
Proof. apply List.filter_app. Qed.

Lemma rendered_none {A : Type} fmt (row : A -> Text) l :
  (forall x, hasFormat fmt (row x) = false) -> rendered fmt (map row l) = [].
Proof. intros H. induction l as [|x l IH]; simpl; [done|]. by rewrite H. Qed.

Lemma rendered_all {A : Type} fmt (row : A -> Text) l :
  (forall x, hasFormat fmt (row x) = true) -> rendered fmt (map row l) = map row l.
Proof. intros H. induction l as [|x l IH]; simpl; [done|]. rewrite H. by f_equal. Qed.

Lemma rendered_table fmt c title header rows :
  rendered fmt (table c title header rows)
  = if c then (rendered fmt header ++ rendered fmt rows)%list else [].
Proof.
  unfold table. destruct c; [|done].
  rewrite !rendered_app. simpl. by rewrite app_nil_r.
Qed.

Lemma rendered_anomalies fmt l :
  hasFormat fmt (Render ("  %s [%s] %s" +:+ LF) []) = false ->
  hasFormat fmt (Render "     Cost: %s" []) = false ->
  hasFormat fmt (Render " | Agent: %s" []) = false ->
  rendered fmt (flat_map (writeAnomaly []) l) = [].
Proof.
  intros H1 H2 H3. induction l as [|a l IH]; [done|].
  cbn [flat_map]. rewrite rendered_app, IH, app_nil_r.
  unfold writeAnomaly, WriteString, append. cbv zeta.
  cbn [hasFormat] in H1, H2, H3.
  destruct (fgt _ _); [destruct (negb _)|]; cbn [app rendered List.filter hasFormat];
    by rewrite ?H1, ?H2, ?H3.
Qed.

Lemma rendered_summary fmt r :
  hasFormat fmt (Render ("Generated: %s" +:+ LF) []) = false ->
  hasFormat fmt (Render ("Period:    %s" +:+ LF) []) = false ->
  hasFormat fmt (Render ("  Total Sessions: %d" +:+ LF) []) = false ->
  hasFormat fmt (Render ("  Total Cost:     %s" +:+ LF) []) = false ->
  hasFormat fmt (Render ("  Total Tokens:   %s" +:+ LF) []) = false ->
  rendered fmt (TextFormatter_Format (summaryOnly r)) = [].
Proof.
  intros H1 H2 H3 H4 H5. cbn [hasFormat] in *.
  unfold TextFormatter_Format, summaryOnly.
  cbn [Report.GeneratedAt Report.Period Report.TotalCost Report.TotalTokens
       Report.TotalSessions Report.ByAgent Report.BySessionType Report.ByCron
       Report.ByModel Report.ByDay Report.Anomalies Report.Sessions length default].
  change (0 <? 0)%nat with false. change (1 <? 0)%nat with false.
  cbn [andb]. cbv zeta. unfold WriteString, append, rule.
  destruct (negb _); cbn [app rendered List.filter hasFormat];
    by rewrite ?H1, ?H2, ?H3, ?H4, ?H5.
Qed.

Lemma sessions_of_the_text r :
  let sessions := default [] (Report.Sessions r) in
  rendered ("  %-12s %-15s %10s %10s %s" +:+ LF) (TextFormatter_Format r)
  = if (0 <? length sessions)%nat && (length sessions <=? 20)%nat
    then sessionsHeader :: map sessionRow (firstn 10 sessions)
    else [].
Proof.
  intros sessions. rewrite Format_layout. fold sessions.
  rewrite !rendered_app, !rendered_table.
  rewrite rendered_summary by reflexivity.
  rewrite rendered_anomalies by reflexivity.
  rewrite !(rendered_none _ agentRow), !(rendered_none _ typeRow),
    !(rendered_none _ cronRow), !(rendered_none _ modelRow),
    !(rendered_none _ dayRow) by reflexivity.
  rewrite (rendered_all _ sessionRow) by reflexivity.
  repeat (match goal with |- context [if ?c then _ else _] =>
            lazymatch c with
            | (_ && _) => fail
            | _ => destruct c
            end
          end).
  all: by destruct (_ && _).
Qed.

(** ** The sections of the text *)

Lemma nonempty_length {A : Type} (l : list A) : (0 <? length l)%nat = true <-> l <> [].
Proof. destruct l; simpl; split; done. Qed.

Lemma title_in_table s c title header rows :
  (forall x, In x header -> exists f a, x = Render f a) ->
  (forall x, In x rows -> x = Plain LF \/ exists f a, x = Render f a) ->
  In (Plain (String " " s)) (table c title header rows)
  <-> c = true /\ String " " s = title +:+ LF.
Proof.
  intros Hh Hr. unfold table. destruct c; [|simpl; by intuition].
  rewrite !in_app_iff. split.
  - intros [H|[H|[H|H]]].
    + simpl in H. destruct H as [H|[H|[H|[]]]]; try discriminate H.
      split; [done|congruence].
    + destruct (Hh _ H) as (f & a & E). discriminate E.
    + destruct (Hr _ H) as [E|(f & a & E)]; discriminate E.
    + simpl in H. destruct H as [H|[]]. discriminate H.
  - intros [_ E]. left. right. left. by rewrite E.
Qed.

Lemma rows_are_rendered {A : Type} (row : A -> Text) (l : list A) :
  (forall a, exists f args, row a = Render f args) ->
  forall x, In x (map row l) -> x = Plain LF \/ exists f a, x = Render f a.
Proof. intros H x Hx. apply in_map_iff in Hx as (a & <- & _). right. apply H. Qed.

Lemma anomalies_are_rendered l :
  forall x, In x (flat_map (writeAnomaly []) l) ->
            x = Plain LF \/ exists f a, x = Render f a.
Proof.
  intros x Hx. apply in_flat_map in Hx as (a & _ & Hx).
  unfold writeAnomaly, WriteString, append in Hx. cbv zeta in Hx.
  destruct (fgt _ _); [destruct (negb _)|]; simpl in Hx;
    repeat (destruct Hx as [<-|Hx]; [by eauto|]); done.
Qed.

Lemma title_in_summary s r :
  In (Plain (String " " s)) (TextFormatter_Format (summaryOnly r))
  <-> String " " s = " SUMMARY" +:+ LF.
Proof.
  unfold TextFormatter_Format, summaryOnly.
  cbn [Report.GeneratedAt Report.Period Report.TotalCost Report.TotalTokens
       Report.TotalSessions Report.ByAgent Report.BySessionType Report.ByCron
       Report.ByModel Report.ByDay Report.Anomalies Report.Sessions length default].
  change (0 <? 0)%nat with false. change (1 <? 0)%nat with false.
  cbn [andb]. cbv zeta. unfold WriteString, append, rule.
  split.
  - destruct (negb _); cbn [app]; intros H;
      repeat (destruct H as [H|H]; [try discriminate H|]); try done;
      congruence.
  - intros E. rewrite E.
    destruct (negb _); cbn [app]; repeat first [left; reflexivity | right].
Qed.

Lemma titles_of_the_text r s :
  let byCron := default [] (Report.ByCron r) in
  let sessions := default [] (Report.Sessions r) in
  In (Plain (String " " s)) (TextFormatter_Format r)
  <-> String " " s = " SUMMARY" +:+ LF
      \/ ((0 <? length (Report.ByAgent r))%nat = true
          /\ String " " s = " BY AGENT" +:+ LF)
      \/ ((0 <? length (Report.BySessionType r))%nat = true
          /\ String " " s = " BY SESSION TYPE" +:+ LF)
      \/ ((0 <? length byCron)%nat = true /\ String " " s = " BY CRON JOB" +:+ LF)
      \/ ((0 <? length (Report.ByModel r))%nat = true
          /\ String " " s = " BY MODEL" +:+ LF)
      \/ ((1 <? length (Report.ByDay r))%nat = true
          /\ String " " s = " DAILY TREND" +:+ LF)
      \/ ((0 <? length (Report.Anomalies r))%nat = true
          /\ String " " s = " ANOMALIES" +:+ LF)
      \/ ((0 <? length sessions)%nat && (length sessions <=? 20)%nat = true
          /\ String " " s = " TOP EXPENSIVE SESSIONS" +:+ LF).
Proof.
  intros byCron sessions. rewrite Format_layout. fold byCron sessions.
  rewrite !in_app_iff, title_in_summary.
  assert (Hh : forall h, (exists f a, h = Render f a) ->
                         forall x, In x [h] -> exists f a, x = Render f a).
  { intros h H x [<-|[]]. exact H. }
  rewrite !title_in_table;
    first [ done
          | apply anomalies_are_rendered
          | by intros x []
          | apply Hh; by eauto
          | apply rows_are_rendered; intros a; by eauto ].
Qed.

(** X26. The text of a report has the section [SUMMARY] always, and each
    other section exactly when it has something to show: the sections by
    agent, by kind, by cron job and by model and the anomalies when their
    slice is not empty, the daily trend when there are at least two days,
    and the sessions when there are between 1 and 20 of them. A report of
    one day has no daily trend, and a report of 21 sessions or more lists
    none. *)
Theorem text_sections_are_printed_when_they_have_rows (r : Report.t) :
  let output := TextFormatter_Format r in
  let byCron := default [] (Report.ByCron r) in
  let sessions := default [] (Report.Sessions r) in
  In (Plain (" SUMMARY" +:+ LF)) output
  /\ (In (Plain (" BY AGENT" +:+ LF)) output <-> Report.ByAgent r <> [])
  /\ (In (Plain (" BY SESSION TYPE" +:+ LF)) output <-> Report.BySessionType r <> [])
  /\ (In (Plain (" BY CRON JOB" +:+ LF)) output <-> byCron <> [])
  /\ (In (Plain (" BY MODEL" +:+ LF)) output <-> Report.ByModel r <> [])
  /\ (In (Plain (" DAILY TREND" +:+ LF)) output <-> (1 < length (Report.ByDay r))%nat)
  /\ (In (Plain (" ANOMALIES" +:+ LF)) output <-> Report.Anomalies r <> [])
  /\ (In (Plain (" TOP EXPENSIVE SESSIONS" +:+ LF)) output
      <-> (0 < length sessions <= 20)%nat).
Proof.
  intros output byCron sessions. subst output.
  assert (Hs : (0 <? length sessions)%nat && (length sessions <=? 20)%nat = true
               <-> (0 < length sessions <= 20)%nat).
  { by rewrite andb_true_iff, Nat.ltb_lt, Nat.leb_le. }
  pose proof (fun s => titles_of_the_text r s) as T. cbv zeta in T.
  fold byCron sessions in T.
  split_and!.
  - apply (T ("SUMMARY" +:+ LF)). by left.
  - rewrite <- nonempty_length. etransitivity; [apply (T ("BY AGENT" +:+ LF))|].
    split; [intros H; by decompose [or and] H|intros H; right; left; by split].
  - rewrite <- nonempty_length. etransitivity; [apply (T ("BY SESSION TYPE" +:+ LF))|].
    split; [intros H; by decompose [or and] H|intros H; do 2 right; left; by split].
  - rewrite <- nonempty_length. etransitivity; [apply (T ("BY CRON JOB" +:+ LF))|].
    split; [intros H; by decompose [or and] H|intros H; do 3 right; left; by split].
  - rewrite <- nonempty_length. etransitivity; [apply (T ("BY MODEL" +:+ LF))|].
    split; [intros H; by decompose [or and] H|intros H; do 4 right; left; by split].
  - rewrite <- Nat.ltb_lt. etransitivity; [apply (T ("DAILY TREND" +:+ LF))|].
    split; [intros H; by decompose [or and] H|intros H; do 5 right; left; by split].
  - rewrite <- nonempty_length. etransitivity; [apply (T ("ANOMALIES" +:+ LF))|].
    split; [intros H; by decompose [or and] H|intros H; do 6 right; left; by split].
  - rewrite <- Hs. etransitivity; [apply (T ("TOP EXPENSIVE SESSIONS" +:+ LF))|].
    split; [intros H; by decompose [or and] H|intros H; do 7 right; by split].
Qed.

Lemma getSessionDetails_length l : length (getSessionDetails l) = length l.
Proof.
  rewrite getSessionDetails_sorts, (Permutation_length (sortSlice_perm _ _)).
  apply length_map.
Qed.

(** X27. The strings of the text that are made with the format of the
    sessions table are its header and one row for each of the first ten
    sessions of the report, in their order, when the report has between 1
    and 20 sessions; there is none otherwise. For the report of
    [Generate] the rows are those of the first ten details of
    [getSessionDetails], and the table is there only with [Full] and when
    the period keeps between 1 and 20 sessions. *)
Theorem text_lists_at_most_ten_sessions :
  (forall r : Report.t,
     let sessions := default [] (Report.Sessions r) in
     rendered ("  %-12s %-15s %10s %10s %s" +:+ LF) (TextFormatter_Format r)
     = if (0 <? length sessions)%nat && (length sessions <=? 20)%nat
       then sessionsHeader :: map sessionRow (firstn 10 sessions)
       else [])
  /\ (forall (env : Env) (r : Reporter.t),
        let kept := filterByPeriod (now env) r (Reporter.sessions r) in
        rendered ("  %-12s %-15s %10s %10s %s" +:+ LF)
          (TextFormatter_Format (Generate env r))
        = if Config.Full (Reporter.config r)
             && (0 <? length kept)%nat && (length kept <=? 20)%nat
          then sessionsHeader :: map sessionRow (firstn 10 (getSessionDetails kept))
          else []).
Proof.
  split; [exact sessions_of_the_text|].
  intros env r kept. rewrite sessions_of_the_text.
  change (Report.Sessions (Generate env r))
    with (if Config.Full (Reporter.config r) then Some (getSessionDetails kept) else None).
  destruct (Config.Full (Reporter.config r)); [|done].
  cbn [from_option id andb]. by rewrite getSessionDetails_length.
Qed.

(** ** [runReport] *)

Lemma period_check p :
  negb (String.eqb p "") && negb (default false (validPeriods !! p)) = true
  <-> unknownPeriod p.
Proof.
  rewrite andb_true_iff, !negb_true_iff, String.eqb_neq.
  rewrite <- not_true_iff_false, validPeriods_spec. unfold unknownPeriod. tauto.
Qed.

Lemma outcome_from_dir w f :
  outcome w f
  = match agentsDirOf w f with
    | inl err => inl ("failed to get home directory: " +:+ err)
    | inr dir =>
        if negb (String.eqb (Flags.reportPeriod f) "")
           && negb (default false (validPeriods !! Flags.reportPeriod f))
        then inl ("invalid period: " +:+ Flags.reportPeriod f
                  +:+ " (valid: today, yesterday, week, month, all)")
        else if negb (String.eqb (Flags.reportFormat f) "json")
                && negb (String.eqb (Flags.reportFormat f) "text")
        then inl ("invalid format: " +:+ Flags.reportFormat f +:+ " (valid: json, text)")
        else
          match fst (ParseAll (files w) (NewParser dir) (Flags.reportAgent f)) with
          | inl err => inl ("failed to parse sessions: " +:+ err)
          | inr sessions =>
              let report := Generate (runtime w) (New (map fst sessions) (configOf f)) in
              if String.eqb (Flags.reportFormat f) "json" then
                match Encode w report with
                | inl err => inl ("failed to format report: " +:+ err)
                | inr buf => inr [Plain buf]
                end
              else inr (TextFormatter_Format report)
          end
    end.
Proof.
  unfold outcome, runReport, agentsDirOf.
  destruct (String.eqb (Flags.agentsDir f) ""); [destruct (UserHomeDir w)|];
    cbv zeta; try done;
    repeat (destruct (_ && _); [done|]);
    destruct (ParseAll _ _ _) as [[err|sessions] stderr]; try done;
    unfold configOf, Format, JSONFormatter_Format, NewJSONFormatter, NewTextFormatter;
    cbn [fst]; destruct (String.eqb (Flags.reportFormat f) "json"); try done;
    by destruct (Encode w _).
Qed.

Lemma outcome_printed w f output :
  outcome w f = inr output ->
  ~ unknownPeriod (Flags.reportPeriod f)
  /\ exists dir sessions,
       agentsDirOf w f = inr dir
       /\ fst (ParseAll (files w) (NewParser dir) (Flags.reportAgent f)) = inr sessions
       /\ printed w f (Generate (runtime w) (New (map fst sessions) (configOf f))) output.
Proof.
  rewrite outcome_from_dir.
  destruct (agentsDirOf w f) as [e|dir]; [done|].
  destruct (negb (String.eqb (Flags.reportPeriod f) "") && _) eqn:Ep; [done|].
  assert (Hk : ~ unknownPeriod (Flags.reportPeriod f)).
  { intros Hu. apply period_check in Hu. congruence. }
  destruct (String.eqb (Flags.reportFormat f) "json") eqn:Ej.
  - cbn [negb andb].
    destruct (fst (ParseAll _ _ _)) as [e|sessions] eqn:Es; [done|]. cbv zeta.
    destruct (Encode w _) as [e|buf] eqn:Ee; [done|].
    intros [= <-]. split; [done|]. exists dir, sessions. split_and!; [done..|].
    left. apply String.eqb_eq in Ej. split; [done|]. by exists buf.
  - cbn [negb andb].
    destruct (String.eqb (Flags.reportFormat f) "text") eqn:Et; [|done].
    cbn [negb].
    destruct (fst (ParseAll _ _ _)) as [e|sessions] eqn:Es; [done|]. cbv zeta.
    intros [= <-]. split; [done|]. exists dir, sessions. split_and!; [done..|].
    right. by apply String.eqb_eq in Et.
Qed.

(** X28. [runReport] checks the period and the format before it reads any
    session. When it prints, the period is one of the six labels
    [filterByPeriod] tests for, and what it prints is the report
    [Generate] makes from the sessions [ParseAll] returns, with the flags
    as configuration, in the format asked for: the JSON the encoder
    returns, or the text of [TextFormatter]. In the format [text], with
    such a period, it prints whenever [ParseAll] succeeds. A period that is
    none of the six labels gives the error [invalid period], whatever the
    format and the disk hold; an error of the home directory comes
    first. *)
Theorem runReport_validates_before_it_parses (w : World) (f : Flags.t) :
  (forall output,
     outcome w f = inr output ->
     ~ unknownPeriod (Flags.reportPeriod f)
     /\ exists dir sessions,
          agentsDirOf w f = inr dir
          /\ fst (ParseAll (files w) (NewParser dir) (Flags.reportAgent f)) = inr sessions
          /\ printed w f (Generate (runtime w) (New (map fst sessions) (configOf f)))
               output)
  /\ (forall dir sessions,
        agentsDirOf w f = inr dir ->
        ~ unknownPeriod (Flags.reportPeriod f) ->
        Flags.reportFormat f = "text" ->
        fst (ParseAll (files w) (NewParser dir) (Flags.reportAgent f)) = inr sessions ->
        outcome w f
        = inr (TextFormatter_Format
                 (Generate (runtime w) (New (map fst sessions) (configOf f)))))
  /\ (forall dir,
        agentsDirOf w f = inr dir ->
        unknownPeriod (Flags.reportPeriod f) ->
        runReport w f
        = ([], inl ("invalid period: " +:+ Flags.reportPeriod f
                    +:+ " (valid: today, yesterday, week, month, all)")))
  /\ (forall err,
        agentsDirOf w f = inl err ->
        runReport w f = ([], inl ("failed to get home directory: " +:+ err))).
Proof.
  split_and!.
  - apply outcome_printed.
  - intros dir sessions Hd Hp Hf Hs. rewrite outcome_from_dir, Hd, Hf, Hs.
    destruct (negb (String.eqb (Flags.reportPeriod f) "") && _) eqn:Ep; [|done].
    by apply period_check in Ep.
  - unfold runReport, agentsDirOf. intros dir Hd Hu. apply period_check in Hu.
    destruct (String.eqb (Flags.agentsDir f) ""); [destruct (UserHomeDir w)|];
      try done; by rewrite Hu.
  - unfold runReport, agentsDirOf. intros err Hd.
    destruct (String.eqb (Flags.agentsDir f) ""); [destruct (UserHomeDir w)|];
      try done. by injection Hd as ->.
Qed.

Lemma aggregateByAgent_agents o l :
  NoDup (map AgentSummary.Agent (aggregateByAgent o l))
  /\ (forall k, In k (map AgentSummary.Agent (aggregateByAgent o l))
                <-> exists s, In s l /\ Session.Agent s = k).
Proof.
  rewrite aggregateByAgent_group.
  destruct (aggregate_keys agentKey agentInit agentUpd (fun v => v) AgentSummary.Agent
              (fun a b => fgt (AgentSummary.TotalCost a) (AgentSummary.TotalCost b)) o l
              ltac:(done) ltac:(done)) as [Hn Hk].
  split; [exact Hn|]. intros k. rewrite (Hk k). unfold agentKey.
  split; intros (s & ? & ?); exists s; split; congruence.
Qed.

Lemma NoDup_all_equal {A : Type} (x : A) (l : list A) :
  NoDup l -> (forall y, In y l -> y = x) -> (length l <= 1)%nat.
Proof.
  intros Hn Hall. destruct l as [|a [|b l]]; simpl; [lia..|].
  exfalso. apply NoDup_cons in Hn as [Hn _]. apply Hn.
  rewrite (Hall a), (Hall b) by (simpl; auto). by left.
Qed.

Lemma ParseAll_fields fs p agentFilter sessions :
  fst (ParseAll fs p agentFilter) = inr sessions ->
  Forall
    (fun sm =>
       (agentFilter <> "" -> Session.Agent (fst sm) = agentFilter)
       /\ validKind (Session.Type_ (fst sm)))
    sessions.
Proof.
  rewrite ParseAll_spec. destruct (ListAgents fs p) as [err|agents]; [done|].
  intros [= <-]. apply List.Forall_forall. intros sm Hin.
  apply in_concat in Hin as (ss & Hss & Hin).
  apply in_map_iff in Hss as (a & <- & _).
  destruct (sessionsOfAgent_fields _ _ _ _ _ Hin) as (Ha & Hf & Hv).
  split; [|done]. intros Hne. rewrite Ha. by apply Hf.
Qed.

Lemma Forall_map_fst {A B : Type} (P : A -> Prop) (l : list (A * B)) :
  Forall (fun sm => P (fst sm)) l -> Forall P (map fst l).
Proof. induction 1; simpl; by constructor. Qed.

(** X29. When [runReport] prints with an agent asked for, what it prints
    is a report about that agent only: at most one entry by agent, with
    that name, and every anomaly and every session detail is of that
    agent. The entries by kind are in the strict order interactive, cron,
    sub-agent. *)
Theorem runReport_reports_the_agent_asked_for (w : World) (f : Flags.t)
    (output : list Text) :
  outcome w f = inr output ->
  Flags.reportAgent f <> "" ->
  exists report,
    printed w f report output
    /\ Forall (fun a => AgentSummary.Agent a = Flags.reportAgent f) (Report.ByAgent report)
    /\ (length (Report.ByAgent report) <= 1)%nat
    /\ Forall (fun a => Anomaly.Agent a = Flags.reportAgent f) (Report.Anomalies report)
    /\ (forall details,
          Report.Sessions report = Some details ->
          Forall (fun d => SessionDetail.Agent d = Flags.reportAgent f) details)
    /\ Sorted
         (fun a b =>
            order_at (SessionTypeSummary.Type_ a) < order_at (SessionTypeSummary.Type_ b))
         (Report.BySessionType report).
Proof.
  intros Hout Hne.
  destruct (outcome_printed _ _ _ Hout) as (_ & dir & parsed & _ & Ep & Hpr).
  eexists. split; [exact Hpr|]. clear Hpr Hout.
  pose proof (ParseAll_fields _ _ _ _ Ep) as Hp.
  set (sessions := map fst parsed).
  assert (Ha : Forall (fun s => Session.Agent s = Flags.reportAgent f) sessions).
  { apply Forall_map_fst. eapply Forall_impl; [exact Hp|]. intros sm [H _]. by apply H. }
  assert (Hv : Forall (fun s => validKind (Session.Type_ s)) sessions).
  { apply Forall_map_fst. eapply Forall_impl; [exact Hp|]. by intros sm [_ H]. }
  set (r := New sessions (configOf f)).
  set (filtered := filterByPeriod (now (runtime w)) r (Reporter.sessions r)).
  assert (Hfa : Forall (fun s => Session.Agent s = Flags.reportAgent f) filtered)
    by (by apply Forall_filterByPeriod).
  assert (Hfv : Forall (fun s => validKind (Session.Type_ s)) filtered)
    by (by apply Forall_filterByPeriod).
  rewrite List.Forall_forall in Hfa.
  assert (Hagents : forall k,
             In k (map AgentSummary.Agent (Report.ByAgent (Generate (runtime w) r))) ->
             k = Flags.reportAgent f).
  { intros k Hk. apply aggregateByAgent_agents in Hk as (s & Hs & <-). by apply Hfa. }
  split_and!.
  - apply List.Forall_forall. intros a Hin. apply Hagents, in_map, Hin.
  - rewrite <- (length_map AgentSummary.Agent).
    apply (NoDup_all_equal (Flags.reportAgent f)); [|exact Hagents].
    apply aggregateByAgent_agents.
  - apply List.Forall_forall. intros a Hin.
    change (Report.Anomalies (Generate (runtime w) r)) with (detectAnomalies r filtered)
      in Hin.
    rewrite detectAnomalies_concat, !in_app_iff, !in_map_iff in Hin.
    destruct Hin as [ (s & <- & Hs) | [ (s & <- & Hs) | (s & <- & Hs) ] ];
      apply List.filter_In in Hs as [Hs _]; by apply Hfa.
  - intros details Hd.
    change (Report.Sessions (Generate (runtime w) r))
      with (if Config.Full (Reporter.config r) then Some (getSessionDetails filtered)
            else None) in Hd.
    destruct (Config.Full (Reporter.config r)); [|done]. injection Hd as <-.
    apply List.Forall_forall. intros d Hin.
    rewrite getSessionDetails_sorts in Hin.
    apply (Permutation_in _ (sortSlice_perm _ _)) in Hin.
    apply in_map_iff in Hin as (s & <- & Hs). by apply Hfa.
  - by apply aggregateBySessionType_strict.
Qed.

(** X29 on the sample directory, with the agent [urza] asked for. *)
Lemma runReport_reports_the_agent_witness :
  exists report,
    printed sampleWorld sampleFlags report
      (TextFormatter_Format
         (Generate sampleEnv (New (map fst sampleParsed) (configOf sampleFlags))))
    /\ Forall (fun a => AgentSummary.Agent a = "urza") (Report.ByAgent report)
    /\ (length (Report.ByAgent report) <= 1)%nat.
Proof.
  destruct (runReport_reports_the_agent_asked_for sampleWorld sampleFlags
              (TextFormatter_Format
                 (Generate sampleEnv (New (map fst sampleParsed) (configOf sampleFlags)))))
    as (report & Hp & H1 & H2 & _).
  - vm_compute. reflexivity.
  - discriminate.
  - exists report. split; [exact Hp|]. split; [exact H1|exact H2].
Defined.

(** [runReport] on the sample directory, in text: no warning, and the
    report of the one session of [urza]. *)
Example the_sample_report_in_text :
  let output :=
    TextFormatter_Format
      (Generate sampleEnv (New (map fst sampleParsed) (configOf sampleFlags))) in
  runReport sampleWorld sampleFlags = ([], inr output)
  /\ rendered ("Generated: %s" +:+ LF) output
     = [Render ("Generated: %s" +:+ LF) [OText (Plain "2026-02-11T15:30:00Z")]]
  /\ rendered ("  Total Sessions: %d" +:+ LF) output
     = [Render ("  Total Sessions: %d" +:+ LF) [OInt 1]]
  /\ rendered ("  Total Tokens:   %s" +:+ LF) output
     = [Render ("  Total Tokens:   %s" +:+ LF) [OText (Plain "450")]]
  /\ length output = 31%nat.
Proof. vm_compute. by split_and!. Qed.

(** The zone of [Format_RFC3339], the digits of [Itoa], and the formats
    [FormatTokens] and [FormatCost] choose on the values of their tests. *)
Example the_zone_of_RFC3339 :
  Format_RFC3339 (time.Date 2026 2 11 15 30 0 0 (time.FixedZone (-19800)))
  = "2026-02-11T15:30:00-05:30"
  /\ Format_RFC3339 (time.Date 2026 2 11 15 30 0 0 (time.FixedZone 3600))
     = "2026-02-11T15:30:00+01:00"
  /\ Format_RFC3339 time.zero = "0001-01-01T00:00:00Z"
  /\ map Itoa [0; -42; 1000; min_int]
     = ["0"; "-42"; "1000"; "-9223372036854775808"]
  /\ map FormatTokens [500; 1500; 50000; 1500000]
     = [Plain "500"; Render "%.1fk" [OFloat 1.5%float];
        Render "%.1fk" [OFloat 50%float]; Render "%.2fM" [OFloat 1.5%float]]
  /\ map FormatCost [0.0078125%float; 1.5%float]
     = [Render "$%.4f" [OFloat 0.0078125%float]; Render "$%.2f" [OFloat 1.5%float]].
Proof. vm_compute. by split_and!. Qed.

(** [formatSessionType] returns its argument. *)
Lemma formatSessionType_id t : formatSessionType t = t.
Proof.
  unfold formatSessionType.
  destruct (String.eqb_spec t SessionTypeInteractive) as [->|_]; [reflexivity|].
  destruct (String.eqb_spec t SessionTypeCron) as [->|_]; [reflexivity|].
  destruct (String.eqb_spec t SessionTypeSubagent) as [->|_]; reflexivity.
Qed.

(** ** The command [agents] *)

(** X30. The command [agents] prints one line for each directory of the
    agents directory that holds a sub-directory [sessions], in the order
    of the directory, after the line [Available agents:]; it prints [No
    agents found] when there is none. Every session that [ParseAll]
    returns without a filter, and so every session of a report of all the
    agents, is of an agent it lists. *)
Theorem agents_lists_the_agents_of_the_reports (w : World) (f : Flags.t)
    (dir : string) (entries : list DirEntry.t) :
  agentsDirOf w f = inr dir ->
  ReadDir (files w) dir = inr entries ->
  let agents :=
    map DirEntry.Name (List.filter (isAgentDir (files w) (NewParser dir)) entries) in
  exists output,
    agentsCmd_RunE w f = inr output
    /\ output
       = (if (length agents =? 0)%nat then [Plain ("No agents found" +:+ LF)]
          else Plain ("Available agents:" +:+ LF) :: map agentLine agents)
    /\ rendered ("  - %s" +:+ LF) output = map agentLine agents
    /\ (forall sessions,
          fst (ParseAll (files w) (NewParser dir) "") = inr sessions ->
          Forall (fun sm => In (agentLine (Session.Agent (fst sm))) output) sessions).
Proof.
  intros Hd He agents.
  assert (Hl : ListAgents (files w) (NewParser dir) = inr agents).
  { rewrite ListAgents_spec. cbn [Parser.agentsDir NewParser]. by rewrite He. }
  exists (if (length agents =? 0)%nat then [Plain ("No agents found" +:+ LF)]
          else Plain ("Available agents:" +:+ LF) :: map agentLine agents).
  split_and!.
  - unfold agentsCmd_RunE. unfold agentsDirOf in Hd.
    destruct (String.eqb (Flags.agentsDir f) ""); [destruct (UserHomeDir w)|];
      try done; injection Hd as ->; cbv zeta; rewrite Hl;
      rewrite fold_append_all; by destruct (length agents =? 0)%nat.
  - done.
  - destruct agents as [|a l]; [done|].
    transitivity (rendered ("  - %s" +:+ LF) (map agentLine (a :: l)));
      [reflexivity|by apply rendered_all].
  - intros sessions Hs. rewrite ParseAll_spec, Hl in Hs. injection Hs as <-.
    apply List.Forall_forall. intros sm Hin.
    apply in_concat in Hin as (ss & Hss & Hin).
    apply in_map_iff in Hss as (a & <- & Ha).
    destruct (sessionsOfAgent_fields _ _ _ _ _ Hin) as (-> & _).
    destruct agents as [|a' l]; [done|].
    cbn [length Nat.eqb app]. right. by apply in_map.
Qed.

(** X30 on the sample directory: [amos] is listed, its sessions cannot be
    read. *)
Lemma agents_lists_the_agents_witness :
  exists output,
    agentsCmd_RunE sampleWorld sampleFlags = inr output
    /\ output = [Plain ("Available agents:" +:+ LF); agentLine "amos"; agentLine "urza"].
Proof.
  destruct (agents_lists_the_agents_of_the_reports sampleWorld sampleFlags "/agents"
              [DirEntry.mk "amos" true; DirEntry.mk "notes.txt" false;
               DirEntry.mk "urza" true])
    as (output & H1 & H2 & _).
  - reflexivity.
  - reflexivity.
  - exists output. split; [exact H1|]. rewrite H2. vm_compute. reflexivity.
Defined.
